(** * HireAI: resume normalisation, scoring and ranking

    A shallow embedding of the parsing and matching core of the
    repository:

    - [hireai/core/parser.py]            skill normalisation
    - [hireai/core/similarity.py]        weighted TF-IDF score
    - [Backup/hireai/core/resume_parser.py]  text and entity extraction,
                                         experience aggregation
    - [Backup/hireai/core/ranker.py]     candidate ranking

    Python [str] values are sequences of code points; here they are Rocq
    [string]s, whose characters are the code points 0..255, classified as
    Python classifies the Latin-1 range.  Python [float] scores are the
    rationals they denote ([Qc]); rounding of binary64, NaN and signed
    zeros are outside the model. *)

From Stdlib Require Import Ascii String ZArith QArith Qcanon Qround.
From stdpp Require Import gmap strings list fin_maps sorting.

Local Open Scope string_scope.

(** ** Python characters and strings *)

Module Py.

Definition code (c : ascii) : N := N_of_ascii c.

Definition between (lo hi : N) (c : ascii) : bool :=
  ((lo <=? code c) && (code c <=? hi))%N.

(** [str.isspace] on one code point; [\s] of [re] and [str.strip] use the
    same set. *)
Definition isspace (c : ascii) : bool :=
  between 9 13 c || between 28 32 c || (code c =? 133)%N || (code c =? 160)%N.

(** [\d] of [re] for [str] patterns: decimal digits. *)
Definition isdecimal (c : ascii) : bool := between 48 57 c.

(** [str.isdigit] on one code point: the decimal digits and the
    superscripts 1, 2, 3. *)
Definition isdigit_char (c : ascii) : bool :=
  isdecimal c || (code c =? 178)%N || (code c =? 179)%N || (code c =? 185)%N.

Definition isupper_char (c : ascii) : bool :=
  between 65 90 c || between 192 214 c || between 216 222 c.

(** [\w] of [re] for [str] patterns: alphanumerics and the underscore. *)
Definition isword (c : ascii) : bool :=
  between 48 57 c || between 65 90 c || between 97 122 c || (code c =? 95)%N
  || (code c =? 170)%N || (code c =? 178)%N || (code c =? 179)%N
  || (code c =? 181)%N || (code c =? 185)%N || (code c =? 186)%N
  || between 188 190 c || between 192 214 c || between 216 246 c
  || between 248 255 c.

Definition lower_char (c : ascii) : ascii :=
  if isupper_char c then ascii_of_N (code c + 32) else c.

Fixpoint map_chars (f : ascii -> ascii) (s : string) : string :=
  match s with
  | EmptyString => EmptyString
  | String c s' => String (f c) (map_chars f s')
  end.

(** [str.lower] *)
Definition lower (s : string) : string := map_chars lower_char s.

Fixpoint lstrip (s : string) : string :=
  match s with
  | String c s' => if isspace c then lstrip s' else s
  | EmptyString => EmptyString
  end.

Fixpoint rstrip (s : string) : string :=
  match s with
  | EmptyString => EmptyString
  | String c s' =>
      match rstrip s' with
      | EmptyString => if isspace c then EmptyString else String c EmptyString
      | r => String c r
      end
  end.

(** [str.strip()] *)
Definition strip (s : string) : string := rstrip (lstrip s).

(** [s.split(sep)] for a single-character separator, and [re.split] on
    a character class: the pieces between the separators, empty pieces
    kept. *)
Fixpoint split_on (sep : ascii -> bool) (s : string) : list string :=
  match s with
  | EmptyString => [EmptyString]
  | String c s' =>
      if sep c then EmptyString :: split_on sep s'
      else match split_on sep s' with
           | p :: ps => String c p :: ps
           | [] => [String c EmptyString]
           end
  end.

(** [sep.join(parts)] *)
Fixpoint join (sep : string) (parts : list string) : string :=
  match parts with
  | [] => EmptyString
  | [p] => p
  | p :: ps => p ++ sep ++ join sep ps
  end.

(** [sub in s] *)
Fixpoint contains (sub s : string) : bool :=
  String.prefix sub s ||
  match s with
  | EmptyString => false
  | String _ s' => contains sub s'
  end.

(** Truthiness of a [str]. *)
Definition truthy (s : string) : bool :=
  match s with EmptyString => false | _ => true end.

(** A returned value or a raised exception. *)
Inductive result (E A : Type) : Type :=
| Ok (a : A)
| Raise (e : E).
Global Arguments Ok {E A} a.
Global Arguments Raise {E A} e.

(** [sorted] on a list of [str]: ascending by code point. *)
Definition sorted (l : list string) : list string := merge_sort String.le l.

Fixpoint rev_string (acc s : string) : string :=
  match s with
  | EmptyString => acc
  | String c s' => rev_string (String c acc) s'
  end.

(** [s.split(sep)] for a separator of one or more characters: the pieces
    between the occurrences of [sep], found from left to right.  [skip]
    counts the characters of a separator still to pass over, [cur] holds
    the current piece, last character first. *)
Fixpoint split_go (sep : string) (skip : nat) (cur : string) (s : string)
    : list string :=
  match s with
  | EmptyString => [rev_string EmptyString cur]
  | String c s' =>
      match skip with
      | S k => split_go sep k cur s'
      | O =>
          if String.prefix sep s
          then rev_string EmptyString cur
               :: split_go sep (String.length sep - 1) EmptyString s'
          else split_go sep 0 (String c cur) s'
      end
  end.

Definition split_str (sep s : string) : list string :=
  split_go sep 0 EmptyString s.



End Py.

(** ** [hireai/core/parser.py]: the skill normaliser *)

Module Parser.

(** [ResumeParser.skill_mappings], in the order of the source. *)
Definition skill_mappings_items : list (string * string) :=
  [ ("js", "javascript"); ("typescript", "typescript"); ("ts", "typescript");
    ("py", "python"); ("c#", "csharp"); ("c++", "cpp"); ("c plus plus", "cpp");
    ("ruby on rails", "ruby"); ("ror", "ruby");
    ("postgres", "postgresql"); ("postgresql", "postgresql");
    ("mssql", "sql server"); ("ms sql", "sql server"); ("mysql", "mysql");
    ("mongodb", "mongodb"); ("nosql", "nosql");
    ("aws", "amazon web services"); ("azure", "microsoft azure");
    ("gcp", "google cloud platform"); ("google cloud", "google cloud platform");
    ("react.js", "react"); ("reactjs", "react"); ("react js", "react");
    ("angular.js", "angular"); ("angularjs", "angular");
    ("vue.js", "vue"); ("vuejs", "vue");
    ("node.js", "nodejs"); ("node js", "nodejs");
    ("express.js", "express"); ("expressjs", "express");
    ("ml", "machine learning"); ("ai", "artificial intelligence");
    ("deep learning", "deep learning"); ("dl", "deep learning");
    ("nlp", "natural language processing");
    ("computer vision", "computer vision"); ("cv", "computer vision");
    ("ci/cd", "continuous integration"); ("cicd", "continuous integration");
    ("docker", "docker"); ("kubernetes", "kubernetes"); ("k8s", "kubernetes");
    ("agile", "agile methodology"); ("scrum", "scrum methodology");
    ("waterfall", "waterfall methodology"); ("devops", "devops");
    ("git", "git"); ("github", "git"); ("gitlab", "git") ].

Definition skill_mappings : gmap string string :=
  list_to_map skill_mappings_items.

(** [self.skill_mappings.get(part, part)] *)
Definition mapped (part : string) : string :=
  default part (skill_mappings !! part).

Definition stop_tokens : list string :=
  ["and"; "or"; "with"; "using"; "via"; "through"].

(** [re.sub(r'[^\w\s]', ' ', s)] *)
Definition sub_special (s : string) : string :=
  Py.map_chars (fun c => if Py.isword c || Py.isspace c then c else " "%char) s.

(** The delimiter class of [re.split(r'[,/&+]', skill)]. *)
Definition is_delim (c : ascii) : bool :=
  bool_decide (c = ","%char) || bool_decide (c = "/"%char)
  || bool_decide (c = "&"%char) || bool_decide (c = "+"%char).

(** The body of the inner loop: one [part] of a skill, added to the set
    or skipped. *)
Definition add_part (normalized_skills : gset string) (part : string)
    : gset string :=
  let part := Py.strip part in
  if negb (Py.truthy part) || (String.length part <? 2)%nat
  then normalized_skills
  else
    let normalized := mapped part in
    if bool_decide (normalized ∉ stop_tokens)
    then {[ normalized ]} ∪ normalized_skills
    else normalized_skills.

(** The body of the outer loop.  The elements are [str] by the type of the
    list, so the [isinstance] guard of the source always passes. *)
Definition add_skill (normalized_skills : gset string) (skill : string)
    : gset string :=
  let skill := sub_special (Py.lower skill) in
  let skill_parts := Py.split_on is_delim skill in
  foldl add_part normalized_skills skill_parts.

Definition normalize_skills (skills : list string) : list string :=
  match skills with
  | [] => []
  | _ =>
      let normalized_skills := foldl add_skill ∅ skills in
      Py.sorted (elements normalized_skills)
  end.

(** [extract_skills_from_text]: the images of the alias keys that occur in
    the lower-cased text. *)
Definition extract_skills_from_text (text : string) : list string :=
  if negb (Py.truthy text) then []
  else
    let text := Py.lower text in
    let found_skills : gset string :=
      foldl (fun found kv => if Py.contains kv.1 text then {[ kv.2 ]} ∪ found
                             else found)
            ∅ skill_mappings_items in
    Py.sorted (elements found_skills).



(** An education dict of [_process_education]; the three last fields are
    always [None]. *)
Record education_entry : Type := Education {
  edu_degree : string;
  edu_field_of_study : string;
  edu_institution : string;
  edu_start_date : option string;
  edu_end_date : option string;
  edu_gpa : option Qc
}.

Definition process_degree (degree : string) : education_entry :=
  let degree_parts := Py.split_str " in " degree in
  match degree_parts with
  | part0 :: part1 :: _ =>
      Education (Py.strip part0) (Py.strip part1) "Unknown" None None None
  | _ => Education (Py.strip degree) "Unknown" "Unknown" None None None
  end.

Definition _process_education (degrees : list string) : list education_entry :=
  process_degree <$> degrees.

(** An experience dict of [_process_experience]. *)
Record experience_entry : Type := Experience {
  exp_company : string;
  exp_title : string;
  exp_description : string;
  exp_start_date : option string;
  exp_end_date : option string;
  exp_skills : list string
}.

(** [parts[0]] and [parts[1]] stripped.  The split of a string on a
    separator it contains has two parts at least, so the last case stands
    for no run of the source. *)
Definition process_experience (exp : string) : experience_entry :=
  let pair_of (parts : list string) : string * string :=
    match parts with
    | part0 :: part1 :: _ => (Py.strip part0, Py.strip part1)
    | _ => ("Unknown", "Unknown")
    end in
  let title_company :=
    if Py.contains " at " exp then pair_of (Py.split_str " at " exp)
    else if Py.contains " with " exp then pair_of (Py.split_str " with " exp)
    else ("Unknown", "Unknown") in
  Experience title_company.2 title_company.1 exp None None [].

Definition _process_experience (experiences : list string) : list experience_entry :=
  process_experience <$> experiences.

End Parser.

(** ** Python's [re]: the fragment the extractors use

    A backtracking matcher with Python's priorities: alternatives are tried
    in order, quantifiers are greedy, and the first way to match wins. *)

Module Re.

Inductive regex : Type :=
| Eps
| Chr (p : ascii -> bool)
| Seq (r1 r2 : regex)
| Alt (r1 r2 : regex)
| Opt (r : regex)
| Rep (p : ascii -> bool) (min : nat) (max : option nat)
| WordB
| Group (n : nat) (r : regex).

(** A match object: start, end, and the span of each group that took part. *)
Record match_obj : Type := Match {
  m_start : nat;
  m_end : nat;
  m_groups : list (nat * (nat * nat))
}.

Section Matcher.
Context {A : Type}.

(** [p{min,max}], greedy: take as many as allowed, give back one at a
    time. *)
Fixpoint rep (p : ascii -> bool) (min : nat) (max : option nat)
    (prev : option ascii) (s : string) (pos : nat)
    (k : option ascii -> string -> nat -> option A) : option A :=
  let stop := match min with O => k prev s pos | S _ => None end in
  match s with
  | String c s' =>
      if p c && negb (bool_decide (max = Some O))
      then match rep p (pred min) (pred <$> max) (Some c) s' (S pos) k with
           | Some a => Some a
           | None => stop
           end
      else stop
  | EmptyString => stop
  end.

Definition at_boundary (prev : option ascii) (s : string) : bool :=
  let before := match prev with Some c => Py.isword c | None => false end in
  let after := match s with String c _ => Py.isword c | EmptyString => false end in
  xorb before after.

Fixpoint run (r : regex) (prev : option ascii) (s : string) (pos : nat)
    (caps : list (nat * (nat * nat)))
    (k : option ascii -> string -> nat -> list (nat * (nat * nat)) -> option A)
    : option A :=
  match r with
  | Eps => k prev s pos caps
  | Chr p =>
      match s with
      | String c s' => if p c then k (Some c) s' (S pos) caps else None
      | EmptyString => None
      end
  | Seq r1 r2 =>
      run r1 prev s pos caps (fun prev' s' pos' caps' => run r2 prev' s' pos' caps' k)
  | Alt r1 r2 =>
      match run r1 prev s pos caps k with
      | Some a => Some a
      | None => run r2 prev s pos caps k
      end
  | Opt r1 =>
      match run r1 prev s pos caps k with
      | Some a => Some a
      | None => k prev s pos caps
      end
  | Rep p min max =>
      rep p min max prev s pos (fun prev' s' pos' => k prev' s' pos' caps)
  | WordB => if at_boundary prev s then k prev s pos caps else None
  | Group n r1 =>
      run r1 prev s pos caps
        (fun prev' s' pos' caps' => k prev' s' pos' ((n, (pos, pos')) :: caps'))
  end.
End Matcher.

Definition match_at (r : regex) (prev : option ascii) (s : string) (pos : nat)
    : option match_obj :=
  run r prev s pos [] (fun _ _ pos' caps => Some (Match pos pos' caps)).

(** [re.match(r, s)]: a match that starts at the first character. *)
Definition match_ (r : regex) (s : string) : option match_obj :=
  match_at r None s 0.

Fixpoint search_from (r : regex) (prev : option ascii) (s : string) (pos : nat)
    : option match_obj :=
  match match_at r prev s pos with
  | Some m => Some m
  | None =>
      match s with
      | String c s' => search_from r (Some c) s' (S pos)
      | EmptyString => None
      end
  end.

(** [re.search(r, s)]: the leftmost match. *)
Definition search (r : regex) (s : string) : option match_obj :=
  search_from r None s 0.

(** [m.group(0)] and [m.group(n)] on the subject [s]; a group that took no
    part in the match gives [None]. *)
Definition group0 (s : string) (m : match_obj) : string :=
  String.substring (m_start m) (m_end m - m_start m) s.

Definition group (s : string) (m : match_obj) (n : nat) : option string :=
  match list_find (fun g => g.1 = n) (m_groups m) with
  | Some (_, (_, (a, b))) => Some (String.substring a (b - a) s)
  | None => None
  end.

(** Pattern syntax. *)
Definition lit (c : ascii) : regex := Chr (fun x => bool_decide (x = c)).
Definition lit_i (c : ascii) : regex :=
  Chr (fun x => bool_decide (Py.lower_char x = Py.lower_char c)).

Fixpoint str (s : string) : regex :=
  match s with
  | EmptyString => Eps
  | String c EmptyString => lit c
  | String c s' => Seq (lit c) (str s')
  end.

(** A literal under [(?i)]. *)
Fixpoint str_i (s : string) : regex :=
  match s with
  | EmptyString => Eps
  | String c EmptyString => lit_i c
  | String c s' => Seq (lit_i c) (str_i s')
  end.

Fixpoint seq (rs : list regex) : regex :=
  match rs with
  | [] => Eps
  | [r] => r
  | r :: rs' => Seq r (seq rs')
  end.

Fixpoint alt (rs : list regex) : regex :=
  match rs with
  | [] => Eps
  | [r] => r
  | r :: rs' => Alt r (alt rs')
  end.

Definition one_of (cs : string) (c : ascii) : bool :=
  bool_decide (c ∈ list_ascii_of_string cs).

Definition digit : ascii -> bool := Py.isdecimal.
Definition word : ascii -> bool := Py.isword.
Definition space : ascii -> bool := Py.isspace.
Definition times (n : nat) (p : ascii -> bool) : regex := Rep p n (Some n).
Definition plus (p : ascii -> bool) : regex := Rep p 1 None.
Definition star (p : ascii -> bool) : regex := Rep p 0 None.
Definition opt_c (p : ascii -> bool) : regex := Rep p 0 (Some 1).

End Re.

(** ** [datetime]: calendar dates and [strptime] with ["%Y-%m-%d"] *)

Module Datetime.

Record date : Type := Date { year : Z; month : Z; day : Z }.

Definition is_leap (y : Z) : bool :=
  ((y mod 4 =? 0) && (negb (y mod 100 =? 0) || (y mod 400 =? 0)))%Z.

Definition days_in_month (y m : Z) : Z :=
  if (m =? 2)%Z then (if is_leap y then 29 else 28)%Z
  else if ((m =? 4) || (m =? 6) || (m =? 9) || (m =? 11))%Z then 30%Z
  else 31%Z.

Definition days_before_year (y : Z) : Z :=
  let y1 := (y - 1)%Z in
  (y1 * 365 + y1 / 4 - y1 / 100 + y1 / 400)%Z.

Definition days_before_month (y m : Z) : Z :=
  (nth (Z.to_nat m) [0; 0; 31; 59; 90; 120; 151; 181; 212; 243; 273; 304; 334] 0
   + (if (2 <? m) && is_leap y then 1 else 0))%Z.

(** [date.toordinal()]: 1 for 0001-01-01. *)
Definition toordinal (d : date) : Z :=
  (days_before_year (year d) + days_before_month (year d) (month d) + day d)%Z.

(** The constructor's range check: [ValueError] outside it. *)
Definition valid (d : date) : bool :=
  ((1 <=? year d) && (year d <=? 9999) && (1 <=? month d) && (month d <=? 12)
   && (1 <=? day d) && (day d <=? days_in_month (year d) (month d)))%Z.

Definition digit_value (c : ascii) : Z := (Z.of_N (Py.code c) - 48)%Z.

(** [int(s)] on a string of decimal digits. *)
Definition int_of_digits (s : string) : Z :=
  foldl (fun acc c => (10 * acc + digit_value c)%Z) 0%Z (list_ascii_of_string s).

Definition range (lo hi : string) (c : ascii) : bool :=
  Py.between (Py.code (default "000"%char (head (list_ascii_of_string lo))))
             (Py.code (default "000"%char (head (list_ascii_of_string hi)))) c.

(** The pattern [_strptime] builds for ["%Y-%m-%d"]:
    [(?P<Y>\d\d\d\d)-(?P<m>1[0-2]|0[1-9]|[1-9])-(?P<d>3[0-1]|[1-2]\d|0[1-9]|[1-9]| [1-9])] *)
Definition ymd_regex : Re.regex :=
  Re.seq
    [ Re.Group 1 (Re.times 4 Re.digit);
      Re.lit "-";
      Re.Group 2 (Re.alt [ Re.Seq (Re.lit "1") (Re.Chr (range "0" "2"));
                           Re.Seq (Re.lit "0") (Re.Chr (range "1" "9"));
                           Re.Chr (range "1" "9") ]);
      Re.lit "-";
      Re.Group 3 (Re.alt [ Re.Seq (Re.lit "3") (Re.Chr (range "0" "1"));
                           Re.Seq (Re.Chr (range "1" "2")) (Re.Chr Re.digit);
                           Re.Seq (Re.lit "0") (Re.Chr (range "1" "9"));
                           Re.Chr (range "1" "9");
                           Re.Seq (Re.lit " ") (Re.Chr (range "1" "9")) ]) ].

(** [datetime.strptime(s, "%Y-%m-%d")]; [None] is the [ValueError]: no
    match, unconverted data left over, or a date that does not exist. *)
Definition strptime_ymd (s : string) : option date :=
  match Re.match_ ymd_regex s with
  | None => None
  | Some m =>
      if negb (Re.m_end m =? String.length s)%nat then None
      else
        match Re.group s m 1, Re.group s m 2, Re.group s m 3 with
        | Some y, Some mo, Some d =>
            let dt := Date (int_of_digits y) (int_of_digits mo)
                           (int_of_digits (Py.lstrip d)) in
            if valid dt then Some dt else None
        | _, _, _ => None
        end
  end.

(** [(end - start).days] *)
Definition days_between (start end_ : date) : Z :=
  (toordinal end_ - toordinal start)%Z.

End Datetime.

(** ** Numbers *)

Module Num.

(** Round to the nearest integer, halves to the even neighbour. *)
Definition round_half_even (q : Q) : Z :=
  let f := Qfloor q in
  match (q - inject_Z f) ?= (1 # 2) with
  | Lt => f
  | Gt => (f + 1)%Z
  | Eq => if Z.even f then f else (f + 1)%Z
  end%Q.

(** [round(x, 1)] *)
Definition round1 (x : Qc) : Qc :=
  (Q2Qc (inject_Z (round_half_even (x * 10))) / Q2Qc 10)%Qc.

(** [float(s)] on a string of digits with at most one dot after the first. *)
Definition float_of_decimal (s : string) : Qc :=
  match Py.split_on (fun c => bool_decide (c = "."%char)) s with
  | [i] => Q2Qc (inject_Z (Datetime.int_of_digits i))
  | i :: f :: _ =>
      Q2Qc (inject_Z (Datetime.int_of_digits (i ++ f))
            / inject_Z (10 ^ Z.of_nat (String.length f)))
  | [] => 0%Qc
  end.

End Num.

(** ** [Backup/hireai/core/resume_parser.py] *)

Module ResumeParser.

Record education_entry : Type := Education {
  degree : string;
  field_of_study : string;
  institution : string;
  edu_start_date : string;
  edu_end_date : string;
  gpa : Qc
}.

(** An experience dict.  [start_date] and [end_date] are [None] when the key
    is absent or holds something that is not a [str]. *)
Record experience_entry : Type := Experience {
  title : string;
  company : string;
  start_date : option string;
  end_date : option string;
  description : string;
  exp_skills : list string
}.

Record resume : Type := Resume {
  name : string;
  email : string;
  phone : string;
  skills : list string;
  education : list education_entry;
  experience : list experience_entry;
  total_experience : Qc
}.

(** What a text extractor hands back: a [str], [None] (or another falsy
    value), a truthy value that is not a [str], or an exception. *)
Inductive extracted : Type :=
| XStr (text : string)
| XNone
| XOther
| XRaise.

Inductive read_cause : Type :=
| UnsupportedFormat (ext : string)   (* "Unsupported file format: ..." *)
| NoText                             (* "Could not extract text from file" *)
| InvalidTextType                    (* "Invalid text type: ..." *)
| ExtractorFailed.                   (* raised inside the extractor *)

Inductive parse_cause : Type :=
| NotFound                           (* FileNotFoundError of [_read_file] *)
| ReadError (c : read_cause)         (* "Error reading file: ..." *)
| EmptyContent                       (* "Invalid or empty file content" *)
| NoInformation.                     (* "Could not extract any information ..." *)

Inductive read_error : Type :=
| FileNotFoundError
| ReadException (c : read_cause).    (* Exception("Error reading file: ...") *)

Inductive parse_error : Type :=
| ParseException (c : parse_cause).  (* Exception("Error parsing resume: ...") *)

(** [os.path.splitext(p)[1]] (POSIX): from the last dot of the last path
    component, unless that component has only leading dots before it. *)
Fixpoint rindex (p : ascii -> bool) (s : string) (pos : nat) : option nat :=
  match s with
  | EmptyString => None
  | String c s' =>
      match rindex p s' (S pos) with
      | Some i => Some i
      | None => if p c then Some pos else None
      end
  end.

Definition splitext_ext (path : string) : string :=
  let sep_index := rindex (fun c => bool_decide (c = "/"%char)) path 0 in
  let dot_index := rindex (fun c => bool_decide (c = "."%char)) path 0 in
  match dot_index with
  | None => ""
  | Some d =>
      let filename_index := match sep_index with Some i => S i | None => O end in
      if (d <? filename_index)%nat then ""
      else
        let before := String.substring filename_index (d - filename_index) path in
        if forallb (fun c => bool_decide (c = "."%char)) (list_ascii_of_string before)
        then ""
        else String.substring d (String.length path - d) path
  end.

(** [s.replace(old, new)] *)
Fixpoint replace_fuel (fuel : nat) (old new s : string) : string :=
  match fuel with
  | O => s
  | S fuel' =>
      if String.prefix old s
      then new ++ replace_fuel fuel' old new
                    (String.substring (String.length old)
                       (String.length s - String.length old) s)
      else match s with
           | EmptyString => EmptyString
           | String c s' => String c (replace_fuel fuel' old new s')
           end
  end.

Definition replace (old new s : string) : string :=
  match old with
  | EmptyString => s
  | _ => replace_fuel (S (String.length s)) old new s
  end.

Fixpoint filter_chars (p : ascii -> bool) (s : string) : string :=
  match s with
  | EmptyString => EmptyString
  | String c s' => if p c then String c (filter_chars p s') else filter_chars p s'
  end.

(** [s.split()]: the maximal runs of characters that are not white space. *)
Definition split_whitespace (s : string) : list string :=
  filter (fun w => Py.truthy w = true) (Py.split_on Py.isspace s).

(** [s.isdigit()] *)
Definition isdigit (s : string) : bool :=
  Py.truthy s && forallb Py.isdigit_char (list_ascii_of_string s).

Definition is_char (c : ascii) : ascii -> bool := fun x => bool_decide (x = c).
Definition ascii_alnum (c : ascii) : bool :=
  Py.between 65 90 c || Py.between 97 122 c || Py.between 48 57 c.

(** The three patterns of [_extract_email]. *)
Definition email_local : ascii -> bool := fun c => ascii_alnum c || Re.one_of "._%+-" c.
Definition email_domain : ascii -> bool := fun c => ascii_alnum c || Re.one_of ".-" c.
Definition email_tld : ascii -> bool :=
  fun c => Py.between 65 90 c || Py.between 97 122 c || is_char "|" c.

Definition email_patterns : list Re.regex :=
  [ Re.seq [Re.WordB; Re.plus email_local; Re.lit "@"; Re.plus email_domain;
            Re.lit "."; Re.Rep email_tld 2 None; Re.WordB];
    Re.seq [Re.WordB; Re.plus email_local; Re.str "[at]"; Re.plus email_domain;
            Re.lit "."; Re.Rep email_tld 2 None; Re.WordB];
    Re.seq [Re.WordB; Re.plus email_local; Re.star Re.space; Re.lit "@";
            Re.star Re.space; Re.plus email_domain;
            Re.lit "."; Re.Rep email_tld 2 None; Re.WordB] ].

(** The four patterns of [_extract_phone]. *)
Definition phone_sep : ascii -> bool := fun c => Re.one_of "-." c || Py.isspace c.

Definition phone_patterns : list Re.regex :=
  [ Re.seq [Re.WordB;
            Re.Opt (Re.seq [Re.lit "+"; Re.Rep Re.digit 1 (Some 3); Re.opt_c phone_sep]);
            Re.opt_c (is_char "("); Re.times 3 Re.digit; Re.opt_c (is_char ")");
            Re.opt_c phone_sep; Re.times 3 Re.digit; Re.opt_c phone_sep;
            Re.times 4 Re.digit; Re.WordB];
    Re.seq [Re.WordB; Re.times 3 Re.digit; Re.opt_c phone_sep; Re.times 3 Re.digit;
            Re.opt_c phone_sep; Re.times 4 Re.digit; Re.WordB];
    Re.seq [Re.WordB; Re.lit "("; Re.times 3 Re.digit; Re.lit ")"; Re.star Re.space;
            Re.times 3 Re.digit; Re.opt_c phone_sep; Re.times 4 Re.digit; Re.WordB];
    Re.seq [Re.WordB; Re.lit "+"; Re.Rep Re.digit 1 (Some 3); Re.star Re.space;
            Re.times 3 Re.digit; Re.star Re.space; Re.times 3 Re.digit;
            Re.star Re.space; Re.times 4 Re.digit; Re.WordB] ].

Definition common_skills : list string :=
  [ "python"; "java"; "javascript"; "typescript"; "react"; "angular"; "vue";
    "node.js"; "express"; "django"; "flask"; "spring"; "aws"; "azure"; "gcp";
    "docker"; "kubernetes"; "jenkins"; "git"; "sql"; "nosql"; "mongodb";
    "postgresql"; "mysql"; "redis"; "html"; "css"; "sass"; "less"; "bootstrap";
    "tailwind"; "material-ui"; "redux"; "graphql"; "rest"; "api"; "microservices";
    "ci/cd"; "devops"; "agile"; "scrum"; "jira"; "confluence"; "linux"; "unix" ].

(** [x\.?] under [(?i)] *)
Definition abbr (a b : ascii) : Re.regex :=
  Re.seq [Re.lit_i a; Re.opt_c (is_char "."); Re.lit_i b; Re.opt_c (is_char ".")].

(** [(?i)(bachelor|master|phd|b\.?s\.?|m\.?s\.?|b\.?e\.?|m\.?e\.?)] *)
Definition degree_regex : Re.regex :=
  Re.Group 1 (Re.alt [ Re.str_i "bachelor"; Re.str_i "master"; Re.str_i "phd";
                       abbr "b" "s"; abbr "m" "s"; abbr "b" "e"; abbr "m" "e" ]).

(** [(?i)(university|college|institute)] *)
Definition institution_regex : Re.regex :=
  Re.Group 1 (Re.alt [Re.str_i "university"; Re.str_i "college"; Re.str_i "institute"]).

(** [(?i)(computer science|engineering|information technology|it)] *)
Definition field_regex : Re.regex :=
  Re.Group 1 (Re.alt [ Re.str_i "computer science"; Re.str_i "engineering";
                       Re.str_i "information technology"; Re.str_i "it" ]).

Definition education_patterns : list Re.regex :=
  [degree_regex; institution_regex; field_regex].

(** [(\d{4})\s*-\s*(\d{4}|\w+)] *)
Definition date_range_regex : Re.regex :=
  Re.seq [ Re.Group 1 (Re.times 4 Re.digit); Re.star Re.space; Re.lit "-";
           Re.star Re.space;
           Re.Group 2 (Re.Alt (Re.times 4 Re.digit) (Re.plus Re.word)) ].

(** [(?i)(gpa|grade point average)[:\s]+(\d+\.?\d* )] (no space in the source) *)
Definition gpa_regex : Re.regex :=
  Re.seq [ Re.Group 1 (Re.Alt (Re.str_i "gpa") (Re.str_i "grade point average"));
           Re.plus (fun c => is_char ":" c || Py.isspace c);
           Re.Group 2 (Re.seq [Re.plus Re.digit; Re.opt_c (is_char "."); Re.star Re.digit]) ].

(** [(?i)(present|current|now)] *)
Definition current_regex : Re.regex :=
  Re.Group 1 (Re.alt [Re.str_i "present"; Re.str_i "current"; Re.str_i "now"]).

(** [(?i)(developer|engineer|architect|consultant|manager)] *)
Definition title_regex : Re.regex :=
  Re.Group 1 (Re.alt [ Re.str_i "developer"; Re.str_i "engineer"; Re.str_i "architect";
                       Re.str_i "consultant"; Re.str_i "manager" ]).

Definition experience_patterns : list Re.regex :=
  [ Re.Group 1 (Re.alt [Re.str_i "experience"; Re.str_i "work"; Re.str_i "employment"]);
    Re.Group 1 (Re.Alt (Re.Seq (Re.str_i "year") (Re.Opt (Re.lit_i "s")))
                       (Re.Seq (Re.str_i "month") (Re.Opt (Re.lit_i "s"))));
    title_regex;
    current_regex ].

(** [(?i)(inc\.?|ltd\.?|llc|corp\.?|company)] *)
Definition company_regex : Re.regex :=
  Re.Group 1 (Re.alt [ Re.Seq (Re.str_i "inc") (Re.opt_c (is_char "."));
                       Re.Seq (Re.str_i "ltd") (Re.opt_c (is_char "."));
                       Re.str_i "llc";
                       Re.Seq (Re.str_i "corp") (Re.opt_c (is_char "."));
                       Re.str_i "company" ]).

(** [(\d{4})\s*-\s*(present|current|now)] with [re.IGNORECASE] *)
Definition current_range_regex : Re.regex :=
  Re.seq [ Re.Group 1 (Re.times 4 Re.digit); Re.star Re.space; Re.lit "-";
           Re.star Re.space;
           Re.Group 2 (Re.alt [Re.str_i "present"; Re.str_i "current"; Re.str_i "now"]) ].

Definition found (r : Re.regex) (s : string) : bool :=
  bool_decide (is_Some (Re.search r s)).

(** [x or y] on strings. *)
Definition or_str (x y : string) : string := if Py.truthy x then x else y.

Abbreviation result := Py.result.
Abbreviation Ok := Py.Ok.
Abbreviation Raise := Py.Raise.

Section Parser.

(** [datetime.now().strftime("%Y-%m-%d")] *)
Variable today : string.
(** spaCy's pipeline, as far as [_extract_name] looks at it: the text of
    the first entity labelled PERSON, if there is one. *)
Variable first_person_entity : string -> option string.
(** The file system and the extractors of the libraries. *)
Variable path_exists : string -> bool.
Variable pdf_extract_text : string -> extracted.
Variable docx2txt_process : string -> extracted.
Variable open_read_utf8 : string -> extracted.

Definition _read_file (file_path : string) : result read_error string :=
  if negb (path_exists file_path) then Raise FileNotFoundError
  else
    let file_extension := Py.lower (splitext_ext file_path) in
    let text :=
      if bool_decide (file_extension = ".pdf") then Ok (pdf_extract_text file_path)
      else if bool_decide (file_extension = ".docx") then Ok (docx2txt_process file_path)
      else if bool_decide (file_extension = ".txt") then Ok (open_read_utf8 file_path)
      else Raise (UnsupportedFormat file_extension) in
    match text with
    | Raise c => Raise (ReadException c)
    | Ok XRaise => Raise (ReadException ExtractorFailed)
    | Ok XNone => Raise (ReadException NoText)
    | Ok XOther => Raise (ReadException InvalidTextType)
    | Ok (XStr text) =>
        if negb (Py.truthy text) then Raise (ReadException NoText)
        else Ok (Py.strip text)
    end.

Definition capitalized_pair (line : string) : option string :=
  let words := split_whitespace (Py.strip line) in
  if (2 <=? length words)%nat
     && forallb (fun word => match word with
                             | String c _ => Py.isupper_char c
                             | EmptyString => false
                             end) (take 2 words)
  then Some (Py.join " " (take 2 words))
  else None.

Definition _extract_name (text : string) : string :=
  if negb (Py.truthy text) then "Unknown"
  else
    match first_person_entity text with
    | Some ent => ent
    | None =>
        let lines := Py.split_on (is_char "010") text in
        default "Unknown" (head (omap capitalized_pair (take 5 lines)))
    end.

(** The first pattern of the list that matches, with its match. *)
Definition first_match (patterns : list Re.regex) (text : string) : option string :=
  head (omap (fun p => Re.group0 text <$> Re.search p text) patterns).

Definition _extract_email (text : string) : string :=
  if negb (Py.truthy text) then "Not provided"
  else
    match first_match email_patterns text with
    | Some email => Py.lower (replace " " "" (replace "[at]" "@" email))
    | None => "Not provided"
    end.

Definition _extract_phone (text : string) : string :=
  if negb (Py.truthy text) then "Not provided"
  else
    match first_match phone_patterns text with
    | Some phone => filter_chars (fun c => Py.isdecimal c || is_char "+" c) phone
    | None => "Not provided"
    end.

Definition _extract_skills (text : string) : list string :=
  if negb (Py.truthy text) then []
  else
    let text_lower := Py.lower text in
    filter (fun skill => Py.contains skill text_lower = true) common_skills.

(** The dates of a line that has a range [YYYY - YYYY] or [YYYY - word]. *)
Definition range_dates (line : string) : option (string * string) :=
  match Re.search date_range_regex line with
  | Some m =>
      let start_year := default "" (Re.group line m 1) in
      let end_year := default "" (Re.group line m 2) in
      Some (start_year ++ "-01-01",
            if isdigit end_year then end_year ++ "-12-31" else today)
  | None => None
  end.

(** Closing an education accumulator: kept only with a degree and an
    institution. *)
Definition close_education (education : list education_entry)
    (current_edu : option education_entry) : list education_entry :=
  match current_edu with
  | Some cur =>
      if Py.truthy (degree cur) && Py.truthy (institution cur)
      then education ++
           [ Education (degree cur)
               (or_str (field_of_study cur) "Not specified")
               (institution cur)
               (or_str (edu_start_date cur) today)
               (or_str (edu_end_date cur) today)
               (gpa cur) ]
      else education
  | None => education
  end.

Definition open_education (line : string) : education_entry :=
  let degree := match Re.search degree_regex line with
                | Some m => Re.group0 line m
                | None => ""
                end in
  let field_of_study := match Re.search field_regex line with
                        | Some m => Re.group0 line m
                        | None => "Not specified"
                        end in
  let institution := if found institution_regex line then line else "" in
  let dates := default (today, today) (range_dates line) in
  let gpa := match Re.search gpa_regex line with
             | Some m => Num.float_of_decimal (default "" (Re.group line m 2))
             | None => 0%Qc
             end in
  Education degree field_of_study institution dates.1 dates.2 gpa.

Definition education_step
    (st : list education_entry * option education_entry) (line : string)
    : list education_entry * option education_entry :=
  let line := Py.strip line in
  if negb (Py.truthy line) then st
  else if existsb (fun pattern => found pattern line) education_patterns
  then (close_education st.1 st.2, Some (open_education line))
  else st.

Definition _extract_education (text : string) : list education_entry :=
  let lines := Py.split_on (is_char "010") text in
  let st := foldl education_step ([], None) lines in
  close_education st.1 st.2.

Definition or_date (d : option string) : option string :=
  match d with
  | Some s => if Py.truthy s then Some s else Some today
  | None => Some today
  end.

Definition close_experience (experience : list experience_entry)
    (current_exp : option experience_entry) : list experience_entry :=
  match current_exp with
  | Some cur =>
      if Py.truthy (title cur) && Py.truthy (company cur)
      then experience ++
           [ Experience (title cur) (company cur)
               (or_date (start_date cur)) (or_date (end_date cur))
               (or_str (description cur) "No description provided")
               (exp_skills cur) ]
      else experience
  | None => experience
  end.

Definition open_experience (line : string) : experience_entry :=
  let title := match Re.search title_regex line with
               | Some m => Re.group0 line m
               | None => ""
               end in
  let company := if found company_regex line then line else "" in
  let is_current := found current_regex line in
  let dates :=
    if negb is_current then default (today, today) (range_dates line)
    else match Re.search current_range_regex line with
         | Some m => (default "" (Re.group line m 1) ++ "-01-01", today)
         | None => (today, today)
         end in
  Experience title company (Some dates.1) (Some dates.2)
    "No description provided" (_extract_skills line).

Definition experience_step
    (st : list experience_entry * option experience_entry) (line : string)
    : list experience_entry * option experience_entry :=
  if negb (Py.truthy line) then st
  else
    let line := Py.strip line in
    if negb (Py.truthy line) then st
    else if existsb (fun pattern => found pattern line) experience_patterns
    then (close_experience st.1 st.2, Some (open_experience line))
    else st.

Definition _extract_experience (text : string) : list experience_entry :=
  if negb (Py.truthy text) then []
  else
    let lines := Py.split_on (is_char "010") text in
    let st := foldl experience_step ([], None) lines in
    close_experience st.1 st.2.

(** One turn of the loop of [_calculate_total_experience]: the years of
    the entry are added, or the entry is skipped. *)
Definition add_years (total_years : Qc) (exp : experience_entry) : Qc :=
  match start_date exp, end_date exp with
  | Some s, Some e =>
      if Py.truthy s && Py.truthy e then
        match Datetime.strptime_ymd s with
        | Some start =>
            match Datetime.strptime_ymd e with
            | Some end_ =>
                let years :=
                  (Q2Qc (inject_Z (Datetime.days_between start end_)) / Q2Qc 365.25)%Qc in
                (total_years + years)%Qc
            | None => total_years
            end
        | None => total_years
        end
      else total_years
  | _, _ => total_years
  end.

Definition _calculate_total_experience (experience : list experience_entry) : Qc :=
  Num.round1 (foldl add_years 0%Qc experience).

Definition parse_resume (file_path : string) : result parse_error resume :=
  match _read_file file_path with
  | Raise FileNotFoundError => Raise (ParseException NotFound)
  | Raise (ReadException c) => Raise (ParseException (ReadError c))
  | Ok content =>
      if negb (Py.truthy content) then Raise (ParseException EmptyContent)
      else
        let name := or_str (_extract_name content) "Unknown" in
        let email := or_str (_extract_email content) "Not provided" in
        let phone := or_str (_extract_phone content) "Not provided" in
        let skills := _extract_skills content in
        let education := _extract_education content in
        let experience := _extract_experience content in
        let total_experience := _calculate_total_experience experience in
        if negb (Py.truthy name) && negb (Py.truthy email) && negb (Py.truthy phone)
           && bool_decide (skills = []) && bool_decide (length education = 0%nat)
           && bool_decide (length experience = 0%nat)
        then Raise (ParseException NoInformation)
        else Ok (Resume name email phone skills education experience total_experience)
  end.

End Parser.

End ResumeParser.

(** ** scikit-learn, as far as the scorers look at it *)

Module Sklearn.

(** [TfidfVectorizer.fit_transform(docs)] gives one row per document, or
    raises [ValueError] on an empty vocabulary ([None]);
    [cosine_similarity] of two rows is a number. *)
Record vectorizer : Type := Vectorizer {
  vec : Type;
  fit_transform : list string -> option (nat -> vec);
  cosine_similarity : vec -> vec -> Qc
}.

(** [cosine_similarity(X, y)] for a matrix of rows [X] and a single row
    [y]: one number per row of [X], or [ValueError] ([None]) when [X] has
    no row, since the input check asks for at least one sample. *)
Definition cosine_rows (sk : vectorizer) (rows : list (vec sk)) (y : vec sk)
    : option (list Qc) :=
  match rows with
  | [] => None
  | _ => Some ((fun x => cosine_similarity sk x y) <$> rows)
  end.

End Sklearn.

(** ** [hireai/core/similarity.py] *)

Module Similarity.

(** A job or candidate dict, as far as the calculator reads it; [None] is an
    absent key. *)
Record profile : Type := Profile {
  skills : option (list string);
  location : option string;
  experience_level : option string
}.

Inductive category : Type := Skills | Location | Experience.

(** The dict [detailed_scores]; its keys are always the three categories,
    inserted in this order. *)
Record detailed_scores : Type := Detailed {
  skills_score : Qc;
  location_score : Qc;
  experience_score : Qc
}.

(** [detailed_scores.items()] *)
Definition items (d : detailed_scores) : list (category * Qc) :=
  [(Skills, skills_score d); (Location, location_score d);
   (Experience, experience_score d)].

(** [weights = {'skills': 0.6, 'location': 0.2, 'experience': 0.2}] *)
Definition weights (c : category) : Qc :=
  match c with
  | Skills => Q2Qc 0.6
  | Location => Q2Qc 0.2
  | Experience => Q2Qc 0.2
  end.

(** [sum(...)] over numbers: from 0, left to right. *)
Definition sum (xs : list Qc) : Qc := foldl Qcplus 0%Qc xs.

Inductive method : Type := Tfidf | Embeddings.

Section Calculator.

Variable sk : Sklearn.vectorizer.
(** The embedding strategy needs the external model; it is not part of
    this development. *)
Variable _calculate_embedding_similarity :
  profile -> profile -> option (Qc * detailed_scores).

(** [fit_transform([a, b])] and the cosine of the two rows, or the
    [ValueError]. *)
Definition tfidf_cosine (a b : string) : option Qc :=
  m ← Sklearn.fit_transform sk [a; b];
  Some (Sklearn.cosine_similarity sk (m 0%nat) (m 1%nat)).

Definition _prepare_text_for_tfidf (data : profile) : string :=
  let text_parts : list string :=
    (default [] (skills data)
     ++ match location data with Some l => [l] | None => [] end
     ++ match experience_level data with Some e => [e] | None => [] end)%list in
  Py.join " " text_parts.

Definition _calculate_skills_similarity (job_skills candidate_skills : list string)
    : Qc :=
  if bool_decide (job_skills = []) || bool_decide (candidate_skills = [])
  then 0%Qc
  else
    let job_skills_text := Py.join " " job_skills in
    let candidate_skills_text := Py.join " " candidate_skills in
    default 0%Qc (tfidf_cosine job_skills_text candidate_skills_text).

Definition _calculate_location_similarity (job_location candidate_location : string)
    : Qc :=
  if negb (Py.truthy job_location) || negb (Py.truthy candidate_location)
  then 0%Qc
  else default 0%Qc (tfidf_cosine job_location candidate_location).

Definition _calculate_experience_similarity
    (job_experience candidate_experience : string) : Qc :=
  if negb (Py.truthy job_experience) || negb (Py.truthy candidate_experience)
  then 0%Qc
  else default 0%Qc (tfidf_cosine job_experience candidate_experience).

Definition _calculate_tfidf_similarity (job_info candidate : profile)
    : Qc * detailed_scores :=
  let job_text := _prepare_text_for_tfidf job_info in
  let candidate_text := _prepare_text_for_tfidf candidate in
  (* computed and not used afterwards *)
  let similarity := default 0%Qc (tfidf_cosine job_text candidate_text) in
  let detailed_scores :=
    Detailed
      (_calculate_skills_similarity (default [] (skills job_info))
                                    (default [] (skills candidate)))
      (_calculate_location_similarity (default "" (location job_info))
                                      (default "" (location candidate)))
      (_calculate_experience_similarity (default "" (experience_level job_info))
                                        (default "" (experience_level candidate))) in
  let weighted_score :=
    sum (map (fun '(category, score) => (score * weights category)%Qc)
             (items detailed_scores)) in
  (weighted_score, detailed_scores).

(** [None] only where the embedding strategy gives none. *)
Definition calculate_similarity (m : method) (job_info candidate : profile)
    : option (Qc * detailed_scores) :=
  match m with
  | Tfidf => Some (_calculate_tfidf_similarity job_info candidate)
  | Embeddings => _calculate_embedding_similarity job_info candidate
  end.

End Calculator.

End Similarity.

(** ** [Backup/hireai/core/ranker.py]

    [rank] copies dicts and sorts a list in place, so its model runs on a
    store of objects: the candidate dicts and the lists that hold them are
    objects addressed by references. *)

Module Ranker.

Local Open Scope list_scope.

(** The values a candidate dict holds.  They are never written by [rank],
    so they are plain data. *)
#[warnings="-register-all"]
Inductive value : Type :=
| VNone
| VStr (s : string)
| VNum (x : Qc)
| VList (l : list value)
| VDict (d : gmap string value).

Abbreviation loc := positive.

Inductive object : Type :=
| ODict (d : gmap string value)
| OList (items : list loc).

Abbreviation heap := (gmap loc object).

Inductive exn : Type :=
| TypeError
| KeyError
| ValueError.

Abbreviation result := (Py.result exn).
Abbreviation Ok := Py.Ok.
Abbreviation Raise := Py.Raise.

(** Computations on the store. *)
Definition M (A : Type) : Type := heap -> heap * result A.

Definition ret {A} (a : A) : M A := fun h => (h, Ok a).
Definition raise {A} (e : exn) : M A := fun h => (h, Raise e).
Definition bind {A B} (m : M A) (f : A -> M B) : M B :=
  fun h => match m h with
           | (h', Ok a) => f a h'
           | (h', Raise e) => (h', Raise e)
           end.
Definition lift {A} (r : result A) : M A := fun h => (h, r).

#[global] Instance M_ret : MRet M := @ret.
#[global] Instance M_bind : MBind M := fun A B f m => bind m f.

Fixpoint map_m {A B} (f : A -> M B) (xs : list A) : M (list B) :=
  match xs with
  | [] => ret []
  | x :: xs' => y ← f x; ys ← map_m f xs'; ret (y :: ys)
  end.

Fixpoint for_each {A} (body : A -> M unit) (xs : list A) : M unit :=
  match xs with
  | [] => ret tt
  | x :: xs' => body x;; for_each body xs'
  end.

(** Reading a list object and a dict object.  A reference to anything else
    is a type error. *)
Definition get_list (l : loc) : M (list loc) :=
  fun h => match h !! l with
           | Some (OList items) => (h, Ok items)
           | _ => (h, Raise TypeError)
           end.

Definition get_dict (l : loc) : M (gmap string value) :=
  fun h => match h !! l with
           | Some (ODict d) => (h, Ok d)
           | _ => (h, Raise TypeError)
           end.

(** A new object, at a reference the store does not use. *)
Definition alloc (o : object) : M loc :=
  fun h => let l := fresh (dom h) in (<[l := o]> h, Ok l).

(** Writing an object at a reference. *)
Definition store (l : loc) (o : object) : M unit :=
  fun h => (<[l := o]> h, Ok tt).

(** [d.copy()]: a new dict with the same items. *)
Definition dict_copy (l : loc) : M loc :=
  d ← get_dict l; alloc (ODict d).

(** [d[key] = v] *)
Definition dict_setitem (l : loc) (key : string) (v : value) : M unit :=
  d ← get_dict l; store l (ODict (<[key := v]> d)).

(** [xs.append(x)] *)
Definition list_append (l : loc) (x : loc) : M unit :=
  items ← get_list l; store l (OList (items ++ [x])).

(** Stable sorting by a number, largest first: what
    [list.sort(key=..., reverse=True)] does to the keyed list. *)
Fixpoint insert_desc {A} (x : Qc * A) (l : list (Qc * A)) : list (Qc * A) :=
  match l with
  | [] => [x]
  | y :: l' =>
      if bool_decide (y.1 ≤ x.1)%Qc then x :: y :: l' else y :: insert_desc x l'
  end.

Definition sort_desc {A} (l : list (Qc * A)) : list (Qc * A) :=
  foldr insert_desc [] l.

(** The key function [lambda x: x['score']] on an element of the list. *)
Definition score_key (x : loc) : M (Qc * loc) :=
  d ← get_dict x;
  match d !! "score" with
  | Some (VNum s) => ret (s, x)
  | Some _ => raise TypeError
  | None => raise KeyError
  end.

(** [xs.sort(key=lambda x: x['score'], reverse=True)] *)
Definition list_sort_by_score (l : loc) : M unit :=
  items ← get_list l;
  keyed ← map_m score_key items;
  store l (OList (snd <$> sort_desc keyed)).

(** Iterating a value: the elements of a list, the characters of a string,
    the keys of a dict (in the order of the map; the model does not keep
    the order of insertion). *)
Definition iterate (v : value) : result (list value) :=
  match v with
  | VList l => Ok l
  | VStr s => Ok ((fun c => VStr (String c EmptyString)) <$> list_ascii_of_string s)
  | VDict d => Ok ((fun kv => VStr kv.1) <$> map_to_list d)
  | VNone | VNum _ => Raise TypeError
  end.

(** [d.get(key, '')] *)
Definition get_or_empty (d : gmap string value) (key : string) : value :=
  default (VStr "") (d !! key).

(** [' '.join(parts)]: every part has to be a [str]. *)
Definition join_values (parts : list value) : result string :=
  match mapM (fun v => match v with VStr s => Some s | _ => None end) parts with
  | Some ss => Ok (Py.join " " ss)
  | None => Raise TypeError
  end.

Definition rbind {A B} (r : result A) (f : A -> result B) : result B :=
  match r with
  | Ok a => f a
  | Raise e => Raise e
  end.

Fixpoint rfold {A S} (f : S -> A -> result S) (s : S) (xs : list A) : result S :=
  match xs with
  | [] => Ok s
  | x :: xs' => rbind (f s x) (fun s' => rfold f s' xs')
  end.

Section Rank.

Variable sk : Sklearn.vectorizer.
(** spaCy in [_prepare_candidate_text]: the lemmas of the tokens that are
    not stop words, joined by spaces. *)
Variable nlp_clean : string -> string.

Definition education_parts (text_parts : list value) (edu : value)
    : result (list value) :=
  match edu with
  | VDict d =>
      Ok (text_parts ++ [ get_or_empty d "institution"; get_or_empty d "degree";
                          get_or_empty d "field_of_study" ])
  | _ => Ok text_parts
  end.

Definition experience_parts (text_parts : list value) (exp : value)
    : result (list value) :=
  match exp with
  | VDict d =>
      let text_parts :=
        text_parts ++ [ get_or_empty d "company"; get_or_empty d "title";
                        get_or_empty d "description" ] in
      match d !! "skills" with
      | Some skills => rbind (iterate skills) (fun ss => Ok (text_parts ++ ss))
      | None => Ok text_parts
      end
  | _ => Ok text_parts
  end.

Definition _prepare_candidate_text (candidate : gmap string value) : result string :=
  let text_parts : list value := [] in
  rbind (match candidate !! "skills" with
         | Some skills => rbind (iterate skills) (fun ss => Ok (text_parts ++ ss))
         | None => Ok text_parts
         end) (fun text_parts =>
  rbind (match candidate !! "education" with
         | Some education =>
             rbind (iterate education) (rfold education_parts text_parts)
         | None => Ok text_parts
         end) (fun text_parts =>
  rbind (match candidate !! "experience" with
         | Some experience =>
             rbind (iterate experience) (rfold experience_parts text_parts)
         | None => Ok text_parts
         end) (fun text_parts =>
  rbind (join_values text_parts) (fun text =>
  Ok (nlp_clean text))))).

(** The scores of the candidate texts against the job description: the
    cosines of the rows of the fitted matrix with its last row.  A corpus
    without vocabulary and an empty list of candidates are both a
    [ValueError]. *)
Definition similarity_scores (candidate_texts : list string)
    (job_description : string) : result (list Qc) :=
  let all_texts := candidate_texts ++ [job_description] in
  match Sklearn.fit_transform sk all_texts with
  | None => Raise ValueError
  | Some tfidf_matrix =>
      let job_vector := tfidf_matrix (length all_texts - 1)%nat in
      let candidate_vectors := tfidf_matrix <$> seq 0 (length all_texts - 1) in
      match Sklearn.cosine_rows sk candidate_vectors job_vector with
      | Some scores => Ok scores
      | None => Raise ValueError
      end
  end.

Definition add_score (ranked_candidates : loc) (cs : loc * Qc) : M unit :=
  candidate_copy ← dict_copy cs.1;
  dict_setitem candidate_copy "score" (VNum cs.2);;
  list_append ranked_candidates candidate_copy.

Definition rank (candidates : loc) (job_description : string) : M loc :=
  cands ← get_list candidates;
  candidate_texts ←
    map_m (fun candidate => d ← get_dict candidate;
                            lift (_prepare_candidate_text d)) cands;
  scores ← lift (similarity_scores candidate_texts job_description);
  ranked_candidates ← alloc (OList []);
  for_each (add_score ranked_candidates) (zip cands scores);;
  list_sort_by_score ranked_candidates;;
  ret ranked_candidates.

End Rank.

End Ranker.

(** ** [Backup/hireai/core/search.py]

    [JobSearch.search] has the shape of [rank], on the same store. *)

Module Search.

Import Ranker.
Local Open Scope list_scope.

Definition sample_job_1 : gmap string value :=
  {[ "title" := VStr "Senior Python Developer";
     "company" := VStr "Tech Corp";
     "location" := VStr "San Francisco, CA";
     "description" :=
       VStr "We are looking for a Senior Python Developer to join our team...";
     "requirements" :=
       VList [ VStr "5+ years of Python experience";
               VStr "Experience with Django or Flask";
               VStr "Strong knowledge of SQL";
               VStr "Experience with AWS" ] ]}.

Definition sample_job_2 : gmap string value :=
  {[ "title" := VStr "Machine Learning Engineer";
     "company" := VStr "AI Solutions";
     "location" := VStr "New York, NY";
     "description" :=
       VStr "Join our AI team to build cutting-edge machine learning solutions...";
     "requirements" :=
       VList [ VStr "MS or PhD in Computer Science or related field";
               VStr "Experience with PyTorch or TensorFlow";
               VStr "Strong background in machine learning";
               VStr "Experience with NLP" ] ]}.

(** [_get_sample_jobs]: a new list of two new dicts. *)
Definition _get_sample_jobs : M loc :=
  job1 ← alloc (ODict sample_job_1);
  job2 ← alloc (ODict sample_job_2);
  alloc (OList [job1; job2]).

Section Search.

Variable sk : Sklearn.vectorizer.
Variable nlp_clean : string -> string.

Definition _prepare_job_text (job : gmap string value) : result string :=
  let text_parts : list value :=
    [ get_or_empty job "title"; get_or_empty job "company";
      get_or_empty job "description" ] in
  rbind (match job !! "requirements" with
         | Some requirements =>
             rbind (iterate requirements) (fun rs => Ok (text_parts ++ rs))
         | None => Ok text_parts
         end) (fun text_parts =>
  rbind (join_values text_parts) (fun text =>
  Ok (nlp_clean text))).

(** [jobs] is [None] (the default) or a reference to a list. *)
Definition search (query : string) (jobs : option loc) : M loc :=
  jobs ← match jobs with
         | None => _get_sample_jobs
         | Some l =>
             items ← get_list l;
             if bool_decide (items = []) then _get_sample_jobs else mret l
         end;
  items ← get_list jobs;
  job_texts ←
    map_m (fun job => d ← get_dict job; lift (_prepare_job_text d)) items;
  scores ← lift (similarity_scores sk job_texts query);
  scored_jobs ← alloc (OList []);
  for_each (add_score scored_jobs) (zip items scores);;
  list_sort_by_score scored_jobs;;
  mret scored_jobs.

End Search.

End Search.

(** * Properties *)

Module ParserFacts.
Import Parser.

(** Characters that one cleaning pass leaves alone. *)
Definition clean_char (c : ascii) : bool :=
  (Py.isword c || Py.isspace c) && bool_decide (Py.lower_char c = c).

Fixpoint clean (s : string) : bool :=
  match s with
  | EmptyString => true
  | String c s' => clean_char c && clean s'
  end.

Lemma ascii_forall (P : ascii -> bool) :
  forallb (fun n => P (ascii_of_nat n)) (seq 0 256) = true -> forall c, P c = true.
Proof.
  intros H c. rewrite forallb_forall in H.
  rewrite <- (ascii_nat_embedding c). apply H.
  apply in_seq. pose proof (nat_ascii_bounded c). lia.
Qed.

Lemma sub_lower_clean_char c :
  clean_char (if Py.isword (Py.lower_char c) || Py.isspace (Py.lower_char c)
              then Py.lower_char c else " "%char) = true.
Proof. revert c. apply ascii_forall. vm_compute. reflexivity. Qed.

Lemma clean_sub_lower s : clean (sub_special (Py.lower s)) = true.
Proof.
  induction s as [|c s IH]; [done|].
  cbn [Py.lower Py.map_chars sub_special clean].
  rewrite sub_lower_clean_char. exact IH.
Qed.

Lemma clean_char_fix c :
  clean_char c = true ->
  Py.lower_char c = c /\ (if Py.isword c || Py.isspace c then c else " "%char) = c
  /\ is_delim c = false.
Proof.
  intros H.
  assert (G : forall c, implb (clean_char c)
            (bool_decide (Py.lower_char c = c)
             && bool_decide ((if Py.isword c || Py.isspace c then c else " "%char) = c)
             && negb (is_delim c)) = true).
  { apply ascii_forall. vm_compute. reflexivity. }
  specialize (G c). rewrite H in G. cbn in G.
  apply andb_prop in G as [G G3]. apply andb_prop in G as [G1 G2].
  apply bool_decide_eq_true in G1, G2. apply negb_true_iff in G3. done.
Qed.

Lemma clean_cons c s : clean (String c s) = true <-> clean_char c = true /\ clean s = true.
Proof. cbn. apply andb_true_iff. Qed.

Lemma clean_lower s : clean s = true -> Py.lower s = s.
Proof.
  induction s as [|c s IH]; [done|]. rewrite clean_cons. intros [Hc Hs].
  cbn. rewrite (proj1 (clean_char_fix c Hc)). f_equal. by apply IH.
Qed.

Lemma clean_sub_special s : clean s = true -> sub_special s = s.
Proof.
  induction s as [|c s IH]; [done|]. rewrite clean_cons. intros [Hc Hs].
  cbn. destruct (clean_char_fix c Hc) as (_ & -> & _). f_equal. by apply IH.
Qed.

Lemma clean_split s : clean s = true -> Py.split_on is_delim s = [s].
Proof.
  induction s as [|c s IH]; [done|]. rewrite clean_cons. intros [Hc Hs].
  cbn. destruct (clean_char_fix c Hc) as (_ & _ & ->). by rewrite IH.
Qed.

Lemma split_on_nonempty sep s : Py.split_on sep s <> [].
Proof. destruct s as [|c s]; cbn; [done|]. destruct (sep c); [done|]. by destruct (Py.split_on sep s). Qed.

Lemma clean_split_parts s p :
  clean s = true -> p ∈ Py.split_on is_delim s -> clean p = true.
Proof.
  revert p. induction s as [|c s IH]; intros p Hs Hp.
  - cbn in Hp. apply list_elem_of_singleton in Hp. by subst.
  - apply clean_cons in Hs as [Hc Hs]. cbn in Hp.
    destruct (is_delim c).
    + apply elem_of_cons in Hp as [->|Hp]; [done|]. by apply IH.
    + destruct (Py.split_on is_delim s) as [|q qs] eqn:E.
      * apply list_elem_of_singleton in Hp. subst. cbn. by rewrite Hc.
      * apply elem_of_cons in Hp as [->|Hp].
        -- apply clean_cons. split; [done|]. apply IH; [done|]. left.
        -- apply IH; [done|]. by right.
Qed.

Lemma clean_lstrip s : clean s = true -> clean (Py.lstrip s) = true.
Proof.
  induction s as [|c s IH]; [done|]. intros H. cbn.
  destruct (Py.isspace c); [|done]. apply clean_cons in H as [_ H]. by apply IH.
Qed.

Lemma clean_rstrip s : clean s = true -> clean (Py.rstrip s) = true.
Proof.
  induction s as [|c s IH]; [done|]. rewrite clean_cons. intros [Hc Hs]. cbn.
  specialize (IH Hs). destruct (Py.rstrip s) as [|d r].
  - destruct (Py.isspace c); [done|]. cbn. by rewrite Hc.
  - apply clean_cons. done.
Qed.

Lemma clean_strip s : clean s = true -> clean (Py.strip s) = true.
Proof. intros. by apply clean_rstrip, clean_lstrip. Qed.

(** [strip] leaves a string alone when it neither starts nor ends with
    white space; its result is such a string. *)
Lemma lstrip_head s :
  match Py.lstrip s with String c _ => Py.isspace c = false | EmptyString => True end.
Proof.
  induction s as [|c s IH]; [done|]. cbn. destruct (Py.isspace c) eqn:E; [done|]. by cbn.
Qed.

Lemma lstrip_id s :
  match s with String c _ => Py.isspace c = false | EmptyString => True end ->
  Py.lstrip s = s.
Proof. destruct s as [|c s]; [done|]. cbn. by intros ->. Qed.

Lemma rstrip_cons c s :
  Py.rstrip (String c s) =
  match Py.rstrip s with
  | EmptyString => if Py.isspace c then EmptyString else String c EmptyString
  | r => String c r
  end.
Proof. reflexivity. Qed.

Lemma rstrip_rstrip s : Py.rstrip (Py.rstrip s) = Py.rstrip s.
Proof.
  induction s as [|c s IH]; [done|]. cbn.
  destruct (Py.rstrip s) as [|d r] eqn:E.
  - destruct (Py.isspace c) eqn:Ec; [done|]. cbn. by rewrite Ec.
  - rewrite (rstrip_cons c (String d r)), IH. done.
Qed.

Lemma rstrip_head s :
  match s with String c _ => Py.isspace c = false | EmptyString => True end ->
  match Py.rstrip s with String c _ => Py.isspace c = false | EmptyString => True end.
Proof.
  destruct s as [|c s]; [done|]. cbn. intros Hc.
  destruct (Py.rstrip s); [by rewrite Hc|done].
Qed.

Lemma strip_strip s : Py.strip (Py.strip s) = Py.strip s.
Proof.
  unfold Py.strip. rewrite (lstrip_id (Py.rstrip (Py.lstrip s))).
  - apply rstrip_rstrip.
  - apply rstrip_head, lstrip_head.
Qed.

(** A canonical skill: a string that a normalisation pass maps to itself. *)
Definition canonicalb (x : string) : bool :=
  clean x && bool_decide (Py.strip x = x) && (2 <=? String.length x)%nat
  && bool_decide (mapped x = x) && bool_decide (x ∉ stop_tokens).

Definition canonical (x : string) : Prop := canonicalb x = true.

Lemma canonical_inv x :
  canonical x ->
  clean x = true /\ Py.strip x = x /\ (2 <= String.length x)%nat
  /\ mapped x = x /\ x ∉ stop_tokens.
Proof.
  unfold canonical, canonicalb. rewrite !andb_true_iff, !bool_decide_eq_true.
  rewrite Nat.leb_le. tauto.
Qed.

Lemma canonical_intro x :
  clean x = true -> Py.strip x = x -> (2 <= String.length x)%nat ->
  mapped x = x -> x ∉ stop_tokens -> canonical x.
Proof.
  unfold canonical, canonicalb. rewrite !andb_true_iff, !bool_decide_eq_true.
  rewrite Nat.leb_le. tauto.
Qed.

(** Every image of the alias table is canonical or a stop token (none is). *)
Lemma images_canonical :
  Forall (fun kv => canonicalb kv.2 = true) skill_mappings_items.
Proof.
  apply Forall_forall. intros kv Hkv%list_elem_of_In. revert kv Hkv.
  apply (forallb_forall (fun kv => canonicalb kv.2)). vm_compute. reflexivity.
Qed.

Lemma mapped_cases p :
  (skill_mappings !! p = None /\ mapped p = p)
  \/ (exists v, skill_mappings !! p = Some v /\ mapped p = v /\ canonical v).
Proof.
  unfold mapped. destruct (skill_mappings !! p) as [v|] eqn:E; [right|left; done].
  exists v. split; [done|]. split; [done|].
  apply elem_of_list_to_map_2 in E.
  pose proof images_canonical as H. rewrite Forall_forall in H.
  exact (H _ E).
Qed.

(** What the inner loop does to the set. *)
Lemma add_part_cases S part :
  clean part = true ->
  add_part S part = S
  \/ exists n, add_part S part = {[ n ]} ∪ S /\ canonical n.
Proof.
  intros Hc. unfold add_part.
  destruct (negb (Py.truthy (Py.strip part)) || (String.length (Py.strip part) <? 2)%nat) eqn:E;
    [by left|].
  case_bool_decide as Hstop; [|by left]. right.
  eexists. split; [done|].
  apply orb_false_iff in E as [_ E]. apply Nat.ltb_ge in E.
  destruct (mapped_cases (Py.strip part)) as [[Hn Hm]|(v & _ & Hm & Hv)];
    rewrite Hm in Hstop |- *; [|done].
  apply canonical_intro; auto using clean_strip, strip_strip.
Qed.

Lemma add_part_canonical S x : canonical x -> add_part S x = {[ x ]} ∪ S.
Proof.
  intros (Hc & Hs & Hl & Hm & Hstop)%canonical_inv. unfold add_part.
  rewrite Hs, Hm.
  replace (String.length x <? 2)%nat with false by (symmetry; apply Nat.ltb_ge; lia).
  destruct x; [cbn in Hl; lia|]. cbn [Py.truthy negb orb].
  by rewrite bool_decide_eq_true_2.
Qed.

Lemma add_skill_canonical S x : canonical x -> add_skill S x = {[ x ]} ∪ S.
Proof.
  intros Hx. pose proof (canonical_inv x Hx) as (Hc & _).
  unfold add_skill. rewrite (clean_lower x Hc), (clean_sub_special x Hc), (clean_split x Hc).
  cbn. by apply add_part_canonical.
Qed.

Definition all_canonical (S : gset string) : Prop := forall x, x ∈ S -> canonical x.

Lemma foldl_add_part_inv parts S :
  Forall (fun p => clean p = true) parts -> all_canonical S ->
  all_canonical (foldl add_part S parts).
Proof.
  intros Hp. revert S. induction Hp as [|p parts Hc _ IH]; intros S HS; [done|].
  cbn. apply IH. destruct (add_part_cases S p Hc) as [->|(n & -> & Hn)]; [done|].
  intros x [->%elem_of_singleton|Hx]%elem_of_union; auto.
Qed.

Lemma add_skill_inv S skill : all_canonical S -> all_canonical (add_skill S skill).
Proof.
  intros HS. unfold add_skill. apply foldl_add_part_inv; [|done].
  apply Forall_forall. intros p Hp.
  eapply clean_split_parts; [apply clean_sub_lower|done].
Qed.

Lemma foldl_add_skill_inv skills S :
  all_canonical S -> all_canonical (foldl add_skill S skills).
Proof.
  revert S. induction skills as [|s skills IH]; intros S HS; [done|].
  cbn. by apply IH, add_skill_inv.
Qed.

Lemma foldl_add_skill_canonical skills S :
  Forall canonical skills ->
  foldl add_skill S skills = list_to_set skills ∪ S.
Proof.
  intros H. revert S. induction H as [|x skills Hx _ IH]; intros S.
  - cbn. by rewrite (left_id_L ∅ (∪)).
  - cbn. rewrite IH, add_skill_canonical by done.
    by rewrite (assoc_L (∪)), (comm_L (∪) (list_to_set skills)).
Qed.

Lemma sorted_perm l : Py.sorted l ≡ₚ l.
Proof. apply merge_sort_Permutation. Qed.

Lemma normalize_skills_elem skills :
  forall x, x ∈ normalize_skills skills -> x ∈ foldl add_skill ∅ skills.
Proof.
  intros x. destruct skills as [|s skills]; cbn [normalize_skills].
  - by intros ?%elem_of_nil.
  - rewrite sorted_perm. by rewrite elem_of_elements.
Qed.

Lemma normalize_skills_canonical skills : Forall canonical (normalize_skills skills).
Proof.
  apply Forall_forall. intros x Hx%normalize_skills_elem.
  revert x Hx. apply foldl_add_skill_inv. intros x Hx.
  by apply not_elem_of_empty in Hx.
Qed.

(** C2: on the raw list of the scenario, [normalize_skills] returns
    ["aws azure"; "javascript"; "nodejs"]: the substitution of blanks for
    special characters has removed the slash before the split looks for
    it, so "AWS/Azure" stays one part, "aws azure", which the alias table
    does not know. *)
Theorem normalize_skills_scenario :
  normalize_skills ["JS"; "Node.js"; "  "; "AWS/Azure"]
  = ["aws azure"; "javascript"; "nodejs"].
Proof. vm_compute. reflexivity. Qed.

(** The split never finds a delimiter: the parts of a skill are the skill. *)
Lemma split_is_dead s :
  Py.split_on is_delim (sub_special (Py.lower s)) = [sub_special (Py.lower s)].
Proof. apply clean_split, clean_sub_lower. Qed.

(** C3: [normalize_skills] is idempotent: for every list of strings [x],
    normalising the normalised list gives the normalised list again.  Every
    output of one pass, the images of the alias table included, is a
    canonical string, and a pass maps a canonical string to itself. *)
Theorem normalize_skills_idempotent (x : list string) :
  normalize_skills (normalize_skills x) = normalize_skills x.
Proof.
  pose proof (normalize_skills_canonical x) as Hcan.
  destruct x as [|s x]; [done|].
  remember (normalize_skills (s :: x)) as out eqn:Eout.
  destruct out as [|o out]; [done|].
  change (Py.sorted (elements (foldl add_skill ∅ (o :: out))) = o :: out).
  rewrite (foldl_add_skill_canonical _ _ Hcan), Eout.
  cbn [normalize_skills]. f_equal. f_equal.
  apply set_eq. intros y.
  rewrite elem_of_union, elem_of_list_to_set, sorted_perm, elem_of_elements.
  split; [intros [?|[]%not_elem_of_empty]; done | by left].
Qed.

(** C4: for every list of strings, the list [normalize_skills] returns is
    sorted in ascending lexicographic order, has no duplicates, and has no
    element shorter than two characters. *)
Theorem normalize_skills_sorted_nodup_len (skills : list string) :
  Sorted String.le (normalize_skills skills)
  /\ NoDup (normalize_skills skills)
  /\ Forall (fun s => (2 <= String.length s)%nat) (normalize_skills skills).
Proof.
  split; [|split].
  - destruct skills; [constructor|]. apply (Sorted_merge_sort String.le).
  - destruct skills; [constructor|]. cbn [normalize_skills].
    rewrite sorted_perm. apply NoDup_elements.
  - eapply Forall_impl; [apply normalize_skills_canonical|].
    intros s Hs. apply (canonical_inv s Hs).
Qed.
End ParserFacts.

Module SimilarityFacts.
Import Similarity.

Section Calculator.
Variable sk : Sklearn.vectorizer.
Variable emb : profile -> profile -> option (Qc * detailed_scores).

Lemma weighted_sum d :
  sum (map (fun '(category, score) => (score * weights category)%Qc) (items d))
  = (Q2Qc 0.6 * skills_score d + Q2Qc 0.2 * location_score d
     + Q2Qc 0.2 * experience_score d)%Qc.
Proof. unfold sum, items. cbn. ring. Qed.

Lemma skills_similarity_empty job_skills candidate_skills :
  job_skills = [] \/ candidate_skills = [] ->
  _calculate_skills_similarity sk job_skills candidate_skills = 0%Qc.
Proof.
  intros [-> | ->]; unfold _calculate_skills_similarity; [done|].
  by rewrite orb_true_r.
Qed.

(** C1: with the tfidf method [calculate_similarity] returns, for every
    pair of job and candidate, an overall score equal to 0.6 times the
    skills score plus 0.2 times the location score plus 0.2 times the
    experience score of the detailed scores it returns; when either skills
    list is empty (or absent) the skills score is 0 and the overall score
    is 0.2 times location plus 0.2 times experience. *)
Theorem tfidf_overall_is_weighted_sum (job_info candidate : profile) :
  exists overall d,
    calculate_similarity sk emb Tfidf job_info candidate = Some (overall, d)
    /\ overall = (Q2Qc 0.6 * skills_score d + Q2Qc 0.2 * location_score d
                  + Q2Qc 0.2 * experience_score d)%Qc
    /\ (default [] (skills job_info) = [] \/ default [] (skills candidate) = [] ->
        skills_score d = 0%Qc
        /\ overall = (Q2Qc 0.2 * location_score d + Q2Qc 0.2 * experience_score d)%Qc).
Proof.
  eexists _, _. split; [reflexivity|]. split; [apply weighted_sum|].
  intros H. rewrite weighted_sum. cbn [skills_score].
  rewrite (skills_similarity_empty _ _ H). split; [done|]. ring.
Qed.
End Calculator.

(** A vectorizer to run the calculator on: rows are the documents, and two
    rows are as similar as they are equal. *)
Definition exact_vectorizer : Sklearn.vectorizer :=
  Sklearn.Vectorizer string
    (fun docs => if bool_decide (Forall (fun d => d = "") docs) then None
                 else Some (fun i => nth i docs ""))
    (fun a b => if bool_decide (a = b) then Q2Qc 1 else 0%Qc).

Lemma tfidf_overall_is_weighted_sum_witness :
  exists overall d,
    calculate_similarity exact_vectorizer (fun _ _ => None) Tfidf
      (Profile (Some ["python"; "sql"]) (Some "Berlin") (Some "senior"))
      (Profile (Some []) (Some "Berlin") (Some "junior")) = Some (overall, d)
    /\ skills_score d = 0%Qc
    /\ overall = (Q2Qc 0.2 * location_score d + Q2Qc 0.2 * experience_score d)%Qc.
Proof.
  destruct (tfidf_overall_is_weighted_sum exact_vectorizer (fun _ _ => None)
              (Profile (Some ["python"; "sql"]) (Some "Berlin") (Some "senior"))
              (Profile (Some []) (Some "Berlin") (Some "junior")))
    as (overall & d & H1 & _ & H3).
  exists overall, d. split; [exact H1|]. apply H3. right. reflexivity.
Defined.
End SimilarityFacts.

Module ExperienceFacts.
Import ResumeParser.

(** The years of an entry as the documentation counts them: the days
    between its two dates over 365.25 when both dates parse, and nothing
    otherwise. *)
Definition entry_years (exp : experience_entry) : option Qc :=
  s ← start_date exp;
  e ← end_date exp;
  start ← Datetime.strptime_ymd s;
  end_ ← Datetime.strptime_ymd e;
  Some (Q2Qc (inject_Z (Datetime.days_between start end_)) / Q2Qc 365.25)%Qc.

Definition sum_years (ys : list Qc) : Qc := foldr Qcplus 0%Qc ys.

(** The documented total: the sum over the entries that count, rounded to
    one decimal. *)
Definition documented_total (experience : list experience_entry) : Qc :=
  Num.round1 (sum_years (omap entry_years experience)).

Lemma strptime_empty : Datetime.strptime_ymd "" = None.
Proof. reflexivity. Qed.

Lemma add_years_entry total exp :
  add_years total exp = (total + default 0 (entry_years exp))%Qc.
Proof.
  unfold add_years, entry_years.
  destruct (start_date exp) as [s|]; cbn; [|ring].
  destruct (end_date exp) as [e|]; cbn; [|ring].
  destruct s as [|c s]; cbn [Py.truthy andb].
  { rewrite strptime_empty. cbn. ring. }
  destruct e as [|d e]; cbn [Py.truthy andb].
  { rewrite strptime_empty. destruct (Datetime.strptime_ymd (String c s)); cbn; ring. }
  destruct (Datetime.strptime_ymd (String c s)); cbn; [|ring].
  destruct (Datetime.strptime_ymd (String d e)); cbn; [reflexivity|ring].
Qed.

Lemma foldl_add_years experience total :
  foldl add_years total experience
  = (total + sum_years (omap entry_years experience))%Qc.
Proof.
  revert total. induction experience as [|exp l IH]; intros total; cbn.
  - ring.
  - rewrite IH, add_years_entry. unfold sum_years. destruct (entry_years exp); cbn; ring.
Qed.

Lemma sum_years_nonneg ys : Forall (fun y => 0 ≤ y)%Qc ys -> (0 ≤ sum_years ys)%Qc.
Proof.
  induction 1 as [|y ys Hy _ IH]; cbn; [done|].
  replace 0%Qc with (0 + 0)%Qc by ring. by apply Qcplus_le_compat.
Qed.

Lemma round_half_even_nonneg q : (0 <= q)%Q -> (0 <= Num.round_half_even q)%Z.
Proof.
  intros Hq. unfold Num.round_half_even.
  assert (0 <= Qfloor q)%Z as Hf.
  { change 0%Z with (Qfloor 0). by apply Qfloor_resp_le. }
  destruct (_ ?= _)%Q; [destruct (Z.even _)|..]; lia.
Qed.

Lemma Q2Qc_nonneg q : (0 <= q)%Q -> (0 ≤ Q2Qc q)%Qc.
Proof.
  intros H. unfold Qcle. change (0 <= Qred q)%Q. by rewrite Qred_correct.
Qed.

Lemma round1_nonneg x : (0 ≤ x)%Qc -> (0 ≤ Num.round1 x)%Qc.
Proof.
  intros Hx. unfold Num.round1.
  assert (0 <= Num.round_half_even (x * 10))%Z as Hr.
  { apply round_half_even_nonneg.
    change (0 <= x * 10)%Q. apply Qmult_le_0_compat; [exact Hx|done]. }
  unfold Qcdiv. replace 0%Qc with (0 * / Q2Qc 10)%Qc by ring.
  apply Qcmult_le_compat_r.
  - apply Q2Qc_nonneg. unfold Qle. cbn. lia.
  - done.
Qed.

(** C5, as the code has it: for every list of experience entries,
    [_calculate_total_experience] returns the sum, over the entries whose
    two dates both parse as calendar dates, of the days from start to end
    over 365.25, rounded to one decimal; entries whose dates do not parse are
    skipped.  The value is at least 0 when no counted entry ends before it
    starts. *)
Theorem total_experience_documented_sum (experience : list experience_entry) :
  _calculate_total_experience experience = documented_total experience
  /\ (Forall (fun exp => forall y, entry_years exp = Some y -> (0 ≤ y)%Qc) experience ->
      (0 ≤ _calculate_total_experience experience)%Qc).
Proof.
  assert (_calculate_total_experience experience = documented_total experience) as E.
  { unfold _calculate_total_experience, documented_total.
    rewrite foldl_add_years. f_equal. ring. }
  split; [exact E|]. intros H. rewrite E. apply round1_nonneg, sum_years_nonneg.
  clear E. induction H as [|exp l Hexp _ IH]; cbn; [constructor|].
  destruct (entry_years exp) as [y|] eqn:Ey; [|exact IH].
  constructor; [by apply Hexp|exact IH].
Qed.

Definition two_jobs : list experience_entry :=
  [ Experience "Developer" "Acme Inc." (Some "2015-01-01") (Some "2019-12-31")
      "No description provided" [];
    Experience "Engineer" "Foo LLC" (Some "soon") (Some "2020-12-31")
      "No description provided" [];
    Experience "Manager" "Bar Corp" (Some "2020-02-01") (Some "2020-03-01")
      "No description provided" [] ].

Lemma two_jobs_years :
  omap entry_years two_jobs
  = [ (Q2Qc (inject_Z 1825) / Q2Qc 365.25)%Qc; (Q2Qc (inject_Z 29) / Q2Qc 365.25)%Qc ].
Proof. vm_compute. reflexivity. Qed.

Lemma total_experience_documented_sum_witness :
  _calculate_total_experience two_jobs = documented_total two_jobs
  /\ (0 ≤ _calculate_total_experience two_jobs)%Qc.
Proof.
  destruct (total_experience_documented_sum two_jobs) as [H1 H2].
  split; [exact H1|]. apply H2.
  repeat constructor; intros y Hy; vm_compute in Hy; inversion Hy; subst; vm_compute; discriminate.
Defined.

Lemma two_jobs_total : _calculate_total_experience two_jobs = Q2Qc 5.1.
Proof. apply Qc_is_canon. vm_compute. reflexivity. Qed.

(** An entry whose range runs backwards. *)
Definition backwards : experience_entry :=
  Experience "Developer" "Developer, Acme Inc. 2020 - 2010"
    (Some "2020-01-01") (Some "2010-12-31") "No description provided" [].

(** The extractor builds such an entry from a line of a resume. *)
Lemma backwards_extracted today :
  _extract_experience today "Developer, Acme Inc. 2020 - 2010" = [backwards].
Proof. vm_compute. reflexivity. Qed.

(** C5, counterexample: the total of an entry that runs from 2020-01-01
    back to 2010-12-31 is negative. *)
Lemma total_experience_negative :
  (_calculate_total_experience [backwards] < 0)%Qc.
Proof. vm_compute. reflexivity. Qed.

Lemma total_experience_backwards : _calculate_total_experience [backwards] = Q2Qc (-9).
Proof. apply Qc_is_canon. vm_compute. reflexivity. Qed.
End ExperienceFacts.

Module ResumeFacts.
Import ResumeParser.

Definition supported : list string := [".pdf"; ".docx"; ".txt"].

Definition education_of (r : Py.result parse_error resume)
    : option (list education_entry) :=
  match r with
  | Py.Ok r => Some (education r)
  | Py.Raise _ => None
  end.

Section Reader.
Variable today : string.
Variable first_person_entity : string -> option string.
Variable path_exists : string -> bool.
Variable pdf_extract_text docx2txt_process open_read_utf8 : string -> extracted.

Local Abbreviation read_file :=
  (_read_file path_exists pdf_extract_text docx2txt_process open_read_utf8).
Local Abbreviation parse :=
  (parse_resume today first_person_entity path_exists pdf_extract_text
     docx2txt_process open_read_utf8).

(** What the extractor chosen for the extension hands back. *)
Definition extraction (file_path : string) : extracted :=
  let ext := Py.lower (splitext_ext file_path) in
  if bool_decide (ext = ".pdf") then pdf_extract_text file_path
  else if bool_decide (ext = ".docx") then docx2txt_process file_path
  else open_read_utf8 file_path.

Lemma read_file_supported file_path :
  path_exists file_path = true ->
  Py.lower (splitext_ext file_path) ∈ supported ->
  read_file file_path =
  match extraction file_path with
  | XStr text => if Py.truthy text then Py.Ok (Py.strip text)
                 else Py.Raise (ReadException NoText)
  | XNone => Py.Raise (ReadException NoText)
  | XOther => Py.Raise (ReadException InvalidTextType)
  | XRaise => Py.Raise (ReadException ExtractorFailed)
  end.
Proof.
  intros He Hs. unfold _read_file, extraction. rewrite He. cbn [negb].
  unfold supported in Hs. rewrite !elem_of_cons, elem_of_nil in Hs.
  destruct Hs as [-> | [-> | [-> | []]]];
    repeat case_bool_decide; try congruence;
    match goal with
    | |- context [match ?x with XStr _ => _ | _ => _ end] =>
        destruct x as [[|c t]| | |]; reflexivity
    end.
Qed.

(** C8, as the code has it: for an existing file, [_read_file] raises the
    unsupported-format error when the lower-cased extension is none of
    .pdf, .docx, .txt; for a supported extension it raises the no-text
    error when the extractor returns nothing or the empty string, and for
    any other extracted string it returns the string stripped of
    surrounding white space.  That result is empty when the text is all
    white space, and then [parse_resume] raises the empty-content error. *)
Theorem read_file_outcomes (file_path : string) :
  path_exists file_path = true ->
  (Py.lower (splitext_ext file_path) ∉ supported ->
     read_file file_path
     = Py.Raise (ReadException (UnsupportedFormat (Py.lower (splitext_ext file_path)))))
  /\ (Py.lower (splitext_ext file_path) ∈ supported ->
      (extraction file_path = XNone \/ extraction file_path = XStr "" ->
         read_file file_path = Py.Raise (ReadException NoText))
      /\ (forall text, extraction file_path = XStr text -> text <> "" ->
            read_file file_path = Py.Ok (Py.strip text)
            /\ (Py.strip text = "" ->
                parse file_path = Py.Raise (ParseException EmptyContent)))).
Proof.
  intros He. split.
  - intros Hn. unfold supported in Hn. rewrite !not_elem_of_cons in Hn.
    destruct Hn as (H1 & H2 & H3 & _).
    unfold _read_file. rewrite He. cbn [negb].
    by rewrite !bool_decide_eq_false_2.
  - intros Hs. pose proof (read_file_supported _ He Hs) as Hr. split.
    + intros [E | E]; rewrite E in Hr; exact Hr.
    + intros text E Ht. rewrite E in Hr.
      destruct text as [|c text]; [done|]. cbn [Py.truthy] in Hr.
      split; [exact Hr|]. intros Hempty. unfold parse_resume.
      rewrite Hr, Hempty. reflexivity.
Qed.

Lemma or_str_truthy x y : Py.truthy y = true -> Py.truthy (or_str x y) = true.
Proof. unfold or_str. by destruct (Py.truthy x) eqn:E. Qed.

(** The check for a resume without any information never fires: the
    name has been given its default before the check looks at it. *)
Lemma parse_succeeds_on_text file_path content :
  read_file file_path = Py.Ok content -> content <> "" ->
  parse file_path
  = Py.Ok (Resume (or_str (_extract_name first_person_entity content) "Unknown")
             (or_str (_extract_email content) "Not provided")
             (or_str (_extract_phone content) "Not provided")
             (_extract_skills content)
             (_extract_education today content)
             (_extract_experience today content)
             (_calculate_total_experience (_extract_experience today content))).
Proof.
  intros Hr Hc. unfold parse_resume. rewrite Hr.
  destruct content as [|c content]; [done|]. cbn [Py.truthy negb].
  rewrite (or_str_truthy (_extract_name first_person_entity (String c content)) "Unknown")
    by done.
  reflexivity.
Qed.

(** The text of the scenario. *)
Definition nl : string := String "010" "".
Definition scenario_text : string :=
  "John Smith" ++ nl ++ "johnsmith@email.com" ++ nl ++ "555-123-4567" ++ nl
  ++ "Python, Django, AWS" ++ nl
  ++ "Bachelor of Science in Computer Science, MIT, 2015-2019".

(** The accumulator the last line opens: it has no institution, since the
    line names no university, college or institute. *)
Lemma scenario_accumulator :
  open_education today "Bachelor of Science in Computer Science, MIT, 2015-2019"
  = Education "Bachelor" "Computer Science" "" "2015-01-01" "2019-12-31" 0%Qc.
Proof. vm_compute. reflexivity. Qed.

Lemma scenario_education : _extract_education today scenario_text = [].
Proof. vm_compute. reflexivity. Qed.

Lemma scenario_experience : _extract_experience today scenario_text = [].
Proof. vm_compute. reflexivity. Qed.

Lemma total_experience_nil : _calculate_total_experience [] = 0%Qc.
Proof. apply Qc_is_canon. vm_compute. reflexivity. Qed.

(** C9, as the code has it: parsing a text file that holds the scenario text, when
    the entity recogniser finds no person or finds John Smith, gives the
    name "John Smith", the email "johnsmith@email.com", the phone
    "5551234567", the skills python, django and aws, and no education
    entry: the last line names no university, college or institute, so its
    accumulator is dropped.  There is no experience entry either. *)
Theorem parse_scenario (file_path : string) :
  path_exists file_path = true ->
  Py.lower (splitext_ext file_path) = ".txt" ->
  open_read_utf8 file_path = XStr scenario_text ->
  first_person_entity scenario_text = None
  \/ first_person_entity scenario_text = Some "John Smith" ->
  parse file_path
  = Py.Ok (Resume "John Smith" "johnsmith@email.com" "5551234567"
             ["python"; "django"; "aws"] [] [] 0%Qc).
Proof.
  intros He Hx Ht Hn.
  assert (read_file file_path = Py.Ok scenario_text) as Hr.
  { rewrite read_file_supported; [|done|rewrite Hx; apply (bool_decide_unpack _); vm_compute; exact I].
    unfold extraction. rewrite Hx, Ht. vm_compute. reflexivity. }
  unfold parse_resume. rewrite Hr.
  rewrite scenario_education, scenario_experience, total_experience_nil.
  assert (_extract_name first_person_entity scenario_text = "John Smith") as ->.
  { unfold _extract_name. destruct Hn as [-> | ->]; vm_compute; reflexivity. }
  vm_compute. reflexivity.
Qed.
End Reader.

(** C8, counterexample: a text file of blanks is read as the empty string;
    no error is raised by [_read_file]. *)
Lemma read_file_blank_text :
  _read_file (fun _ => true) (fun _ => XRaise) (fun _ => XRaise)
    (fun _ => XStr "   ") "notes.txt" = Py.Ok "".
Proof. vm_compute. reflexivity. Qed.

Lemma read_file_outcomes_witness :
  _read_file (fun _ => true) (fun _ => XRaise) (fun _ => XRaise)
    (fun _ => XStr "  Jane Doe  ") "cv/jane.doe.TXT" = Py.Ok "Jane Doe"
  /\ _read_file (fun _ => true) (fun _ => XRaise) (fun _ => XRaise)
       (fun _ => XStr "  Jane Doe  ") "cv/jane.doc"
     = Py.Raise (ReadException (UnsupportedFormat ".doc")).
Proof.
  split.
  - refine (proj1 (proj2 (proj2 (read_file_outcomes "" (fun _ => None) (fun _ => true)
             (fun _ => XRaise) (fun _ => XRaise) (fun _ => XStr "  Jane Doe  ")
             "cv/jane.doe.TXT" eq_refl) _) "  Jane Doe  " eq_refl _)).
    + apply (bool_decide_unpack _). vm_compute. exact I.
    + discriminate.
  - refine (proj1 (read_file_outcomes "" (fun _ => None) (fun _ => true)
             (fun _ => XRaise) (fun _ => XRaise) (fun _ => XStr "  Jane Doe  ")
             "cv/jane.doc" eq_refl) _).
    apply (bool_decide_unpack _). vm_compute. exact I.
Defined.

(** C9, counterexample: the parse of the scenario text has an empty
    education list. *)
Lemma parse_scenario_no_education :
  education_of
    (parse_resume "2024-06-01" (fun _ => None) (fun _ => true) (fun _ => XRaise)
       (fun _ => XRaise) (fun _ => XStr scenario_text) "resume.txt")
  = Some [].
Proof. vm_compute. reflexivity. Qed.

Lemma parse_scenario_witness :
  parse_resume "2024-06-01" (fun _ => None) (fun _ => true) (fun _ => XRaise)
    (fun _ => XRaise) (fun _ => XStr scenario_text) "resume.txt"
  = Py.Ok (Resume "John Smith" "johnsmith@email.com" "5551234567"
             ["python"; "django"; "aws"] [] [] 0%Qc).
Proof.
  apply (parse_scenario "2024-06-01" (fun _ => None) (fun _ => true) (fun _ => XRaise)
           (fun _ => XRaise) (fun _ => XStr scenario_text) "resume.txt");
    [reflexivity | vm_compute; reflexivity | reflexivity | left; reflexivity].
Defined.

(** C7: on a text in which no extractor finds anything, [parse_resume]
    does not raise; it returns the record of the defaults. *)
Theorem parse_all_defaults_returns :
  parse_resume "2024-06-01" (fun _ => None) (fun _ => true) (fun _ => XRaise)
    (fun _ => XRaise) (fun _ => XStr "hello world") "resume.txt"
  = Py.Ok (Resume "Unknown" "Not provided" "Not provided" [] [] [] 0%Qc).
Proof.
  rewrite (parse_succeeds_on_text _ _ _ _ _ _ "resume.txt" "hello world");
    [|vm_compute; reflexivity|discriminate].
  replace (_extract_experience "2024-06-01" "hello world") with (@nil experience_entry)
    by (vm_compute; reflexivity).
  rewrite total_experience_nil. vm_compute. reflexivity.
Qed.
End ResumeFacts.

Module RankerFacts.
Import Ranker.
Local Open Scope list_scope.

(** *** Computations that leave a set of references alone *)

(** [m] writes to no reference of [D], and what it returns satisfies [Q]. *)
Definition frame {A} (D : gset loc) (m : M A) (Q : A -> Prop) : Prop :=
  forall h, D ⊆ dom h ->
    (forall l, l ∈ D -> (m h).1 !! l = h !! l)
    /\ (forall a, (m h).2 = Ok a -> Q a).

Lemma frame_dom {A} D (m : M A) Q h :
  frame D m Q -> D ⊆ dom h -> D ⊆ dom (m h).1.
Proof.
  intros Hm HD l Hl. destruct (Hm h HD) as [Heq _].
  specialize (Heq l Hl). apply HD in Hl. apply elem_of_dom in Hl.
  apply elem_of_dom. congruence.
Qed.

Lemma frame_ret {A} D (a : A) (Q : A -> Prop) : Q a -> frame D (mret a) Q.
Proof. intros HQ h _. split; [done|]. intros a' [= <-]. done. Qed.

Lemma frame_raise {A} D e (Q : A -> Prop) : frame D (raise e) Q.
Proof. intros h _. split; [done|]. intros a' [=]. Qed.

Lemma frame_lift {A} D (r : result A) : frame D (lift r) (fun a => r = Ok a).
Proof. intros h _. split; [done|]. by intros a' <-. Qed.

Lemma frame_bind {A B} D (m : M A) (f : A -> M B) Q R :
  frame D m Q -> (forall a, Q a -> frame D (f a) R) -> frame D (m ≫= f) R.
Proof.
  intros Hm Hf h HD. pose proof (frame_dom D m Q h Hm HD) as HD'.
  destruct (Hm h HD) as [Heq HQ].
  unfold mbind, M_bind, bind. destruct (m h) as [h1 [a|e]] eqn:E; cbn in *.
  - destruct (Hf a (HQ a eq_refl) h1 HD') as [Heq' HR]. split; [|done].
    intros l Hl. rewrite (Heq' l Hl). by apply Heq.
  - split; [done|]. intros b [=].
Qed.

Lemma frame_weaken {A} D (m : M A) (Q R : A -> Prop) :
  frame D m Q -> (forall a, Q a -> R a) -> frame D m R.
Proof. intros Hm HQR h HD. destruct (Hm h HD) as [? HQ]. split; [done|]. eauto. Qed.

Lemma frame_get_list D l : frame D (get_list l) (fun _ => True).
Proof. intros h _. unfold get_list. by destruct (h !! l) as [[]|]. Qed.

Lemma frame_get_dict D l : frame D (get_dict l) (fun _ => True).
Proof. intros h _. unfold get_dict. by destruct (h !! l) as [[]|]. Qed.

Lemma frame_alloc D o : frame D (alloc o) (fun l => l ∉ D).
Proof.
  intros h HD. unfold alloc. cbn.
  assert (fresh (dom h) ∉ D) as Hf.
  { intros Hin. apply (is_fresh (dom h)). by apply HD. }
  split.
  - intros l Hl. apply lookup_insert_ne. by intros <-.
  - by intros a [= <-].
Qed.

Lemma frame_store D l o : l ∉ D -> frame D (store l o) (fun _ => True).
Proof.
  intros Hl h _. unfold store. cbn. split; [|done].
  intros l' Hl'. apply lookup_insert_ne. by intros <-.
Qed.

Lemma frame_map_m {A B} D (f : A -> M B) xs :
  (forall x, frame D (f x) (fun _ => True)) -> frame D (map_m f xs) (fun _ => True).
Proof.
  intros Hf. induction xs as [|x xs IH]; cbn [map_m].
  - by apply frame_ret.
  - eapply frame_bind; [apply Hf|]. intros y _.
    eapply frame_bind; [apply IH|]. intros ys _. by apply frame_ret.
Qed.

Lemma frame_for_each {A} D (body : A -> M unit) xs :
  (forall x, frame D (body x) (fun _ => True)) -> frame D (for_each body xs) (fun _ => True).
Proof.
  intros Hf. induction xs as [|x xs IH]; cbn [for_each].
  - by apply frame_ret.
  - eapply frame_bind; [apply Hf|]. intros _ _. apply IH.
Qed.

Lemma frame_dict_copy D l : frame D (dict_copy l) (fun l' => l' ∉ D).
Proof.
  unfold dict_copy. eapply frame_bind; [apply frame_get_dict|].
  intros d _. apply frame_alloc.
Qed.

Lemma frame_dict_setitem D l key v :
  l ∉ D -> frame D (dict_setitem l key v) (fun _ => True).
Proof.
  intros Hl. unfold dict_setitem. eapply frame_bind; [apply frame_get_dict|].
  intros d _. by apply frame_store.
Qed.

Lemma frame_list_append D l x : l ∉ D -> frame D (list_append l x) (fun _ => True).
Proof.
  intros Hl. unfold list_append. eapply frame_bind; [apply frame_get_list|].
  intros d _. by apply frame_store.
Qed.

Lemma frame_score_key D x : frame D (score_key x) (fun _ => True).
Proof.
  unfold score_key. eapply frame_bind; [apply frame_get_dict|]. intros d _.
  destruct (d !! "score") as [[]|]; first [by apply frame_ret | apply frame_raise].
Qed.

Lemma frame_list_sort D l : l ∉ D -> frame D (list_sort_by_score l) (fun _ => True).
Proof.
  intros Hl. unfold list_sort_by_score.
  eapply frame_bind; [apply frame_get_list|]. intros items _.
  eapply frame_bind; [apply frame_map_m, frame_score_key|]. intros keyed _.
  by apply frame_store.
Qed.

(** *** The stable sort *)

(** [x] goes before [y]: a larger score, or the same score and an earlier
    place in the input. *)
Definition before (x y : Qc * nat) : Prop :=
  (y.1 < x.1)%Qc \/ (x.1 = y.1 /\ (x.2 < y.2)%nat).

Lemma insert_desc_perm {A} (x : Qc * A) l : insert_desc x l ≡ₚ x :: l.
Proof.
  induction l as [|y l IH]; cbn; [reflexivity|].
  case_bool_decide; [reflexivity|]. rewrite IH. apply Permutation_swap.
Qed.

Lemma sort_desc_perm {A} (l : list (Qc * A)) : sort_desc l ≡ₚ l.
Proof.
  induction l as [|x l IH]; cbn; [reflexivity|].
  rewrite insert_desc_perm. by rewrite IH.
Qed.

Lemma insert_desc_fmap {A B} (f : A -> B) (x : Qc * A) l :
  insert_desc (prod_map id f x) (prod_map id f <$> l)
  = prod_map id f <$> insert_desc x l.
Proof.
  destruct x as [s a]. induction l as [|[t b] l IH]; cbn; [done|].
  case_bool_decide; cbn; [done|]. f_equal. exact IH.
Qed.

Lemma sort_desc_fmap {A B} (f : A -> B) (l : list (Qc * A)) :
  sort_desc (prod_map id f <$> l) = prod_map id f <$> sort_desc l.
Proof.
  induction l as [|x l IH]; cbn; [done|].
  fold (sort_desc (prod_map id f <$> l)). rewrite IH. apply insert_desc_fmap.
Qed.

Lemma before_trans_le x y z :
  (y.1 ≤ x.1)%Qc -> (x.2 < y.2)%nat -> before y z -> (x.2 < z.2)%nat -> before x z.
Proof.
  intros Hyx Hxy [Hlt | [Heq Hlt]] Hxz; unfold before.
  - left. eapply Qclt_le_trans; eauto.
  - rewrite <- Heq. apply Qcle_lt_or_eq in Hyx as [?| ->]; [by left|right; done].
Qed.

Lemma insert_desc_sorted x l :
  StronglySorted before l -> Forall (fun y => (x.2 < y.2)%nat) l ->
  StronglySorted before (insert_desc x l).
Proof.
  induction l as [|y l IH]; intros Hs Hx; cbn.
  - repeat constructor.
  - apply StronglySorted_inv in Hs as [Hs Hy].
    apply Forall_cons in Hx as [Hxy Hx].
    case_bool_decide as Hle.
    + constructor; [by constructor|]. constructor.
      * apply Qcle_lt_or_eq in Hle as [?| Heq]; [by left|right; done].
      * rewrite Forall_forall in Hy, Hx. apply Forall_forall. intros z Hz.
        eapply before_trans_le; eauto.
    + constructor; [by apply IH|].
      rewrite insert_desc_perm. constructor; [|done].
      left. by apply Qcnot_le_lt.
Qed.

Lemma sort_desc_sorted (l : list (Qc * nat)) :
  StronglySorted (fun x y => (x.2 < y.2)%nat) l -> StronglySorted before (sort_desc l).
Proof.
  induction 1 as [|x l Hs IH Hx]; [constructor|].
  change (sort_desc (x :: l)) with (insert_desc x (sort_desc l)).
  apply insert_desc_sorted; [done|]. by rewrite sort_desc_perm.
Qed.

Lemma StronglySorted_lookup {A} (R : relation A) l k1 k2 x y :
  StronglySorted R l -> (k1 < k2)%nat -> l !! k1 = Some x -> l !! k2 = Some y -> R x y.
Proof.
  intros Hs. revert k1 k2. induction Hs as [|z l Hs IH Hz]; intros k1 k2 Hk H1 H2; [done|].
  destruct k2 as [|k2]; [lia|]. cbn in H2. destruct k1 as [|k1]; cbn in H1.
  - injection H1 as ->. rewrite Forall_forall in Hz. apply Hz.
    by eapply list_elem_of_lookup_2.
  - eapply IH; [|done..]. lia.
Qed.

Lemma indexed_sorted (ss : list Qc) j n :
  StronglySorted (fun x y : Qc * nat => (x.2 < y.2)%nat) (zip ss (seq j n)).
Proof.
  revert j n. induction ss as [|s ss IH]; intros j [|n]; cbn; try constructor.
  - apply IH.
  - apply Forall_forall. intros [s' i] [k Hk]%list_elem_of_lookup_1.
    apply lookup_zip_with_Some in Hk as (a & b & [= -> ->] & _ & Hb).
    apply lookup_seq in Hb as [-> _]. cbn. lia.
Qed.

Lemma keys_spec h outs ss :
  Forall2 (fun o s => exists d, h !! o = Some (ODict d) /\ d !! "score" = Some (VNum s))
    outs ss ->
  map_m score_key outs h = (h, Ok (zip ss outs)).
Proof.
  induction 1 as [|o s outs ss (d & Ho & Hs) _ IH]; [done|].
  cbn [map_m]. unfold mbind, M_bind, bind at 1.
  unfold score_key at 1, mbind, M_bind, bind, get_dict. rewrite Ho, Hs.
  unfold mret, M_ret, ret at 1. unfold bind. rewrite IH. reflexivity.
Qed.

Lemma list_sort_spec h l outs ss :
  h !! l = Some (OList outs) ->
  Forall2 (fun o s => exists d, h !! o = Some (ODict d) /\ d !! "score" = Some (VNum s))
    outs ss ->
  list_sort_by_score l h = (<[l := OList ((sort_desc (zip ss outs)).*2)]> h, Ok tt).
Proof.
  intros Hl Hk. unfold list_sort_by_score, mbind, M_bind, bind, get_list.
  rewrite Hl. by rewrite (keys_spec h outs ss Hk).
Qed.

Lemma zip_payload_snd {A B} (ss : list Qc) (idx : list A) (outs : list B) :
  length idx = length outs ->
  zip ss outs = prod_map id snd <$> zip ss (zip idx outs).
Proof.
  revert idx outs. induction ss as [|s ss IH]; intros [|i idx] [|o outs] Hl;
    cbn in *; try done. f_equal. apply IH. lia.
Qed.

Lemma zip_payload_fst {A B} (ss : list Qc) (idx : list A) (outs : list B) :
  length idx = length outs ->
  zip ss idx = prod_map id fst <$> zip ss (zip idx outs).
Proof.
  revert idx outs. induction ss as [|s ss IH]; intros [|i idx] [|o outs] Hl;
    cbn in *; try done. f_equal. apply IH. lia.
Qed.

Lemma elem_of_indexed {B} (ss : list Qc) (outs : list B) n s i o :
  (s, (i, o)) ∈ zip ss (zip (seq 0 n) outs) ->
  ss !! i = Some s /\ outs !! i = Some o.
Proof.
  intros [k Hk]%list_elem_of_lookup_1.
  apply lookup_zip_with_Some in Hk as (a & b & [= -> <-] & Hs & Hb).
  apply lookup_zip_with_Some in Hb as (a' & b' & [= -> ->] & Hi & Ho).
  apply lookup_seq in Hi as [-> _]. done.
Qed.

Lemma elem_of_indexed_scores (ss : list Qc) n s i :
  (s, i) ∈ zip ss (seq 0 n) -> ss !! i = Some s.
Proof.
  intros [k Hk]%list_elem_of_lookup_1.
  apply lookup_zip_with_Some in Hk as (a & b & [= -> ->] & Hs & Hi).
  apply lookup_seq in Hi as [-> _]. done.
Qed.

Lemma cosine_rows_length sk rows y ss :
  Sklearn.cosine_rows sk rows y = Some ss -> length ss = length rows.
Proof.
  unfold Sklearn.cosine_rows. destruct rows as [|x rows]; [done|].
  intros [= <-]. apply (length_fmap _ (x :: rows)).
Qed.

Lemma bind_inv {A B} (m : M A) (f : A -> M B) h h' b :
  bind m f h = (h', Ok b) -> exists h1 a, m h = (h1, Ok a) /\ f a h1 = (h', Ok b).
Proof.
  unfold bind. destruct (m h) as [h1 [a|e]]; [|done]. intros H. by exists h1, a.
Qed.

Lemma bind_ok {A B} (m : M A) (f : A -> M B) h h' a :
  m h = (h', Ok a) -> bind m f h = f a h'.
Proof. intros H. unfold bind. by rewrite H. Qed.

Section Rank.
Variable sk : Sklearn.vectorizer.
Variable nlp_clean : string -> string.

Lemma frame_add_score D rc cs :
  rc ∉ D -> frame D (add_score rc cs) (fun _ => True).
Proof.
  intros Hrc. unfold add_score.
  eapply frame_bind; [apply frame_dict_copy|]. intros o Ho.
  eapply frame_bind; [by apply frame_dict_setitem|]. intros _ _.
  by apply frame_list_append.
Qed.

Lemma frame_rank D candidates job_description :
  frame D (rank sk nlp_clean candidates job_description) (fun out => out ∉ D).
Proof.
  unfold rank.
  eapply frame_bind; [apply frame_get_list|]. intros cands _.
  eapply frame_bind.
  { apply frame_map_m. intros c. eapply frame_bind; [apply frame_get_dict|].
    intros d _. eapply frame_weaken; [apply frame_lift|done]. }
  intros texts _.
  eapply frame_bind; [apply frame_lift|]. intros scores _.
  eapply frame_bind; [apply frame_alloc|]. intros rc Hrc.
  eapply frame_bind; [apply frame_for_each; intros x; by apply frame_add_score|].
  intros _ _.
  eapply frame_bind; [by apply frame_list_sort|]. intros _ _.
  by apply frame_ret.
Qed.

(** *** Running [rank] *)

Definition prepare (c : loc) : M string :=
  d ← get_dict c; lift (_prepare_candidate_text nlp_clean d).

Lemma prepare_texts h cs ds texts :
  Forall2 (fun c d => h !! c = Some (ODict d)) cs ds ->
  Forall2 (fun d t => _prepare_candidate_text nlp_clean d = Ok t) ds texts ->
  map_m prepare cs h = (h, Ok texts).
Proof.
  intros Hcs. revert texts. induction Hcs as [|c d cs ds Hc _ IH]; intros texts Ht.
  - by apply Forall2_nil_inv_l in Ht as ->.
  - apply Forall2_cons_inv_l in Ht as (t & texts' & Hprep & Ht & ->).
    cbn [map_m]. unfold mbind, M_bind, bind at 1.
    unfold prepare at 1, mbind, M_bind, bind, get_dict, lift. rewrite Hc, Hprep.
    unfold bind. rewrite (IH _ Ht). reflexivity.
Qed.

Lemma add_score_step h rc c d s outs :
  h !! c = Some (ODict d) -> h !! rc = Some (OList outs) ->
  let o := fresh (dom h) in
  add_score rc (c, s) h
  = (<[rc := OList (outs ++ [o])]>
       (<[o := ODict (<["score" := VNum s]> d)]> h), Ok tt).
Proof.
  intros Hc Hrc o.
  assert (o ∉ dom h) as Ho by apply is_fresh.
  assert (rc ≠ o) as Hne.
  { intros ->. apply Ho. apply elem_of_dom. by rewrite Hrc. }
  unfold add_score, dict_copy, dict_setitem, list_append, mbind, M_bind, bind,
    get_dict, get_list, alloc, store. cbn [fst snd].
  rewrite Hc. fold o. rewrite lookup_insert_eq, insert_insert_eq.
  rewrite lookup_insert_ne by done. rewrite Hrc. reflexivity.
Qed.

Lemma loop_spec rc cs ds scores : forall h outs,
  Forall2 (fun c d => h !! c = Some (ODict d)) cs ds ->
  length scores = length cs ->
  h !! rc = Some (OList outs) ->
  exists h' news,
    for_each (add_score rc) (zip cs scores) h = (h', Ok tt)
    /\ h' !! rc = Some (OList (outs ++ news))
    /\ (forall l, l ∈ dom h -> l ≠ rc -> h' !! l = h !! l)
    /\ Forall2 (fun o x => (o ∉ dom h)
                 /\ h' !! o = Some (ODict (<["score" := VNum x.2]> x.1)))
         news (zip ds scores).
Proof.
  revert ds scores. induction cs as [|c cs IH]; intros ds scores h outs Hcs Hlen Hrc.
  - apply Forall2_nil_inv_l in Hcs as ->. exists h, []. cbn.
    rewrite app_nil_r. repeat split; try done; constructor.
  - apply Forall2_cons_inv_l in Hcs as (d & ds' & Hc & Hcs & ->).
    destruct scores as [|s scores]; [done|]. cbn in Hlen.
    cbn [zip zip_with for_each]. unfold mbind, M_bind, bind.
    rewrite (add_score_step h rc c d s outs Hc Hrc). cbn zeta.
    set (o := fresh (dom h)).
    assert (o ∉ dom h) as Ho by apply is_fresh.
    assert (rc ≠ o) as Hne.
    { intros ->. apply Ho. apply elem_of_dom. by rewrite Hrc. }
    set (h1 := <[rc := OList (outs ++ [o])]>
                 (<[o := ODict (<["score" := VNum s]> d)]> h)).
    assert (forall l, l ∈ dom h -> l ≠ rc -> h1 !! l = h !! l) as Hkeep.
    { intros l Hl Hlrc. unfold h1. rewrite !lookup_insert_ne; [done|..].
      - intros <-. done.
      - done. }
    assert (Forall2 (fun c d => h1 !! c = Some (ODict d)) cs ds') as Hcs1.
    { eapply Forall2_impl; [exact Hcs|]. intros c' d' Hc'. cbn beta in Hc'.
      assert (c' ∈ dom h) as Hd by (apply elem_of_dom; by rewrite Hc').
      assert (c' ≠ rc) as Hn by (intros ->; rewrite Hrc in Hc'; done).
      by rewrite (Hkeep c' Hd Hn). }
    assert (length scores = length cs) as Hlen' by lia.
    assert (h1 !! rc = Some (OList (outs ++ [o]))) as Hrc1
      by (unfold h1; apply lookup_insert_eq).
    destruct (IH ds' scores h1 (outs ++ [o]) Hcs1 Hlen' Hrc1) as
      (h' & news & Hrun & Hrc' & Hkeep' & Hnews).
    exists h', (o :: news). rewrite Hrun. split; [done|].
    rewrite <- app_assoc in Hrc'. split; [exact Hrc'|].
    assert (dom h ⊆ dom h1) as Hsub.
    { intros l Hl. unfold h1. rewrite !dom_insert, !elem_of_union. by right; right. }
    split; [|constructor].
    + intros l Hl Hlrc. rewrite Hkeep'; [by apply Hkeep| by apply Hsub | done].
    + split; [done|]. cbn [fst snd]. rewrite Hkeep'.
      * unfold h1. rewrite lookup_insert_ne by done. apply lookup_insert_eq.
      * unfold h1. rewrite !dom_insert, !elem_of_union, !elem_of_singleton.
        by right; left.
      * done.
    + eapply Forall2_impl; [exact Hnews|]. intros o' x [Ho' Hx]. split; [|done].
      intros Hin. apply Ho'. by apply Hsub.
Qed.


Lemma rank_unfold candidates job_description :
  rank sk nlp_clean candidates job_description
  = bind (get_list candidates) (fun cands =>
    bind (map_m prepare cands) (fun candidate_texts =>
    bind (lift (similarity_scores sk candidate_texts job_description)) (fun scores =>
    bind (alloc (OList [])) (fun ranked_candidates =>
    bind (for_each (add_score ranked_candidates) (zip cands scores)) (fun _ =>
    bind (list_sort_by_score ranked_candidates) (fun _ =>
    ret ranked_candidates)))))).
Proof. reflexivity. Qed.

Lemma scores_length texts job_description scores :
  similarity_scores sk texts job_description = Ok scores ->
  length scores = length texts.
Proof.
  unfold similarity_scores. destruct (Sklearn.fit_transform _ _); [|done].
  destruct (Sklearn.cosine_rows _ _ _) as [ss|] eqn:E; [|done].
  intros [= <-]. rewrite (cosine_rows_length _ _ _ _ E).
  rewrite length_fmap, length_seq, length_app. cbn. lia.
Qed.

(** A well-formed call: the argument is a list of dicts whose texts can
    be prepared, and the vectorizer accepts the corpus. *)
Record well_formed (h : heap) (candidates : loc) (job_description : string)
    (cs : list loc) (ds : list (gmap string value)) (scores : list Qc) : Prop := {
  wf_list : h !! candidates = Some (OList cs);
  wf_dicts : Forall2 (fun c d => h !! c = Some (ODict d)) cs ds;
  wf_scores : exists texts,
    Forall2 (fun d t => _prepare_candidate_text nlp_clean d = Ok t) ds texts
    /\ similarity_scores sk texts job_description = Ok scores
}.

Lemma rank_runs h candidates job_description cs ds scores :
  well_formed h candidates job_description cs ds scores ->
  exists h' outs,
    rank sk nlp_clean candidates job_description h = (h', Ok (fresh (dom h)))
    /\ h' !! fresh (dom h) = Some (OList ((sort_desc (zip scores outs)).*2))
    /\ Forall2 (fun o x => h !! o = None /\ o ≠ fresh (dom h)
                 /\ h' !! o = Some (ODict (<["score" := VNum x.2]> x.1)))
         outs (zip ds scores).
Proof.
  intros [Hc Hcs (texts & Ht & Hs)].
  pose proof (prepare_texts h cs ds texts Hcs Ht) as Hp.
  pose proof (scores_length _ _ _ Hs) as Hlen.
  assert (length scores = length cs) as Hlen'.
  { rewrite Hlen. apply Forall2_length in Hcs, Ht. congruence. }
  set (rc := fresh (dom h)).
  assert (rc ∉ dom h) as Hrc by apply is_fresh.
  set (h1 := <[rc := OList []]> h).
  assert (Forall2 (fun c d => h1 !! c = Some (ODict d)) cs ds) as Hcs1.
  { eapply Forall2_impl; [exact Hcs|]. intros c d Hd. cbn beta in Hd.
    unfold h1. rewrite lookup_insert_ne; [done|].
    intros <-. apply Hrc. apply elem_of_dom. by rewrite Hd. }
  assert (h1 !! rc = Some (OList [])) as Hrc1 by apply lookup_insert_eq.
  destruct (loop_spec rc cs ds scores h1 [] Hcs1 Hlen' Hrc1)
    as (h2 & outs & Hloop & Hrc2 & Hkeep & Houts).
  cbn [app] in Hrc2.
  assert (Forall2 (fun o s => exists d, h2 !! o = Some (ODict d)
                              /\ d !! "score" = Some (VNum s)) outs scores) as Hkeys.
  { assert (length ds = length scores) as Hl2
      by (apply Forall2_length in Hcs; congruence).
    clear -Houts Hl2. revert outs scores Hl2 Houts.
    induction ds as [|d ds IH]; intros outs [|s scores] Hl2 Houts; try done; cbn in *.
    - apply Forall2_nil_inv_r in Houts as ->. constructor.
    - apply Forall2_cons_inv_r in Houts as (o & outs' & [_ Ho] & Houts & ->).
      constructor; [|apply IH; [lia|done]].
      eexists. split; [exact Ho|]. apply lookup_insert_eq. }
  exists (<[rc := OList ((sort_desc (zip scores outs)).*2)]> h2), outs.
  split; [|split].
  - rewrite rank_unfold.
    rewrite (bind_ok _ _ h h cs) by (unfold get_list; by rewrite Hc).
    rewrite (bind_ok _ _ h h texts) by exact Hp.
    rewrite (bind_ok _ _ h h scores) by (unfold lift; by rewrite Hs).
    rewrite (bind_ok _ _ h h1 rc) by reflexivity.
    rewrite (bind_ok _ _ h1 h2 tt) by exact Hloop.
    rewrite (bind_ok _ _ h2 _ tt)
      by exact (list_sort_spec h2 rc outs scores Hrc2 Hkeys).
    reflexivity.
  - apply lookup_insert_eq.
  - eapply Forall2_impl; [exact Houts|]. intros o x [Ho Hx].
    assert (o ≠ rc) as Hne.
    { intros ->. apply Ho. unfold h1.
      rewrite dom_insert, elem_of_union, elem_of_singleton. by left. }
    split; [|split; [done|]].
    + apply not_elem_of_dom. intros Hin. apply Ho. unfold h1.
      rewrite dom_insert, elem_of_union. by right.
    + by rewrite lookup_insert_ne.
Qed.

(** C6: on a non-empty list of candidate dicts whose texts can be prepared
    and a corpus the vectorizer accepts, [rank] returns a list that holds, for a
    permutation [perm] of the input positions, the copy of candidate
    [perm k] with its score at place [k]; the scores never increase along
    the list, and of two candidates with equal scores the one that comes
    first in the input comes first in the output. *)
Theorem rank_sorted_stable h candidates job_description cs ds scores :
  well_formed h candidates job_description cs ds scores ->
  exists h' out outs perm,
    rank sk nlp_clean candidates job_description h = (h', Ok out)
    /\ h' !! out = Some (OList outs)
    /\ perm ≡ₚ seq 0 (length cs)
    /\ Forall2 (fun o i => exists d s,
                  ds !! i = Some d /\ scores !! i = Some s
                  /\ h' !! o = Some (ODict (<["score" := VNum s]> d)))
         outs perm
    /\ (forall k1 k2 i1 i2 s1 s2,
          (k1 < k2)%nat -> perm !! k1 = Some i1 -> perm !! k2 = Some i2 ->
          scores !! i1 = Some s1 -> scores !! i2 = Some s2 ->
          (s2 < s1)%Qc \/ (s1 = s2 /\ (i1 < i2)%nat)).
Proof.
  intros Hwf. destruct (rank_runs _ _ _ _ _ _ Hwf) as (h' & outs & Hrun & Hout & Hcopies).
  destruct Hwf as [Hc Hcs (texts & Ht & Hs)].
  assert (length scores = length cs) as Hlen.
  { rewrite (scores_length _ _ _ Hs). apply Forall2_length in Hcs, Ht. congruence. }
  assert (length ds = length cs) as Hlends by (apply Forall2_length in Hcs; done).
  assert (length outs = length cs) as Hlenouts.
  { apply Forall2_length in Hcopies. rewrite length_zip_with in Hcopies. lia. }
  set (n := length cs) in *.
  set (T := zip scores (zip (seq 0 n) outs)).
  assert (length (seq 0 n) = length outs) as Hidx by (rewrite length_seq; lia).
  exists h', (fresh (dom h)), ((sort_desc T).*2.*2), ((sort_desc T).*2.*1).
  split; [exact Hrun|]. split; [|split; [|split]].
  - rewrite Hout. f_equal. f_equal.
    rewrite (zip_payload_snd scores (seq 0 n) outs Hidx). fold T.
    rewrite sort_desc_fmap, <- !list_fmap_compose. reflexivity.
  - rewrite sort_desc_perm. unfold T.
    transitivity ((zip scores (seq 0 n)).*2).
    + rewrite (zip_payload_fst scores (seq 0 n) outs Hidx).
      rewrite <- !list_fmap_compose. reflexivity.
    + rewrite snd_zip; [done|]. rewrite length_seq. lia.
  - rewrite <- !list_fmap_compose. apply Forall2_fmap, Forall_Forall2_diag.
    apply Forall_forall. intros [s [i o]] Hin. rewrite sort_desc_perm in Hin.
    apply elem_of_indexed in Hin as [Hsi Hoi]. cbn.
    destruct (Forall2_lookup_l _ _ _ _ _ Hcopies Hoi) as ([d s'] & Hx & _ & _ & Ho).
    apply lookup_zip_with_Some in Hx as (a & b & [= -> ->] & Hd & Hs').
    exists a, b. done.
  - intros k1 k2 i1 i2 s1 s2 Hk H1 H2 Hs1 Hs2.
    assert ((sort_desc T).*2.*1 = (sort_desc (zip scores (seq 0 n))).*2) as Eperm.
    { rewrite (zip_payload_fst scores (seq 0 n) outs Hidx). fold T.
      rewrite sort_desc_fmap, <- !list_fmap_compose. reflexivity. }
    rewrite Eperm in H1, H2.
    apply list_lookup_fmap_Some in H1 as ([s1' i1'] & [= ->] & H1).
    apply list_lookup_fmap_Some in H2 as ([s2' i2'] & [= ->] & H2).
    assert (s1' = s1) as ->.
    { apply list_elem_of_lookup_2 in H1. rewrite sort_desc_perm in H1.
      apply elem_of_indexed_scores in H1. congruence. }
    assert (s2' = s2) as ->.
    { apply list_elem_of_lookup_2 in H2. rewrite sort_desc_perm in H2.
      apply elem_of_indexed_scores in H2. congruence. }
    exact (StronglySorted_lookup before _ k1 k2 _ _
             (sort_desc_sorted _ (indexed_sorted scores 0 n)) Hk H1 H2).
Qed.

Lemma prepare_texts_inv cs : forall h h1 texts,
  map_m prepare cs h = (h1, Ok texts) ->
  h1 = h
  /\ exists ds, Forall2 (fun c d => h !! c = Some (ODict d)) cs ds
                /\ Forall2 (fun d t => _prepare_candidate_text nlp_clean d = Ok t)
                     ds texts.
Proof.
  induction cs as [|c cs IH]; intros h h1 texts Hrun.
  - injection Hrun as <- <-. split; [done|]. exists []. split; constructor.
  - cbn [map_m] in Hrun. unfold mbind, M_bind in Hrun.
    apply bind_inv in Hrun as (h2 & t & Hc & Hrun).
    apply bind_inv in Hrun as (h3 & ts & Hcs & Hret).
    injection Hret as <- <-.
    unfold prepare, mbind, M_bind, bind, get_dict, lift in Hc.
    destruct (h !! c) as [[d|]|] eqn:Ec; try done.
    injection Hc as <- Hprep.
    destruct (IH _ _ _ Hcs) as (-> & ds & Hds & Hts). split; [done|].
    exists (d :: ds). split; by constructor.
Qed.

Lemma rank_ok_inv h candidates job_description h' out :
  rank sk nlp_clean candidates job_description h = (h', Ok out) ->
  exists cs ds scores, well_formed h candidates job_description cs ds scores.
Proof.
  rewrite rank_unfold. intros Hrun.
  apply bind_inv in Hrun as (h1 & cs & Hc & Hrun).
  unfold get_list in Hc. destruct (h !! candidates) as [[|cs']|] eqn:Ec; try done.
  injection Hc as <- <-.
  apply bind_inv in Hrun as (h2 & texts & Hp & Hrun).
  apply prepare_texts_inv in Hp as (-> & ds & Hds & Hts).
  apply bind_inv in Hrun as (h3 & scores & Hs & _).
  unfold lift in Hs. injection Hs as _ Hs.
  exists cs', ds, scores. split; [done|done|]. by exists texts.
Qed.

(** With no candidate there is nothing to compare: the call raises. *)
Lemma rank_no_candidates h candidates job_description :
  h !! candidates = Some (OList []) ->
  rank sk nlp_clean candidates job_description h = (h, Raise ValueError).
Proof.
  intros Hc. rewrite rank_unfold.
  rewrite (bind_ok _ _ h h []) by (unfold get_list; by rewrite Hc).
  rewrite (bind_ok _ _ h h []) by reflexivity.
  unfold bind, lift, similarity_scores. cbn.
  by destruct (Sklearn.fit_transform sk [job_description]).
Qed.

(** C10: [rank] does not write to its input.  Whatever the call does,
    every object of the store before the call (each candidate dict and the
    candidate list among them) is the same object after it; and when it
    returns, the result is a new list of new dicts, each equal to an input
    candidate dict with the key "score" set. *)
Theorem rank_leaves_input_alone h candidates job_description :
  (forall l o, h !! l = Some o ->
     (rank sk nlp_clean candidates job_description h).1 !! l = Some o)
  /\ (forall out, (rank sk nlp_clean candidates job_description h).2 = Ok out ->
      exists cs outs,
        h !! candidates = Some (OList cs)
        /\ h !! out = None
        /\ (rank sk nlp_clean candidates job_description h).1 !! out
           = Some (OList outs)
        /\ Forall (fun o => h !! o = None
                    /\ exists c d s,
                         c ∈ cs /\ h !! c = Some (ODict d)
                         /\ (rank sk nlp_clean candidates job_description h).1 !! o
                            = Some (ODict (<["score" := VNum s]> d)))
             outs).
Proof.
  split.
  - intros l o Hl.
    destruct (frame_rank (dom h) candidates job_description h) as [Hkeep _]; [done|].
    rewrite Hkeep; [done|]. apply elem_of_dom. by rewrite Hl.
  - intros out Hout.
    destruct (rank sk nlp_clean candidates job_description h) as [h' r] eqn:Hrun.
    cbn [fst snd] in *. subst r.
    destruct (rank_ok_inv _ _ _ _ _ Hrun) as (cs & ds & scores & Hwf).
    destruct (rank_runs _ _ _ _ _ _ Hwf) as (h'' & outs & Hrun' & Hlist & Hcopies).
    rewrite Hrun in Hrun'. injection Hrun' as <- ->.
    destruct Hwf as [Hc Hcs _].
    exists cs, ((sort_desc (zip scores outs)).*2).
    split; [done|]. split; [apply not_elem_of_dom, is_fresh|]. split; [done|].
    apply Forall_forall. intros o Ho.
    apply list_elem_of_fmap in Ho as ([s o'] & -> & Ho).
    rewrite sort_desc_perm in Ho. cbn.
    apply list_elem_of_lookup_1 in Ho as [k Hk].
    apply lookup_zip_with_Some in Hk as (a & b & [= -> ->] & _ & Ho).
    destruct (Forall2_lookup_l _ _ _ _ _ Hcopies Ho) as ([d s'] & Hx & Hfresh & _ & Hd).
    apply lookup_zip_with_Some in Hx as (a' & b' & [= -> ->] & Hdk & _).
    destruct (Forall2_lookup_r _ _ _ _ _ Hcs Hdk) as (c & Hck & Hcd).
    split; [done|]. exists c, a', b'. split; [|done].
    by eapply list_elem_of_lookup_2.
Qed.
End Rank.

(** *** A run on a small store *)

(** Rows are the documents; a candidate scores 1 when its text occurs in
    the job description, else 1/2 when it has an "a", else 0. *)
Definition toy_vectorizer : Sklearn.vectorizer :=
  Sklearn.Vectorizer string
    (fun docs => if bool_decide (Forall (fun d => d = "") docs) then None
                 else Some (fun i => nth i docs ""))
    (fun a b => if Py.contains a b then Q2Qc 1
                else if Py.contains "a" a then Q2Qc 0.5 else 0%Qc).

Definition ann : gmap string value :=
  {[ "name" := VStr "Ann"; "skills" := VList [VStr "java"] ]}.
Definition bob : gmap string value :=
  {[ "name" := VStr "Bob"; "skills" := VList [VStr "python"] ]}.
Definition cyd : gmap string value :=
  {[ "name" := VStr "Cyd"; "skills" := VList [VStr "scala"]; "score" := VNone ]}.
Definition dan : gmap string value :=
  {[ "name" := VStr "Dan"; "skills" := VList [VStr "sql"] ]}.

Definition store0 : heap :=
  {[ 1%positive := ODict ann; 2%positive := ODict bob; 3%positive := ODict cyd;
     4%positive := ODict dan; 5%positive := OList [1; 2; 3; 4]%positive ]}.

Lemma store0_well_formed :
  well_formed toy_vectorizer id store0 5%positive "python sql"
    [1; 2; 3; 4]%positive [ann; bob; cyd; dan]
    [Q2Qc 0.5; Q2Qc 1; Q2Qc 0.5; Q2Qc 1].
Proof.
  split.
  - reflexivity.
  - repeat constructor.
  - exists ["java"; "python"; "scala"; "sql"]. split.
    + repeat constructor.
    + vm_compute. reflexivity.
Qed.

Lemma rank_sorted_stable_witness :
  exists h' out outs perm,
    rank toy_vectorizer id 5%positive "python sql" store0 = (h', Ok out)
    /\ h' !! out = Some (OList outs)
    /\ perm ≡ₚ seq 0 (length [1; 2; 3; 4]%positive)
    /\ Forall2 (fun o i => exists d s,
                  [ann; bob; cyd; dan] !! i = Some d
                  /\ [Q2Qc 0.5; Q2Qc 1; Q2Qc 0.5; Q2Qc 1] !! i = Some s
                  /\ h' !! o = Some (ODict (<["score" := VNum s]> d)))
         outs perm
    /\ (forall k1 k2 i1 i2 s1 s2,
          (k1 < k2)%nat -> perm !! k1 = Some i1 -> perm !! k2 = Some i2 ->
          [Q2Qc 0.5; Q2Qc 1; Q2Qc 0.5; Q2Qc 1] !! i1 = Some s1 ->
          [Q2Qc 0.5; Q2Qc 1; Q2Qc 0.5; Q2Qc 1] !! i2 = Some s2 ->
          (s2 < s1)%Qc \/ (s1 = s2 /\ (i1 < i2)%nat)).
Proof.
  exact (rank_sorted_stable toy_vectorizer id store0 5%positive "python sql"
           [1; 2; 3; 4]%positive [ann; bob; cyd; dan]
           [Q2Qc 0.5; Q2Qc 1; Q2Qc 0.5; Q2Qc 1] store0_well_formed).
Defined.

(** The run itself: Bob and Dan (score 1) come first, in their input
    order, then Ann and Cyd (score 1/2), in theirs. *)
Lemma store0_ranked :
  (rank toy_vectorizer id 5%positive "python sql" store0).2 = Ok 6%positive
  /\ (rank toy_vectorizer id 5%positive "python sql" store0).1 !! 6%positive
     = Some (OList [8; 10; 7; 9]%positive)
  /\ (rank toy_vectorizer id 5%positive "python sql" store0).1 !! 8%positive
     = Some (ODict (<["score" := VNum (Q2Qc 1)]> bob))
  /\ (rank toy_vectorizer id 5%positive "python sql" store0).1 !! 10%positive
     = Some (ODict (<["score" := VNum (Q2Qc 1)]> dan))
  /\ (rank toy_vectorizer id 5%positive "python sql" store0).1 !! 5%positive
     = Some (OList [1; 2; 3; 4]%positive).
Proof. repeat split; vm_compute; reflexivity. Qed.

Lemma rank_leaves_input_alone_witness :
  (forall l o, store0 !! l = Some o ->
     (rank toy_vectorizer id 5%positive "python sql" store0).1 !! l = Some o)
  /\ exists cs outs,
       store0 !! 5%positive = Some (OList cs)
       /\ store0 !! 6%positive = None
       /\ (rank toy_vectorizer id 5%positive "python sql" store0).1 !! 6%positive
          = Some (OList outs)
       /\ Forall (fun o => store0 !! o = None
                   /\ exists c d s,
                        c ∈ cs /\ store0 !! c = Some (ODict d)
                        /\ (rank toy_vectorizer id 5%positive "python sql" store0).1 !! o
                           = Some (ODict (<["score" := VNum s]> d)))
            outs.
Proof.
  destruct (rank_leaves_input_alone toy_vectorizer id store0 5%positive "python sql")
    as [H1 H2].
  split; [exact H1|]. apply H2. vm_compute. reflexivity.
Defined.
End RankerFacts.

(** * Further properties *)

Module NormalizerFacts.
Import Parser ParserFacts.

(** *** What a skill adds does not depend on the set it is added to *)

Lemma add_part_union S part : add_part S part = add_part ∅ part ∪ S.
Proof.
  unfold add_part.
  destruct (negb (Py.truthy (Py.strip part)) || _); [by rewrite (left_id_L ∅ (∪))|].
  case_bool_decide; [|by rewrite (left_id_L ∅ (∪))].
  by rewrite (right_id_L ∅ (∪)).
Qed.

Lemma add_skill_one S skill :
  add_skill S skill = add_part S (sub_special (Py.lower skill)).
Proof. unfold add_skill. by rewrite split_is_dead. Qed.

Lemma add_skill_union S skill : add_skill S skill = add_skill ∅ skill ∪ S.
Proof. rewrite !add_skill_one. apply add_part_union. Qed.

Lemma elem_of_foldl_add_skill skills : forall S x,
  x ∈ foldl add_skill S skills
  <-> x ∈ S \/ exists skill, skill ∈ skills /\ x ∈ add_skill ∅ skill.
Proof.
  induction skills as [|s skills IH]; intros S x; cbn.
  - split; [by left|]. intros [?|(s & []%elem_of_nil & _)]; done.
  - rewrite IH, add_skill_union, elem_of_union. split.
    + intros [[Hx|Hx]|(s' & Hs' & Hx)].
      * right. exists s. split; [left|done].
      * by left.
      * right. exists s'. split; [by right|done].
    + intros [Hx|(s' & Hs' & Hx)]; [by left; right|].
      apply elem_of_cons in Hs' as [->|Hs']; [by left; left|].
      right. by exists s'.
Qed.

(** X1: two lists with the same elements, in whatever order and however
    often repeated, are normalised to the same list by [normalize_skills]. *)
Theorem normalize_skills_same_elements (l1 l2 : list string) :
  (forall s, s ∈ l1 <-> s ∈ l2) -> normalize_skills l1 = normalize_skills l2.
Proof.
  intros Hsame.
  assert (foldl add_skill ∅ l1 = foldl add_skill ∅ l2) as Hset.
  { apply set_eq. intros x. rewrite !elem_of_foldl_add_skill.
    split; intros [Hx|(s & Hs & Hx)]; try (by left);
      right; exists s; (split; [by apply Hsame|done]). }
  destruct l1 as [|a l1], l2 as [|b l2]; cbn [normalize_skills].
  - done.
  - exfalso. apply (elem_of_nil b). apply Hsame. left.
  - exfalso. apply (elem_of_nil a). apply Hsame. left.
  - by rewrite Hset.
Qed.

Lemma normalize_skills_same_elements_witness :
  normalize_skills ["JS"; "aws"; "JS"; "py"] = normalize_skills ["py"; "JS"; "aws"].
Proof.
  apply normalize_skills_same_elements. intros s.
  rewrite !elem_of_cons, !elem_of_nil. tauto.
Defined.

(** X2: every string that [normalize_skills] returns is left alone by each
    step of a pass: it is lower-case, has no special character to blank out, has
    no white space at either end, is mapped to itself by the alias table, and is
    none of the stop tokens. *)
Theorem normalize_skills_output_shape (skills : list string) :
  Forall (fun x => Py.lower x = x /\ sub_special x = x /\ Py.strip x = x
                   /\ mapped x = x /\ x ∉ stop_tokens)
         (normalize_skills skills).
Proof.
  eapply Forall_impl; [apply normalize_skills_canonical|].
  intros x (Hc & Hs & _ & Hm & Hstop)%canonical_inv.
  auto using clean_lower, clean_sub_special.
Qed.

Lemma size_add_part acc part : size (add_part acc part) <= S (size acc).
Proof.
  rewrite add_part_union. unfold add_part at 1.
  destruct (negb _ || _).
  { rewrite (left_id_L ∅ (∪)). lia. }
  case_bool_decide.
  - rewrite (right_id_L ∅ (∪)), size_union_alt, size_singleton.
    assert (size (acc ∖ {[mapped (Py.strip part)]}) <= size acc); [|lia].
    apply subseteq_size, subseteq_difference_l. reflexivity.
  - rewrite (left_id_L ∅ (∪)). lia.
Qed.

Lemma size_foldl_add_skill skills : forall acc,
  size (foldl add_skill acc skills) <= size acc + length skills.
Proof.
  induction skills as [|s skills IH]; intros acc; cbn; [lia|].
  etrans; [apply IH|]. rewrite add_skill_one.
  pose proof (size_add_part acc (sub_special (Py.lower s))). lia.
Qed.

(** X3: [normalize_skills] never returns more skills than it is given. *)
Theorem normalize_skills_length (skills : list string) :
  length (normalize_skills skills) <= length skills.
Proof.
  destruct skills as [|s skills]; [done|]. cbn [normalize_skills].
  rewrite sorted_perm. fold (size (foldl add_skill ∅ (s :: skills))).
  etrans; [apply size_foldl_add_skill|]. rewrite size_empty. lia.
Qed.
End NormalizerFacts.

Module TextSkillsFacts.
Import Parser ParserFacts.

Definition found_in (text : string) (found : gset string) (kv : string * string)
    : gset string :=
  if Py.contains kv.1 text then {[ kv.2 ]} ∪ found else found.

Lemma elem_of_found text items : forall found x,
  x ∈ foldl (found_in text) found items
  <-> x ∈ found \/ exists k, (k, x) ∈ items /\ Py.contains k text = true.
Proof.
  induction items as [|[k v] items IH]; intros found x; cbn.
  - split; [by left|]. intros [?|(k & []%elem_of_nil & _)]; done.
  - rewrite IH. unfold found_in. cbn. split.
    + intros [Hx|(k' & Hk' & Hc)].
      * destruct (Py.contains k text) eqn:E; [|by left].
        apply elem_of_union in Hx as [->%elem_of_singleton|Hx]; [|by left].
        right. exists k. split; [left|done].
      * right. exists k'. split; [by right|done].
    + intros [Hx|(k' & Hk' & Hc)].
      * left. destruct (Py.contains k text); [|done]. apply elem_of_union. by right.
      * apply elem_of_cons in Hk' as [[= -> ->]|Hk'].
        -- left. rewrite Hc. apply elem_of_union. left. by apply elem_of_singleton.
        -- right. by exists k'.
Qed.

Lemma extract_unfold text :
  text <> "" ->
  extract_skills_from_text text
  = Py.sorted (elements (foldl (found_in (Py.lower text)) ∅ skill_mappings_items)).
Proof. intros H. destruct text; [done|]. reflexivity. Qed.

Lemma skill_mappings_nodup : NoDup skill_mappings_items.*1.
Proof. apply (bool_decide_unpack _). vm_compute. exact I. Qed.

Lemma elem_of_extract text x :
  x ∈ extract_skills_from_text text
  <-> text <> ""
      /\ exists k, skill_mappings !! k = Some x
                   /\ Py.contains k (Py.lower text) = true.
Proof.
  destruct (decide (text = "")) as [->|Hne].
  { split; [by intros ?%elem_of_nil|]. by intros [? _]. }
  rewrite (extract_unfold text Hne), sorted_perm, elem_of_elements, elem_of_found.
  split.
  - intros [[]%not_elem_of_empty|(k & Hk & Hc)]. split; [done|].
    exists k. split; [|done].
    apply elem_of_list_to_map_1; [apply skill_mappings_nodup|done].
  - intros (_ & k & Hk & Hc). right. exists k. split; [|done].
    by apply elem_of_list_to_map_2.
Qed.

(** X4: [extract_skills_from_text] returns a list in ascending order and
    without duplicates, and a skill is in it exactly when the text is not empty
    and the skill is the alias-table image of a key that occurs in the
    lower-cased text. *)
Theorem extract_skills_from_text_spec (text : string) :
  Sorted String.le (extract_skills_from_text text)
  /\ NoDup (extract_skills_from_text text)
  /\ (forall x, x ∈ extract_skills_from_text text
                <-> text <> ""
                    /\ exists k, skill_mappings !! k = Some x
                                 /\ Py.contains k (Py.lower text) = true).
Proof.
  split; [|split; [|apply elem_of_extract]].
  - destruct (decide (text = "")) as [->|Hne]; [constructor|].
    rewrite (extract_unfold text Hne). apply (Sorted_merge_sort String.le).
  - destruct (decide (text = "")) as [->|Hne]; [constructor|].
    rewrite (extract_unfold text Hne), sorted_perm. apply NoDup_elements.
Qed.

Lemma lower_char_lower c : Py.lower_char (Py.lower_char c) = Py.lower_char c.
Proof.
  assert (forall c, bool_decide (Py.lower_char (Py.lower_char c) = Py.lower_char c) = true) as H.
  { apply ascii_forall. vm_compute. reflexivity. }
  exact (bool_decide_eq_true_1 _ (H c)).
Qed.

Lemma lower_lower s : Py.lower (Py.lower s) = Py.lower s.
Proof.
  induction s as [|c s IH]; [done|].
  change (String (Py.lower_char (Py.lower_char c)) (Py.lower (Py.lower s))
          = String (Py.lower_char c) (Py.lower s)).
  by rewrite lower_char_lower, IH.
Qed.

Lemma lower_empty s : Py.lower s = "" <-> s = "".
Proof. by destruct s. Qed.

(** X5: [extract_skills_from_text] does not look at case: two texts with
    the same lower-case form give the same list. *)
Theorem extract_skills_from_text_case (text1 text2 : string) :
  Py.lower text1 = Py.lower text2 ->
  extract_skills_from_text text1 = extract_skills_from_text text2.
Proof.
  intros H. destruct (decide (text1 = "")) as [->|H1].
  - symmetry in H. apply lower_empty in H as ->. done.
  - assert (text2 <> "") as H2.
    { intros ->. apply H1. by apply lower_empty. }
    by rewrite !extract_unfold, H.
Qed.

Lemma extract_skills_from_text_case_witness :
  extract_skills_from_text "Docker and K8S on AWS"
  = extract_skills_from_text "docker AND k8s ON aws".
Proof. apply extract_skills_from_text_case. vm_compute. reflexivity. Defined.

Lemma extract_canonical text : Forall canonical (extract_skills_from_text text).
Proof.
  apply Forall_forall. intros x Hx.
  apply elem_of_extract in Hx as (_ & k & Hk & _).
  destruct (mapped_cases k) as [[Hn _]|(v & Hv & _ & Hcan)]; [congruence|].
  congruence.
Qed.

(** Normalising the sorted list of a set of canonical strings gives the
    list back. *)
Lemma normalize_sorted_set (S : gset string) :
  all_canonical S ->
  normalize_skills (Py.sorted (elements S)) = Py.sorted (elements S).
Proof.
  intros HS.
  assert (Forall canonical (Py.sorted (elements S))) as Hcan.
  { apply Forall_forall. intros x. rewrite sorted_perm, elem_of_elements. apply HS. }
  destruct (Py.sorted (elements S)) as [|o out] eqn:Eout; [done|].
  change (Py.sorted (elements (foldl add_skill ∅ (o :: out))) = o :: out).
  rewrite (foldl_add_skill_canonical _ _ Hcan), <- Eout. f_equal. f_equal.
  apply set_eq. intros y.
  rewrite elem_of_union, elem_of_list_to_set, sorted_perm, elem_of_elements.
  split; [intros [?|[]%not_elem_of_empty]; done | by left].
Qed.

(** X6: the list that [extract_skills_from_text] returns is already
    normalised: [normalize_skills] gives it back unchanged. *)
Theorem normalize_skills_extract (text : string) :
  normalize_skills (extract_skills_from_text text) = extract_skills_from_text text.
Proof.
  destruct (decide (text = "")) as [->|Hne]; [done|].
  rewrite (extract_unfold text Hne). apply normalize_sorted_set.
  intros x Hx. pose proof (extract_canonical text) as Hcan.
  rewrite Forall_forall in Hcan. apply Hcan.
  by rewrite (extract_unfold text Hne), sorted_perm, elem_of_elements.
Qed.
End TextSkillsFacts.

Module ProcessSkillsFacts.
Import Parser ParserFacts TextSkillsFacts.








Fixpoint all_chars (p : ascii -> bool) (s : string) : bool :=
  match s with
  | EmptyString => true
  | String c s' => p c && all_chars p s'
  end.

Lemma all_chars_cons p c s :
  all_chars p (String c s) = true <-> p c = true /\ all_chars p s = true.
Proof. cbn. apply andb_true_iff. Qed.



















End ProcessSkillsFacts.

Module ProcessRecordsFacts.
Import Parser ParserFacts.

Lemma contains_cons sub c s :
  Py.contains sub (String c s) = String.prefix sub (String c s) || Py.contains sub s.
Proof. reflexivity. Qed.

Lemma contains_nil sub : sub <> "" -> Py.contains sub "" = false.
Proof. by destruct sub. Qed.

Lemma split_go_no_sep sep s : forall cur,
  Py.contains sep s = false ->
  Py.split_go sep 0 cur s = [Py.rev_string s cur].
Proof.
  induction s as [|c s IH]; intros cur H; [done|].
  rewrite contains_cons in H. apply orb_false_iff in H as [Hp Hc].
  cbn [Py.split_go]. rewrite Hp. rewrite (IH _ Hc). reflexivity.
Qed.

Lemma split_str_no_sep sep s : Py.contains sep s = false -> Py.split_str sep s = [s].
Proof. intros H. unfold Py.split_str. by rewrite split_go_no_sep. Qed.

Lemma split_go_cons sep s : forall skip cur,
  exists p ps, Py.split_go sep skip cur s = p :: ps.
Proof.
  induction s as [|c s IH]; intros skip cur; cbn [Py.split_go]; [by eexists _, _|].
  destruct skip as [|k]; [|apply IH].
  destruct (String.prefix sep (String c s)); [by eexists _, _|apply IH].
Qed.

Lemma split_go_two sep s : forall cur,
  sep <> "" -> Py.contains sep s = true ->
  exists p0 p1 ps, Py.split_go sep 0 cur s = p0 :: p1 :: ps.
Proof.
  induction s as [|c s IH]; intros cur Hsep H.
  - by rewrite contains_nil in H.
  - cbn [Py.split_go]. rewrite contains_cons in H.
    destruct (String.prefix sep (String c s)) eqn:Hp.
    + destruct (split_go_cons sep s (String.length sep - 1) "") as (p & ps & ->).
      by eexists _, _, _.
    + by apply IH.
Qed.

Lemma split_str_two sep s :
  sep <> "" -> Py.contains sep s = true ->
  exists p0 p1 ps, Py.split_str sep s = p0 :: p1 :: ps.
Proof. intros. by apply split_go_two. Qed.

(** X9: [_process_education] returns one entry per degree string, in
    order; every entry has the institution "Unknown", no dates and no gpa, and a
    degree and a field without white space at either end; a degree string
    without " in " gives its stripped text as the degree and the field
    "Unknown". *)
Theorem process_education_spec (degrees : list string) :
  length (_process_education degrees) = length degrees
  /\ Forall (fun e => edu_institution e = "Unknown"
                      /\ edu_start_date e = None /\ edu_end_date e = None
                      /\ edu_gpa e = None
                      /\ Py.strip (edu_degree e) = edu_degree e
                      /\ Py.strip (edu_field_of_study e) = edu_field_of_study e)
       (_process_education degrees)
  /\ (forall i degree,
        degrees !! i = Some degree -> Py.contains " in " degree = false ->
        _process_education degrees !! i
        = Some (Education (Py.strip degree) "Unknown" "Unknown" None None None)).
Proof.
  unfold _process_education. split; [apply length_fmap|]. split.
  - apply Forall_fmap, Forall_forall. intros d _. unfold process_degree. cbn.
    destruct (Py.split_str " in " d) as [|p0 [|p1 ps]]; cbn;
      repeat split; try apply strip_strip; reflexivity.
  - intros i d Hi Hc. rewrite list_lookup_fmap, Hi. cbn. f_equal.
    unfold process_degree. by rewrite (split_str_no_sep _ _ Hc).
Qed.

(** X10: [_process_experience] returns one entry per experience string, in
    order, with that string as its description, no dates and no skills.  When the
    string contains " at ", title and company are the stripped first and second
    part of its split on " at "; otherwise, when it contains " with ", those of
    its split on " with "; otherwise both are "Unknown". *)
Theorem process_experience_spec (experiences : list string) :
  exp_description <$> _process_experience experiences = experiences
  /\ Forall (fun e => exp_start_date e = None /\ exp_end_date e = None
                      /\ exp_skills e = []
                      /\ Py.strip (exp_title e) = exp_title e
                      /\ Py.strip (exp_company e) = exp_company e)
       (_process_experience experiences)
  /\ (forall i exp,
        experiences !! i = Some exp ->
        exists e, _process_experience experiences !! i = Some e
          /\ (Py.contains " at " exp = true ->
              exists p0 p1 ps, Py.split_str " at " exp = p0 :: p1 :: ps
                /\ exp_title e = Py.strip p0 /\ exp_company e = Py.strip p1)
          /\ (Py.contains " at " exp = false -> Py.contains " with " exp = true ->
              exists p0 p1 ps, Py.split_str " with " exp = p0 :: p1 :: ps
                /\ exp_title e = Py.strip p0 /\ exp_company e = Py.strip p1)
          /\ (Py.contains " at " exp = false -> Py.contains " with " exp = false ->
              exp_title e = "Unknown" /\ exp_company e = "Unknown")).
Proof.
  unfold _process_experience. split; [|split].
  - rewrite <- list_fmap_compose. induction experiences as [|x l IH]; [done|].
    cbn. by rewrite IH.
  - apply Forall_fmap, Forall_forall. intros x _. unfold process_experience. cbn.
    destruct (Py.contains " at " x); [|destruct (Py.contains " with " x)].
    + destruct (Py.split_str " at " x) as [|p0 [|p1 ps]]; cbn;
        repeat split; try apply strip_strip; reflexivity.
    + destruct (Py.split_str " with " x) as [|p0 [|p1 ps]]; cbn;
        repeat split; try apply strip_strip; reflexivity.
    + by repeat split.
  - intros i x Hi. exists (process_experience x).
    rewrite list_lookup_fmap, Hi. split; [done|]. unfold process_experience. cbn.
    split; [|split].
    + intros Hat. rewrite Hat.
      destruct (split_str_two " at " x) as (p0 & p1 & ps & E); [done|done|].
      rewrite E. by exists p0, p1, ps.
    + intros Hat Hwith. rewrite Hat, Hwith.
      destruct (split_str_two " with " x) as (p0 & p1 & ps & E); [done|done|].
      rewrite E. by exists p0, p1, ps.
    + intros Hat Hwith. by rewrite Hat, Hwith.
Qed.
End ProcessRecordsFacts.

Module SimilarityBounds.
Import Similarity SimilarityFacts.






Section Calculator.
Variable sk : Sklearn.vectorizer.



(** X12: when, for each of skills, location and experience level, the job
    or the candidate has none (absent or empty), [_calculate_tfidf_similarity]
    returns the overall score 0 and three detailed scores 0, whatever the
    vectorizer says about the two prepared texts. *)
Theorem tfidf_nothing_to_compare (job_info candidate : profile) :
  default [] (skills job_info) = [] \/ default [] (skills candidate) = [] ->
  default "" (location job_info) = "" \/ default "" (location candidate) = "" ->
  default "" (experience_level job_info) = ""
  \/ default "" (experience_level candidate) = "" ->
  _calculate_tfidf_similarity sk job_info candidate = (0%Qc, Detailed 0 0 0).
Proof.
  intros Hs Hl He. unfold _calculate_tfidf_similarity.
  rewrite weighted_sum. cbn [skills_score location_score experience_score].
  rewrite (skills_similarity_empty sk _ _ Hs).
  assert (_calculate_location_similarity sk
            (default "" (location job_info)) (default "" (location candidate))
          = 0%Qc) as ->.
  { unfold _calculate_location_similarity.
    destruct Hl as [-> | ->]; cbn; rewrite ?orb_true_r; done. }
  assert (_calculate_experience_similarity sk
            (default "" (experience_level job_info))
            (default "" (experience_level candidate)) = 0%Qc) as ->.
  { unfold _calculate_experience_similarity.
    destruct He as [-> | ->]; cbn; rewrite ?orb_true_r; done. }
  f_equal; try ring.
Qed.
End Calculator.



Lemma tfidf_nothing_to_compare_witness :
  _calculate_tfidf_similarity exact_vectorizer
    (Profile (Some ["python"; "sql"]) None (Some "senior"))
    (Profile None (Some "Berlin") (Some ""))
  = (0%Qc, Detailed 0 0 0).
Proof.
  apply tfidf_nothing_to_compare; [by right|by left|by right].
Defined.
End SimilarityBounds.

Module ExtractorFacts.
Import ResumeParser ParserFacts TextSkillsFacts ProcessSkillsFacts ProcessRecordsFacts.

(** *** [_extract_skills] *)

Lemma common_skills_nodup : NoDup common_skills.
Proof. apply (bool_decide_unpack _). vm_compute. exact I. Qed.

Lemma common_skills_nonempty skill : skill ∈ common_skills -> skill <> "".
Proof.
  assert (Forall (fun s => s <> "") common_skills) as H.
  { unfold common_skills. repeat (constructor; [discriminate|]). constructor. }
  rewrite Forall_forall in H. apply H.
Qed.

Lemma extract_skills_unfold text :
  _extract_skills text
  = filter (fun skill => Py.contains skill (Py.lower text) = true) common_skills.
Proof.
  destruct text as [|c text]; [|reflexivity].
  symmetry. apply (bool_decide_unpack _). vm_compute. exact I.
Qed.

(** X13: [_extract_skills] returns the skills of its fixed list that occur
    in the lower-cased text, in the order of that list and without duplicates;
    it gives the same result on the text and on its lower-case form. *)
Theorem extract_skills_spec (text : string) :
  sublist (_extract_skills text) common_skills
  /\ NoDup (_extract_skills text)
  /\ (forall skill, skill ∈ _extract_skills text
        <-> skill ∈ common_skills /\ Py.contains skill (Py.lower text) = true)
  /\ _extract_skills (Py.lower text) = _extract_skills text.
Proof.
  rewrite !extract_skills_unfold, lower_lower. split; [apply sublist_filter|].
  split; [apply NoDup_filter, common_skills_nodup|]. split; [|done].
  intros skill. rewrite list_elem_of_filter. tauto.
Qed.

(** *** [_extract_email] and [_extract_phone] *)

Definition not_blank (c : ascii) : bool := negb (bool_decide (c = " "%char)).

Lemma substring_all s : String.substring 0 (String.length s) s = s.
Proof. induction s as [|c s IH]; [done|]. cbn. by rewrite IH. Qed.

Lemma prefix_blank c s :
  String.prefix " " (String c s) = bool_decide (c = " "%char).
Proof.
  cbn [String.prefix]. destruct (ascii_dec " " c) as [<-|Hne].
  - rewrite bool_decide_eq_true_2 by done. by destruct s.
  - rewrite bool_decide_eq_false_2; [done|]. congruence.
Qed.

Lemma replace_blank_fuel fuel : forall s,
  (String.length s < fuel)%nat ->
  replace_fuel fuel " " "" s = filter_chars not_blank s.
Proof.
  induction fuel as [|fuel IH]; intros s Hlen; [lia|].
  destruct s as [|c s]; [done|]. cbn [String.length] in Hlen.
  cbn [replace_fuel filter_chars]. unfold not_blank at 1.
  rewrite prefix_blank. case_bool_decide as Hc; cbn [negb].
  - change (String.length " ") with 1%nat.
    replace (String.substring 1 (String.length (String c s) - 1) (String c s))
      with s.
    + change ("" ++ ?x) with x. apply IH. lia.
    + cbn [String.length]. rewrite Nat.sub_1_r, Nat.pred_succ.
      cbn [String.substring]. by rewrite substring_all.
  - f_equal. apply IH. lia.
Qed.

Lemma replace_blank s : replace " " "" s = filter_chars not_blank s.
Proof. unfold replace. apply replace_blank_fuel. lia. Qed.

Lemma all_chars_filter p s : all_chars p (filter_chars p s) = true.
Proof.
  induction s as [|c s IH]; [done|]. cbn. destruct (p c) eqn:E; [|done].
  apply all_chars_cons. done.
Qed.

Lemma not_blank_lower s :
  all_chars not_blank s = true -> all_chars not_blank (Py.lower s) = true.
Proof.
  assert (forall c, implb (not_blank c) (not_blank (Py.lower_char c)) = true) as H.
  { apply ascii_forall. vm_compute. reflexivity. }
  induction s as [|c s IH]; [done|]. intros [Hc Hs]%all_chars_cons.
  change (Py.lower (String c s)) with (String (Py.lower_char c) (Py.lower s)).
  apply all_chars_cons. split; [|by apply IH].
  specialize (H c). by rewrite Hc in H.
Qed.

Lemma not_blank_contains s : all_chars not_blank s = true -> Py.contains " " s = false.
Proof.
  induction s as [|c s IH]; [done|]. intros [Hc Hs]%all_chars_cons.
  rewrite contains_cons, (IH Hs), orb_false_r, prefix_blank.
  by apply negb_true_iff in Hc.
Qed.

Lemma lower_not_default s : Py.lower s <> "Not provided".
Proof.
  intros H. pose proof (lower_lower s) as L. rewrite H in L. discriminate L.
Qed.

(** X14: [_extract_email] returns "Not provided" exactly when the text is
    empty or none of the three patterns matches; any other result is lower-case
    and contains no blank. *)
Theorem extract_email_shape (text : string) :
  (_extract_email text = "Not provided"
     <-> text = "" \/ first_match email_patterns text = None)
  /\ (_extract_email text <> "Not provided" ->
      Py.lower (_extract_email text) = _extract_email text
      /\ Py.contains " " (_extract_email text) = false).
Proof.
  unfold _extract_email. destruct text as [|c text].
  { cbn [Py.truthy negb]. split; [by split; [left|]|done]. }
  cbn [Py.truthy negb].
  destruct (first_match email_patterns (String c text)) as [email|].
  - split.
    + split; [intros H; by apply lower_not_default in H|]. by intros [|].
    + intros _. rewrite lower_lower. split; [done|].
      apply not_blank_contains, not_blank_lower.
      rewrite replace_blank. apply all_chars_filter.
  - split; [|done]. split; [by right|done].
Qed.

Definition phone_char (c : ascii) : bool := Py.isdecimal c || is_char "+" c.

(** X15: [_extract_phone] returns "Not provided" exactly when the text is
    empty or none of the four patterns matches; any other result consists of
    decimal digits and plus signs only. *)
Theorem extract_phone_shape (text : string) :
  (_extract_phone text = "Not provided"
     <-> text = "" \/ first_match phone_patterns text = None)
  /\ (_extract_phone text <> "Not provided" ->
      all_chars phone_char (_extract_phone text) = true).
Proof.
  unfold _extract_phone. destruct text as [|c text].
  { cbn [Py.truthy negb]. split; [by split; [left|]|done]. }
  cbn [Py.truthy negb].
  destruct (first_match phone_patterns (String c text)) as [phone|].
  - pose proof (all_chars_filter phone_char phone) as Hp. split.
    + split; [|by intros [|]]. intros H. unfold phone_char in Hp.
      rewrite H in Hp. discriminate Hp.
    + intros _. exact Hp.
  - split; [|done]. split; [by right|done].
Qed.

(** *** [_extract_education] and [_extract_experience]

    Each loop keeps one open entry and closes it when the next one opens;
    what it appends depends on the line that opened the entry alone. *)

Definition is_header (patterns : list Re.regex) (line : string) : bool :=
  Py.truthy line && existsb (fun pattern => found pattern line) patterns.

Lemma omap_cons {A B} (f : A -> option B) x l :
  omap f (x :: l) = (option_list (f x) ++ omap f l)%list.
Proof. cbn. by destruct (f x). Qed.

Section Extractors.
Variable today : string.

Definition closed_education (cur : education_entry) : option education_entry :=
  if Py.truthy (degree cur) && Py.truthy (institution cur)
  then Some (Education (degree cur) (or_str (field_of_study cur) "Not specified")
               (institution cur) (or_str (edu_start_date cur) today)
               (or_str (edu_end_date cur) today) (gpa cur))
  else None.

Definition education_of_line (line : string) : option education_entry :=
  let line := Py.strip line in
  if is_header education_patterns line
  then closed_education (open_education today line)
  else None.

Lemma close_education_app education cur :
  close_education today education cur
  = (education ++ option_list (cur ≫= closed_education))%list.
Proof.
  unfold close_education, closed_education.
  destruct cur as [cur|]; [|by rewrite app_nil_r].
  change (Some cur ≫= ?f) with (f cur). cbn beta.
  destruct (Py.truthy (degree cur) && Py.truthy (institution cur)); [done|].
  by rewrite app_nil_r.
Qed.

Lemma education_step_cases st line :
  education_step today st line
  = if is_header education_patterns (Py.strip line)
    then (close_education today st.1 st.2, Some (open_education today (Py.strip line)))
    else st.
Proof.
  unfold education_step, is_header.
  by destruct (Py.truthy (Py.strip line)); cbn [negb andb].
Qed.

Lemma education_loop lines : forall st,
  close_education today (foldl (education_step today) st lines).1
                        (foldl (education_step today) st lines).2
  = (close_education today st.1 st.2 ++ omap education_of_line lines)%list.
Proof.
  induction lines as [|line lines IH]; intros st; [by rewrite app_nil_r|].
  cbn [foldl]. rewrite IH, education_step_cases, omap_cons.
  change (education_of_line line)
    with (if is_header education_patterns (Py.strip line)
          then closed_education (open_education today (Py.strip line)) else None).
  destruct (is_header education_patterns (Py.strip line)); [|done].
  cbn [fst snd]. rewrite (close_education_app (close_education _ _ _)).
  by rewrite <- app_assoc.
Qed.

Lemma closed_education_fields cur e :
  closed_education cur = Some e ->
  degree e <> "" /\ institution e <> "" /\ field_of_study e <> "".
Proof.
  unfold closed_education.
  destruct (Py.truthy (degree cur)) eqn:Hd; [|done].
  destruct (Py.truthy (institution cur)) eqn:Hi; [|done].
  intros [= <-]. cbn. split; [by destruct (degree cur)|].
  split; [by destruct (institution cur)|].
  unfold or_str. by destruct (field_of_study cur).
Qed.

(** X16: the loop of [_extract_education] amounts to a map over the lines
    of the text: a line that, stripped, is not empty and matches one of the
    education patterns gives the entry opened on it, if that entry has a degree
    and an institution, and no other line gives anything.  Hence every entry
    returned has a non-empty degree, institution and field of study, and its
    institution is a stripped line of the text that names a university, college
    or institute. *)
Theorem extract_education_by_line (text : string) :
  _extract_education today text
  = omap education_of_line (Py.split_on (is_char "010") text)
  /\ Forall (fun e => degree e <> "" /\ institution e <> "" /\ field_of_study e <> ""
                      /\ exists line,
                           line ∈ Py.split_on (is_char "010") text
                           /\ institution e = Py.strip line
                           /\ found institution_regex (Py.strip line) = true)
       (_extract_education today text).
Proof.
  assert (_extract_education today text
          = omap education_of_line (Py.split_on (is_char "010") text)) as E.
  { unfold _extract_education. cbn zeta. by rewrite education_loop. }
  split; [exact E|]. rewrite E. apply Forall_forall. intros e He.
  apply list_elem_of_omap in He as (line & Hline & He).
  unfold education_of_line in He. cbn zeta in He.
  destruct (is_header education_patterns (Py.strip line)); [|done].
  destruct (closed_education_fields _ _ He) as (Hd & Hi & Hf).
  split; [done|]. split; [done|]. split; [done|].
  exists line. split; [done|]. revert He Hi. unfold closed_education.
  destruct (_ && _); [|done]. intros [= <-]. cbn.
  destruct (found institution_regex (Py.strip line)); done.
Qed.

Definition closed_experience (cur : experience_entry) : option experience_entry :=
  if Py.truthy (title cur) && Py.truthy (company cur)
  then Some (Experience (title cur) (company cur)
               (or_date today (start_date cur)) (or_date today (end_date cur))
               (or_str (description cur) "No description provided")
               (exp_skills cur))
  else None.

Definition experience_of_line (line : string) : option experience_entry :=
  let line := Py.strip line in
  if is_header experience_patterns line
  then closed_experience (open_experience today line)
  else None.

Lemma or_date_is_Some d : is_Some (or_date today d).
Proof.
  unfold or_date. destruct d as [s|]; [|by eexists].
  destruct (Py.truthy s); by eexists.
Qed.

Lemma close_experience_app experience cur :
  close_experience today experience cur
  = (experience ++ option_list (cur ≫= closed_experience))%list.
Proof.
  unfold close_experience, closed_experience.
  destruct cur as [cur|]; [|by rewrite app_nil_r].
  change (Some cur ≫= ?f) with (f cur). cbn beta.
  destruct (Py.truthy (title cur) && Py.truthy (company cur)); [done|].
  by rewrite app_nil_r.
Qed.

Lemma experience_step_cases st line :
  experience_step today st line
  = if is_header experience_patterns (Py.strip line)
    then (close_experience today st.1 st.2, Some (open_experience today (Py.strip line)))
    else st.
Proof.
  unfold experience_step, is_header. destruct line as [|c line]; [done|].
  cbn [Py.truthy negb].
  by destruct (Py.truthy (Py.strip (String c line))); cbn [negb andb].
Qed.

Lemma experience_loop lines : forall st,
  close_experience today (foldl (experience_step today) st lines).1
                         (foldl (experience_step today) st lines).2
  = (close_experience today st.1 st.2 ++ omap experience_of_line lines)%list.
Proof.
  induction lines as [|line lines IH]; intros st; [by rewrite app_nil_r|].
  cbn [foldl]. rewrite IH, experience_step_cases, omap_cons.
  change (experience_of_line line)
    with (if is_header experience_patterns (Py.strip line)
          then closed_experience (open_experience today (Py.strip line)) else None).
  destruct (is_header experience_patterns (Py.strip line)); [|done].
  cbn [fst snd]. rewrite (close_experience_app (close_experience _ _ _)).
  by rewrite <- app_assoc.
Qed.

(** X17: the loop of [_extract_experience] amounts to a map over the
    lines of the text: a line that, stripped, is not empty and matches one of the
    experience patterns gives the entry opened on it, if that entry has a title
    and a company, and no other line gives anything.  Hence every entry returned
    has a non-empty title and company, a start and an end date, the default
    description, skills from the fixed list only, and as its company a stripped
    line of the text that matches the company pattern. *)
Theorem extract_experience_by_line (text : string) :
  _extract_experience today text
  = omap experience_of_line (Py.split_on (is_char "010") text)
  /\ Forall (fun e => title e <> "" /\ company e <> ""
                      /\ is_Some (start_date e) /\ is_Some (end_date e)
                      /\ description e = "No description provided"
                      /\ exp_skills e ⊆ common_skills
                      /\ exists line,
                           line ∈ Py.split_on (is_char "010") text
                           /\ company e = Py.strip line
                           /\ found company_regex (Py.strip line) = true)
       (_extract_experience today text).
Proof.
  assert (_extract_experience today text
          = omap experience_of_line (Py.split_on (is_char "010") text)) as E.
  { unfold _extract_experience. destruct text as [|c text]; [done|].
    cbn [Py.truthy negb]. cbn zeta. by rewrite experience_loop. }
  split; [exact E|]. rewrite E. apply Forall_forall. intros e He.
  apply list_elem_of_omap in He as (line & Hline & He).
  unfold experience_of_line in He. cbn zeta in He.
  destruct (is_header experience_patterns (Py.strip line)); [|done].
  revert He. unfold closed_experience.
  assert (description (open_experience today (Py.strip line))
          = "No description provided") as Hdesc by reflexivity.
  assert (exp_skills (open_experience today (Py.strip line)) ⊆ common_skills) as Hsk.
  { unfold open_experience. cbn [exp_skills]. intros x.
    rewrite extract_skills_unfold, list_elem_of_filter. tauto. }
  assert (company (open_experience today (Py.strip line)) <> "" ->
          company (open_experience today (Py.strip line)) = Py.strip line
          /\ found company_regex (Py.strip line) = true) as Hco.
  { unfold open_experience. cbn [company].
    destruct (found company_regex (Py.strip line)); done. }
  set (cur := open_experience today (Py.strip line)) in *. clearbody cur.
  destruct (Py.truthy (title cur)) eqn:Ht; [|done].
  destruct (Py.truthy (company cur)) eqn:Hc; [|done].
  assert (title cur <> "") as Ht' by (intros Heq; by rewrite Heq in Ht).
  assert (company cur <> "") as Hc' by (intros Heq; by rewrite Heq in Hc).
  intros [= <-]. cbn [title company start_date end_date description exp_skills].
  split; [exact Ht'|]. split; [exact Hc'|].
  split; [apply or_date_is_Some|]. split; [apply or_date_is_Some|].
  split; [by rewrite Hdesc|]. split; [exact Hsk|].
  exists line. split; [done|]. by apply Hco.
Qed.
End Extractors.
End ExtractorFacts.

Module ParseFacts.
Import ResumeParser ResumeFacts ExtractorFacts.

(** *** [_extract_name] without a named entity *)

Definition capitalized (word : string) : bool :=
  match word with
  | String c _ => Py.isupper_char c
  | EmptyString => false
  end.

Lemma capitalized_pair_inv line name :
  capitalized_pair line = Some name ->
  exists w1 w2,
    take 2 (split_whitespace (Py.strip line)) = [w1; w2]
    /\ name = w1 ++ " " ++ w2 /\ capitalized w1 = true /\ capitalized w2 = true.
Proof.
  unfold capitalized_pair.
  destruct (split_whitespace (Py.strip line)) as [|w1 [|w2 ws]]; try done.
  cbn [length Nat.leb take forallb andb].
  fold (capitalized w1). fold (capitalized w2).
  destruct (capitalized w1) eqn:H1; [|done].
  destruct (capitalized w2) eqn:H2; [|done].
  intros [= <-]. by exists w1, w2.
Qed.

Section Parse.
Variable today : string.
Variable first_person_entity : string -> option string.
Variable path_exists : string -> bool.
Variable pdf_extract_text docx2txt_process open_read_utf8 : string -> extracted.

Local Abbreviation read_file :=
  (_read_file path_exists pdf_extract_text docx2txt_process open_read_utf8).
Local Abbreviation parse :=
  (parse_resume today first_person_entity path_exists pdf_extract_text
     docx2txt_process open_read_utf8).

(** X18: when the entity recogniser finds no person, [_extract_name]
    returns a non-empty string: "Unknown", or the first two words, joined by one
    blank, of one of the first five lines whose first two words both start with
    an upper-case letter. *)
Theorem extract_name_fallback (text : string) :
  first_person_entity text = None ->
  _extract_name first_person_entity text <> ""
  /\ (_extract_name first_person_entity text = "Unknown"
      \/ exists line w1 w2,
           line ∈ take 5 (Py.split_on (is_char "010") text)
           /\ take 2 (split_whitespace (Py.strip line)) = [w1; w2]
           /\ capitalized w1 = true /\ capitalized w2 = true
           /\ _extract_name first_person_entity text = w1 ++ " " ++ w2).
Proof.
  intros Hner. unfold _extract_name. destruct text as [|c text].
  { split; [done|by left]. }
  cbn [Py.truthy negb]. rewrite Hner.
  destruct (omap capitalized_pair (take 5 (Py.split_on (is_char "010") (String c text))))
    as [|name names] eqn:E; [split; [done|by left]|].
  cbn [head default].
  assert (name ∈ omap capitalized_pair
            (take 5 (Py.split_on (is_char "010") (String c text)))) as Hin
    by (rewrite E; left).
  apply list_elem_of_omap in Hin as (line & Hline & Hpair).
  apply capitalized_pair_inv in Hpair as (w1 & w2 & Hw & -> & H1 & H2).
  split; [by destruct w1|]. right. by exists line, w1, w2.
Qed.

(** *** [_read_file] and [parse_resume] *)

Lemma read_file_not_found file_path :
  read_file file_path = Py.Raise FileNotFoundError <-> path_exists file_path = false.
Proof.
  unfold _read_file. destruct (path_exists file_path); cbn [negb]; [|done].
  split; [|done]. repeat case_bool_decide; repeat case_match; done.
Qed.

(** X19: when [_read_file] returns a text, the file exists, its lower-cased
    extension is one of .pdf, .docx and .txt, the extractor for that extension
    gave a non-empty string, and the text returned is that string stripped; it has
    no white space at either end. *)
Theorem read_file_returns_stripped (file_path text : string) :
  read_file file_path = Py.Ok text ->
  path_exists file_path = true
  /\ Py.lower (splitext_ext file_path) ∈ supported
  /\ Py.strip text = text
  /\ exists raw,
       extraction pdf_extract_text docx2txt_process open_read_utf8 file_path = XStr raw
       /\ raw <> "" /\ text = Py.strip raw.
Proof.
  intros Hr.
  assert (path_exists file_path = true) as He.
  { destruct (path_exists file_path) eqn:E; [done|].
    apply read_file_not_found in E. congruence. }
  assert (Py.lower (splitext_ext file_path) ∈ supported) as Hs.
  { revert Hr. unfold _read_file, supported. rewrite He. cbn [negb].
    rewrite !elem_of_cons. repeat case_bool_decide; auto. done. }
  split; [done|]. split; [done|].
  rewrite (read_file_supported _ _ _ _ _ He Hs) in Hr.
  destruct (extraction _ _ _ file_path) as [raw| | |]; try done.
  destruct raw as [|c raw]; [done|]. cbn [Py.truthy] in Hr. injection Hr as <-.
  split; [apply ParserFacts.strip_strip|]. by exists (String c raw).
Qed.

(** X20: [parse_resume] never raises the error for a resume without any
    information; it raises the not-found error exactly when the path does not
    exist, and the empty-content error exactly when [_read_file] returns the empty
    string.  When it returns a record, the name, email and phone of the record
    are not empty, its total experience is the one computed from its experience
    entries, and its skills, education and experience are those extracted from
    the non-empty text that [_read_file] returned. *)
Theorem parse_resume_outcomes (file_path : string) :
  parse file_path <> Py.Raise (ParseException NoInformation)
  /\ (parse file_path = Py.Raise (ParseException NotFound)
      <-> path_exists file_path = false)
  /\ (parse file_path = Py.Raise (ParseException EmptyContent)
      <-> read_file file_path = Py.Ok "")
  /\ (forall r, parse file_path = Py.Ok r ->
        name r <> "" /\ email r <> "" /\ phone r <> ""
        /\ total_experience r = _calculate_total_experience (experience r)
        /\ exists content,
             read_file file_path = Py.Ok content /\ content <> ""
             /\ skills r = _extract_skills content
             /\ education r = _extract_education today content
             /\ experience r = _extract_experience today content).
Proof.
  rewrite <- read_file_not_found.
  destruct (read_file file_path) as [content|[|cause]] eqn:Hr.
  - destruct (decide (content = "")) as [->|Hne].
    + unfold parse_resume. rewrite Hr. cbn [Py.truthy negb].
      repeat split; try done.
    + rewrite (parse_succeeds_on_text _ _ _ _ _ _ _ _ Hr Hne).
      split; [done|]. split; [done|]. split; [split; [done|congruence]|].
      intros r [= <-]. cbn [name email phone total_experience experience skills
                             education].
      assert (forall x y, Py.truthy y = true -> or_str x y <> "") as Hor.
      { intros x y Hy Heq. pose proof (or_str_truthy x y Hy) as Ht.
        by rewrite Heq in Ht. }
      split; [by apply Hor|]. split; [by apply Hor|]. split; [by apply Hor|].
      split; [done|]. by exists content.
  - unfold parse_resume. rewrite Hr. repeat split; done.
  - unfold parse_resume. rewrite Hr. repeat split; done.
Qed.
End Parse.

Lemma extract_name_fallback_witness :
  _extract_name (fun _ => None) ("curriculum vitae" ++ nl ++ "Jane Doe, engineer") <> "".
Proof.
  exact (proj1 (extract_name_fallback (fun _ => None)
                  ("curriculum vitae" ++ nl ++ "Jane Doe, engineer") eq_refl)).
Defined.

Lemma read_file_returns_stripped_witness :
  Py.lower (splitext_ext "cv/jane.doe.TXT") ∈ supported
  /\ Py.strip "Jane Doe" = "Jane Doe"
  /\ exists raw,
       extraction (fun _ => XRaise) (fun _ => XRaise) (fun _ => XStr "  Jane Doe  ")
         "cv/jane.doe.TXT" = XStr raw
       /\ raw <> "" /\ "Jane Doe" = Py.strip raw.
Proof.
  refine (proj2 (read_file_returns_stripped (fun _ => true)
            (fun _ => XRaise) (fun _ => XRaise) (fun _ => XStr "  Jane Doe  ")
            "cv/jane.doe.TXT" "Jane Doe" _)).
  vm_compute. reflexivity.
Defined.
End ParseFacts.

Module SearchFacts.
Import Ranker RankerFacts Search.
Local Open Scope list_scope.

(** *** Scoring the dicts of a list and sorting the copies

    [search] runs, on job dicts, the steps that [rank] runs on candidate
    dicts; the text of a dict is the one thing that differs. *)

Section Pipeline.
Variable sk : Sklearn.vectorizer.
Variable prep : gmap string value -> result string.

Definition text_of (job : loc) : M string :=
  d ← get_dict job; lift (prep d).

Definition score_and_sort (items : loc) (query : string) : M loc :=
  bind (get_list items) (fun cands =>
  bind (map_m text_of cands) (fun texts =>
  bind (lift (similarity_scores sk texts query)) (fun scores =>
  bind (alloc (OList [])) (fun out =>
  bind (for_each (add_score out) (zip cands scores)) (fun _ =>
  bind (list_sort_by_score out) (fun _ =>
  ret out)))))).

Lemma texts_run h cs ds texts :
  Forall2 (fun c d => h !! c = Some (ODict d)) cs ds ->
  Forall2 (fun d t => prep d = Ok t) ds texts ->
  map_m text_of cs h = (h, Ok texts).
Proof.
  intros Hcs. revert texts. induction Hcs as [|c d cs ds Hc _ IH]; intros texts Ht.
  - by apply Forall2_nil_inv_l in Ht as ->.
  - apply Forall2_cons_inv_l in Ht as (t & texts' & Hprep & Ht & ->).
    cbn [map_m]. unfold mbind, M_bind, bind at 1.
    unfold text_of at 1, mbind, M_bind, bind, get_dict, lift. rewrite Hc, Hprep.
    unfold bind. rewrite (IH _ Ht). reflexivity.
Qed.

Lemma score_and_sort_runs h items query cs ds texts scores :
  h !! items = Some (OList cs) ->
  Forall2 (fun c d => h !! c = Some (ODict d)) cs ds ->
  Forall2 (fun d t => prep d = Ok t) ds texts ->
  similarity_scores sk texts query = Ok scores ->
  exists h' outs,
    score_and_sort items query h = (h', Ok (fresh (dom h)))
    /\ h' !! fresh (dom h) = Some (OList ((sort_desc (zip scores outs)).*2))
    /\ Forall2 (fun o x => h !! o = None /\ o ≠ fresh (dom h)
                 /\ h' !! o = Some (ODict (<["score" := VNum x.2]> x.1)))
         outs (zip ds scores).
Proof.
  intros Hc Hcs Ht Hs.
  pose proof (texts_run h cs ds texts Hcs Ht) as Hp.
  pose proof (scores_length _ _ _ _ Hs) as Hlen.
  assert (length scores = length cs) as Hlen'.
  { rewrite Hlen. apply Forall2_length in Hcs, Ht. congruence. }
  set (rc := fresh (dom h)).
  assert (rc ∉ dom h) as Hrc by apply is_fresh.
  set (h1 := <[rc := OList []]> h).
  assert (Forall2 (fun c d => h1 !! c = Some (ODict d)) cs ds) as Hcs1.
  { eapply Forall2_impl; [exact Hcs|]. intros c d Hd. cbn beta in Hd.
    unfold h1. rewrite lookup_insert_ne; [done|].
    intros <-. apply Hrc. apply elem_of_dom. by rewrite Hd. }
  assert (h1 !! rc = Some (OList [])) as Hrc1 by apply lookup_insert_eq.
  destruct (loop_spec rc cs ds scores h1 [] Hcs1 Hlen' Hrc1)
    as (h2 & outs & Hloop & Hrc2 & Hkeep & Houts).
  cbn [app] in Hrc2.
  assert (Forall2 (fun o s => exists d, h2 !! o = Some (ODict d)
                              /\ d !! "score" = Some (VNum s)) outs scores) as Hkeys.
  { assert (length ds = length scores) as Hl2
      by (apply Forall2_length in Hcs; congruence).
    clear -Houts Hl2. revert outs scores Hl2 Houts.
    induction ds as [|d ds IH]; intros outs [|s scores] Hl2 Houts; try done; cbn in *.
    - apply Forall2_nil_inv_r in Houts as ->. constructor.
    - apply Forall2_cons_inv_r in Houts as (o & outs' & [_ Ho] & Houts & ->).
      constructor; [|apply IH; [lia|done]].
      eexists. split; [exact Ho|]. apply lookup_insert_eq. }
  exists (<[rc := OList ((sort_desc (zip scores outs)).*2)]> h2), outs.
  split; [|split].
  - unfold score_and_sort.
    rewrite (bind_ok _ _ h h cs) by (unfold get_list; by rewrite Hc).
    rewrite (bind_ok _ _ h h texts) by exact Hp.
    rewrite (bind_ok _ _ h h scores) by (unfold lift; by rewrite Hs).
    rewrite (bind_ok _ _ h h1 rc) by reflexivity.
    rewrite (bind_ok _ _ h1 h2 tt) by exact Hloop.
    rewrite (bind_ok _ _ h2 _ tt)
      by exact (list_sort_spec h2 rc outs scores Hrc2 Hkeys).
    reflexivity.
  - apply lookup_insert_eq.
  - eapply Forall2_impl; [exact Houts|]. intros o x [Ho Hx].
    assert (o ≠ rc) as Hne.
    { intros ->. apply Ho. unfold h1.
      rewrite dom_insert, elem_of_union, elem_of_singleton. by left. }
    split; [|split; [done|]].
    + apply not_elem_of_dom. intros Hin. apply Ho. unfold h1.
      rewrite dom_insert, elem_of_union. by right.
    + by rewrite lookup_insert_ne.
Qed.

Lemma frame_score_and_sort D items query :
  frame D (score_and_sort items query) (fun out => out ∉ D).
Proof.
  unfold score_and_sort.
  eapply (frame_bind D (get_list items)); [apply frame_get_list|]. intros cands _.
  eapply (frame_bind D (map_m _ cands)).
  { apply frame_map_m. intros c. eapply frame_bind; [apply frame_get_dict|].
    intros d _. eapply frame_weaken; [apply frame_lift|done]. }
  intros texts _.
  eapply (frame_bind D (lift _)); [apply frame_lift|]. intros scores _.
  eapply (frame_bind D (alloc _)); [apply frame_alloc|]. intros rc Hrc.
  eapply (frame_bind D (for_each _ _));
    [apply frame_for_each; intros x; by apply frame_add_score|].
  intros _ _.
  eapply (frame_bind D (list_sort_by_score _)); [by apply frame_list_sort|].
  intros _ _. by apply frame_ret.
Qed.
End Pipeline.

(** The copies in the returned list, as a permutation of the places of the
    input that is sorted by score and keeps the input order among equal
    scores. *)
Lemma sorted_copies (h h' : heap) (ds : list (gmap string value))
    (scores : list Qc) (outs : list loc) (out : loc) :
  length scores = length ds ->
  h' !! out = Some (OList ((sort_desc (zip scores outs)).*2)) ->
  Forall2 (fun o x => h !! o = None /\ o ≠ out
               /\ h' !! o = Some (ODict (<["score" := VNum x.2]> x.1)))
    outs (zip ds scores) ->
  exists outs' perm,
    h' !! out = Some (OList outs')
    /\ perm ≡ₚ seq 0 (length ds)
    /\ Forall2 (fun o i => exists d s,
                  ds !! i = Some d /\ scores !! i = Some s /\ h !! o = None
                  /\ h' !! o = Some (ODict (<["score" := VNum s]> d)))
         outs' perm
    /\ (forall k1 k2 i1 i2 s1 s2,
          (k1 < k2)%nat -> perm !! k1 = Some i1 -> perm !! k2 = Some i2 ->
          scores !! i1 = Some s1 -> scores !! i2 = Some s2 ->
          (s2 < s1)%Qc \/ (s1 = s2 /\ (i1 < i2)%nat)).
Proof.
  intros Hlen Hout Hcopies.
  assert (length outs = length ds) as Hlenouts.
  { apply Forall2_length in Hcopies. rewrite length_zip_with in Hcopies. lia. }
  set (n := length ds) in *.
  set (T := zip scores (zip (seq 0 n) outs)).
  assert (length (seq 0 n) = length outs) as Hidx by (rewrite length_seq; lia).
  exists ((sort_desc T).*2.*2), ((sort_desc T).*2.*1).
  split; [|split; [|split]].
  - rewrite Hout. f_equal. f_equal.
    rewrite (zip_payload_snd scores (seq 0 n) outs Hidx). fold T.
    rewrite sort_desc_fmap, <- !list_fmap_compose. reflexivity.
  - rewrite sort_desc_perm. unfold T.
    transitivity ((zip scores (seq 0 n)).*2).
    + rewrite (zip_payload_fst scores (seq 0 n) outs Hidx).
      rewrite <- !list_fmap_compose. reflexivity.
    + rewrite snd_zip; [done|]. rewrite length_seq. lia.
  - rewrite <- !list_fmap_compose. apply Forall2_fmap, Forall_Forall2_diag.
    apply Forall_forall. intros [s [i o]] Hin. rewrite sort_desc_perm in Hin.
    apply elem_of_indexed in Hin as [Hsi Hoi]. cbn.
    destruct (Forall2_lookup_l _ _ _ _ _ Hcopies Hoi) as ([d s'] & Hx & Hnew & _ & Ho).
    apply lookup_zip_with_Some in Hx as (a & b & [= -> ->] & Hd & Hs').
    exists a, b. cbn in Ho. repeat split; done.
  - intros k1 k2 i1 i2 s1 s2 Hk H1 H2 Hs1 Hs2.
    assert ((sort_desc T).*2.*1 = (sort_desc (zip scores (seq 0 n))).*2) as Eperm.
    { rewrite (zip_payload_fst scores (seq 0 n) outs Hidx). fold T.
      rewrite sort_desc_fmap, <- !list_fmap_compose. reflexivity. }
    rewrite Eperm in H1, H2.
    apply list_lookup_fmap_Some in H1 as ([s1' i1'] & [= ->] & H1).
    apply list_lookup_fmap_Some in H2 as ([s2' i2'] & [= ->] & H2).
    assert (s1' = s1) as ->.
    { apply list_elem_of_lookup_2 in H1. rewrite sort_desc_perm in H1.
      apply elem_of_indexed_scores in H1. congruence. }
    assert (s2' = s2) as ->.
    { apply list_elem_of_lookup_2 in H2. rewrite sort_desc_perm in H2.
      apply elem_of_indexed_scores in H2. congruence. }
    exact (StronglySorted_lookup before _ k1 k2 _ _
             (sort_desc_sorted _ (indexed_sorted scores 0 n)) Hk H1 H2).
Qed.

(** *** [search] *)

(** The jobs that are searched: the argument, or the sample jobs when it
    is [None] or an empty list. *)
Definition choose_jobs (jobs : option loc) : M loc :=
  match jobs with
  | None => _get_sample_jobs
  | Some l =>
      items ← get_list l;
      if bool_decide (items = []) then _get_sample_jobs else mret l
  end.

Lemma bind_same_start {A B} (m1 m2 : M A) (f : A -> M B) h :
  m1 h = m2 h -> bind m1 f h = bind m2 f h.
Proof. unfold bind. by intros ->. Qed.

Lemma frame_sample_jobs D : frame D _get_sample_jobs (fun _ => True).
Proof.
  unfold _get_sample_jobs.
  eapply frame_bind; [apply frame_alloc|]. intros job1 _.
  eapply frame_bind; [apply frame_alloc|]. intros job2 _.
  eapply frame_weaken; [apply frame_alloc|done].
Qed.

Lemma frame_choose_jobs D jobs : frame D (choose_jobs jobs) (fun _ => True).
Proof.
  destruct jobs as [l|]; [|apply frame_sample_jobs]. unfold choose_jobs.
  eapply frame_bind; [apply frame_get_list|]. intros items _.
  case_bool_decide; [apply frame_sample_jobs|by apply frame_ret].
Qed.

Definition sample_text_1 : string :=
  Py.join " " [ "Senior Python Developer"; "Tech Corp";
                "We are looking for a Senior Python Developer to join our team...";
                "5+ years of Python experience"; "Experience with Django or Flask";
                "Strong knowledge of SQL"; "Experience with AWS" ].

Definition sample_text_2 : string :=
  Py.join " " [ "Machine Learning Engineer"; "AI Solutions";
                "Join our AI team to build cutting-edge machine learning solutions...";
                "MS or PhD in Computer Science or related field";
                "Experience with PyTorch or TensorFlow";
                "Strong background in machine learning"; "Experience with NLP" ].

Section Search.
Variable sk : Sklearn.vectorizer.
Variable nlp_clean : string -> string.

Lemma search_unfold query jobs :
  search sk nlp_clean query jobs
  = bind (choose_jobs jobs)
      (fun l => score_and_sort sk (_prepare_job_text nlp_clean) l query).
Proof. reflexivity. Qed.

Lemma frame_search D query jobs :
  frame D (search sk nlp_clean query jobs) (fun out => out ∉ D).
Proof.
  rewrite search_unfold.
  eapply (frame_bind D (choose_jobs jobs)); [apply frame_choose_jobs|].
  intros l _. apply frame_score_and_sort.
Qed.

(** X21: [search] does not write to its input.  Whatever the call does
    (with a list of jobs, an empty list or none, returning or raising), every
    object of the store before the call is the same object after it, and the
    list it returns is a new object. *)
Theorem search_leaves_store_alone (h : heap) (query : string) (jobs : option loc) :
  (forall l o, h !! l = Some o ->
     (search sk nlp_clean query jobs h).1 !! l = Some o)
  /\ (forall out, (search sk nlp_clean query jobs h).2 = Ok out -> h !! out = None).
Proof.
  destruct (frame_search (dom h) query jobs h) as [Hkeep Hout]; [done|]. split.
  - intros l o Hl. rewrite Hkeep; [done|]. apply elem_of_dom. by rewrite Hl.
  - intros out Hrun. by apply not_elem_of_dom, Hout.
Qed.

(** X22: [search] on an empty list of jobs does what it does without a
    list: it searches the sample jobs. *)
Theorem search_empty_is_default (h : heap) (query : string) (l : loc) :
  h !! l = Some (OList []) ->
  search sk nlp_clean query (Some l) h = search sk nlp_clean query None h.
Proof.
  intros Hl. rewrite !search_unfold. apply bind_same_start.
  unfold choose_jobs, mbind, M_bind, bind, get_list. rewrite Hl.
  by rewrite bool_decide_eq_true_2.
Qed.

(** A call on a list of job dicts whose texts can be prepared and
    scored. *)
Record searchable (h : heap) (jobs : loc) (query : string)
    (cs : list loc) (ds : list (gmap string value)) (scores : list Qc) : Prop := {
  sj_list : h !! jobs = Some (OList cs);
  sj_nonempty : cs <> [];
  sj_dicts : Forall2 (fun c d => h !! c = Some (ODict d)) cs ds;
  sj_scores : exists texts,
    Forall2 (fun d t => _prepare_job_text nlp_clean d = Ok t) ds texts
    /\ similarity_scores sk texts query = Ok scores
}.

(** X23: on a non-empty list of job dicts whose texts can be prepared and
    scored, [search] returns a new list that holds, for a permutation [perm] of
    the input positions, a new dict equal to job [perm k] with its score at place
    [k]; the scores never increase along the list, and of two jobs with equal
    scores the one that comes first in the input comes first in the output. *)
Theorem search_sorted_stable (h : heap) (jobs : loc) (query : string)
    (cs : list loc) (ds : list (gmap string value)) (scores : list Qc) :
  searchable h jobs query cs ds scores ->
  exists h' out outs perm,
    search sk nlp_clean query (Some jobs) h = (h', Ok out)
    /\ h' !! out = Some (OList outs)
    /\ perm ≡ₚ seq 0 (length ds)
    /\ Forall2 (fun o i => exists d s,
                  ds !! i = Some d /\ scores !! i = Some s /\ h !! o = None
                  /\ h' !! o = Some (ODict (<["score" := VNum s]> d)))
         outs perm
    /\ (forall k1 k2 i1 i2 s1 s2,
          (k1 < k2)%nat -> perm !! k1 = Some i1 -> perm !! k2 = Some i2 ->
          scores !! i1 = Some s1 -> scores !! i2 = Some s2 ->
          (s2 < s1)%Qc \/ (s1 = s2 /\ (i1 < i2)%nat)).
Proof.
  intros [Hl Hne Hcs (texts & Ht & Hs)].
  destruct (score_and_sort_runs sk (_prepare_job_text nlp_clean)
              h jobs query cs ds texts scores Hl Hcs Ht Hs)
    as (h' & outs & Hrun & Hout & Hcopies).
  assert (length scores = length ds) as Hlen.
  { rewrite (scores_length _ _ _ _ Hs). apply Forall2_length in Ht. congruence. }
  destruct (sorted_copies h h' ds scores outs _ Hlen Hout Hcopies)
    as (outs' & perm & H1 & H2 & H3 & H4).
  exists h', (fresh (dom h)), outs', perm. split; [|done].
  rewrite search_unfold.
  rewrite (bind_ok _ _ h h jobs); [exact Hrun|].
  unfold choose_jobs, mbind, M_bind, bind, get_list. rewrite Hl.
  by rewrite bool_decide_eq_false_2.
Qed.

Lemma prepare_sample_1 :
  _prepare_job_text nlp_clean sample_job_1 = Ok (nlp_clean sample_text_1).
Proof. vm_compute. reflexivity. Qed.

Lemma prepare_sample_2 :
  _prepare_job_text nlp_clean sample_job_2 = Ok (nlp_clean sample_text_2).
Proof. vm_compute. reflexivity. Qed.

Lemma sort_two {A} (s1 s2 : Qc) (o1 o2 : A) :
  (sort_desc (zip [s1; s2] [o1; o2])).*2
  = if bool_decide (s2 ≤ s1)%Qc then [o1; o2] else [o2; o1].
Proof. unfold sort_desc. cbn. by case_bool_decide. Qed.

(** X24: without a list of jobs, and when the vectorizer scores the texts
    of the two sample jobs [s1] and [s2], [search] returns a new list of two new
    dicts: the first sample job with the score [s1] and the second with [s2], the
    first one first unless [s2] is greater than [s1]. *)
Theorem search_sample_jobs (h : heap) (query : string) (s1 s2 : Qc) :
  similarity_scores sk [nlp_clean sample_text_1; nlp_clean sample_text_2] query
  = Ok [s1; s2] ->
  exists h' out o1 o2,
    search sk nlp_clean query None h = (h', Ok out)
    /\ h' !! out = Some (OList (if bool_decide (s2 ≤ s1)%Qc
                                then [o1; o2] else [o2; o1]))
    /\ h' !! o1 = Some (ODict (<["score" := VNum s1]> sample_job_1))
    /\ h' !! o2 = Some (ODict (<["score" := VNum s2]> sample_job_2))
    /\ h !! out = None /\ h !! o1 = None /\ h !! o2 = None.
Proof.
  intros Hs. rewrite search_unfold.
  set (j1 := fresh (dom h)).
  set (h1 := <[j1 := ODict sample_job_1]> h).
  set (j2 := fresh (dom h1)).
  set (h2 := <[j2 := ODict sample_job_2]> h1).
  set (jl := fresh (dom h2)).
  set (h3 := <[jl := OList [j1; j2]]> h2).
  rewrite (bind_ok _ _ h h3 jl) by reflexivity.
  assert (j1 ∉ dom h) as Hj1 by apply is_fresh.
  assert (j2 ∉ dom h1) as Hj2 by apply is_fresh.
  assert (jl ∉ dom h2) as Hjl by apply is_fresh.
  assert (j2 ≠ j1) as H21.
  { intros E. apply Hj2. rewrite E. unfold h1. rewrite dom_insert. set_solver. }
  assert (jl ≠ j2) as Hl2.
  { intros E. apply Hjl. rewrite E. unfold h2. rewrite dom_insert. set_solver. }
  assert (jl ≠ j1) as Hl1.
  { intros E. apply Hjl. rewrite E. unfold h2, h1. rewrite !dom_insert. set_solver. }
  assert (forall l, h3 !! l = None -> h !! l = None) as Hnew.
  { intros l. unfold h3, h2, h1. rewrite !lookup_insert_None. tauto. }
  assert (h3 !! jl = Some (OList [j1; j2])) as Hlist by apply lookup_insert_eq.
  assert (Forall2 (fun c d => h3 !! c = Some (ODict d)) [j1; j2]
            [sample_job_1; sample_job_2]) as Hds.
  { constructor; [|constructor; [|constructor]]; unfold h3, h2, h1.
    - rewrite !lookup_insert_ne by done. apply lookup_insert_eq.
    - rewrite lookup_insert_ne by done. apply lookup_insert_eq. }
  assert (Forall2 (fun d t => _prepare_job_text nlp_clean d = Ok t)
            [sample_job_1; sample_job_2]
            [nlp_clean sample_text_1; nlp_clean sample_text_2]) as Hts.
  { constructor; [apply prepare_sample_1|].
    constructor; [apply prepare_sample_2|constructor]. }
  destruct (score_and_sort_runs sk (_prepare_job_text nlp_clean) h3 jl query
              _ _ _ _ Hlist Hds Hts Hs) as (h' & outs & Hrun & Hout & Hcopies).
  cbn [zip zip_with] in Hcopies.
  apply Forall2_cons_inv_r in Hcopies as (o1 & outs1 & (N1 & _ & C1) & Hcopies & ->).
  apply Forall2_cons_inv_r in Hcopies as (o2 & outs2 & (N2 & _ & C2) & Hcopies & ->).
  apply Forall2_nil_inv_r in Hcopies as ->.
  exists h', (fresh (dom h3)), o1, o2. split; [exact Hrun|].
  split; [by rewrite Hout, sort_two|]. split; [exact C1|]. split; [exact C2|].
  split; [|split]; apply Hnew; try done.
  apply not_elem_of_dom, is_fresh.
Qed.
End Search.

(** *** Runs on small stores *)

Definition analyst : gmap string value :=
  {[ "title" := VStr "data analyst"; "company" := VStr "acme";
     "description" := VStr "reports"; "requirements" := VList [VStr "sql"] ]}.
Definition tuner : gmap string value :=
  {[ "title" := VStr "sql tuner"; "company" := VStr "ibm" ]}.
Definition trainer : gmap string value :=
  {[ "title" := VStr "trainer"; "location" := VStr "Oslo";
     "description" := VStr "teaches" ]}.

Definition jobs0 : heap :=
  {[ 1%positive := ODict analyst; 2%positive := ODict tuner;
     3%positive := ODict trainer; 4%positive := OList [1; 2; 3]%positive;
     5%positive := OList [] ]}.

Lemma jobs0_searchable :
  searchable toy_vectorizer id jobs0 4%positive "python"
    [1; 2; 3]%positive [analyst; tuner; trainer] [Q2Qc 0.5; 0%Qc; Q2Qc 0.5].
Proof.
  split.
  - reflexivity.
  - discriminate.
  - repeat constructor.
  - exists ["data analyst acme reports sql"; "sql tuner ibm "; "trainer  teaches"].
    split.
    + repeat constructor.
    + vm_compute. reflexivity.
Qed.

Lemma search_sorted_stable_witness :
  exists h' out outs perm,
    search toy_vectorizer id "python" (Some 4%positive) jobs0 = (h', Ok out)
    /\ h' !! out = Some (OList outs)
    /\ perm ≡ₚ seq 0 (length [analyst; tuner; trainer])
    /\ Forall2 (fun o i => exists d s,
                  [analyst; tuner; trainer] !! i = Some d
                  /\ [Q2Qc 0.5; 0%Qc; Q2Qc 0.5] !! i = Some s /\ jobs0 !! o = None
                  /\ h' !! o = Some (ODict (<["score" := VNum s]> d)))
         outs perm
    /\ (forall k1 k2 i1 i2 s1 s2,
          (k1 < k2)%nat -> perm !! k1 = Some i1 -> perm !! k2 = Some i2 ->
          [Q2Qc 0.5; 0%Qc; Q2Qc 0.5] !! i1 = Some s1 ->
          [Q2Qc 0.5; 0%Qc; Q2Qc 0.5] !! i2 = Some s2 ->
          (s2 < s1)%Qc \/ (s1 = s2 /\ (i1 < i2)%nat)).
Proof.
  exact (search_sorted_stable toy_vectorizer id jobs0 4%positive "python"
           [1; 2; 3]%positive [analyst; tuner; trainer] [Q2Qc 0.5; 0%Qc; Q2Qc 0.5]
           jobs0_searchable).
Defined.

Lemma search_empty_is_default_witness :
  search toy_vectorizer id "python" (Some 5%positive) jobs0
  = search toy_vectorizer id "python" None jobs0.
Proof. apply search_empty_is_default. reflexivity. Defined.

Lemma search_sample_jobs_witness :
  exists h' out o1 o2,
    search toy_vectorizer id "python" None jobs0 = (h', Ok out)
    /\ h' !! out = Some (OList (if bool_decide (Q2Qc 0.5 ≤ Q2Qc 0.5)%Qc
                                then [o1; o2] else [o2; o1]))
    /\ h' !! o1 = Some (ODict (<["score" := VNum (Q2Qc 0.5)]> sample_job_1))
    /\ h' !! o2 = Some (ODict (<["score" := VNum (Q2Qc 0.5)]> sample_job_2))
    /\ jobs0 !! out = None /\ jobs0 !! o1 = None /\ jobs0 !! o2 = None.
Proof.
  apply (search_sample_jobs toy_vectorizer id jobs0 "python" (Q2Qc 0.5) (Q2Qc 0.5)).
  vm_compute. reflexivity.
Defined.
End SearchFacts.

Module CandidateTextFacts.
Import Ranker RankerFacts.
Local Open Scope list_scope.

Lemma join_strings (ss : list string) :
  join_values (VStr <$> ss) = Ok (Py.join " " ss).
Proof.
  unfold join_values.
  assert (mapM (fun v => match v with VStr s => Some s | _ => None end) (VStr <$> ss)
          = Some ss) as ->; [|done].
  induction ss as [|s ss IH]; [done|]. cbn. by rewrite IH.
Qed.

Section Text.
Variable nlp_clean : string -> string.

(** X25: for a candidate dict without education and experience,
    [_prepare_candidate_text] returns the cleaned empty text when there are no
    skills and the cleaned text of the skills joined by blanks when the skills are
    a list of strings; skills given as one string are taken character by
    character; skills that are [None] or a number, or a list that starts with a
    number, raise a type error. *)
Theorem prepare_candidate_text_skills_only (candidate : gmap string value) :
  candidate !! "education" = None ->
  candidate !! "experience" = None ->
  (candidate !! "skills" = None ->
     _prepare_candidate_text nlp_clean candidate = Ok (nlp_clean ""))
  /\ (forall skills, candidate !! "skills" = Some (VList (VStr <$> skills)) ->
        _prepare_candidate_text nlp_clean candidate
        = Ok (nlp_clean (Py.join " " skills)))
  /\ (forall skills, candidate !! "skills" = Some (VStr skills) ->
        _prepare_candidate_text nlp_clean candidate
        = Ok (nlp_clean (Py.join " " ((fun c => String c "")
                                        <$> list_ascii_of_string skills))))
  /\ (forall x, candidate !! "skills" = Some VNone
                \/ candidate !! "skills" = Some (VNum x) ->
        _prepare_candidate_text nlp_clean candidate = Raise TypeError)
  /\ (forall x rest, candidate !! "skills" = Some (VList (VNum x :: rest)) ->
        _prepare_candidate_text nlp_clean candidate = Raise TypeError).
Proof.
  intros He Hx. unfold _prepare_candidate_text. rewrite He, Hx.
  split; [by intros ->|]. split; [|split; [|split]].
  - intros skills ->. cbn [iterate rbind app]. by rewrite join_strings.
  - intros skills ->. cbn [iterate rbind app].
    replace ((fun c => VStr (String c "")) <$> list_ascii_of_string skills)
      with (VStr <$> ((fun c => String c "") <$> list_ascii_of_string skills))
      by (by rewrite <- list_fmap_compose).
    by rewrite join_strings.
  - by intros x [-> | ->].
  - by intros x rest ->.
Qed.
End Text.

Lemma prepare_candidate_text_skills_only_witness :
  _prepare_candidate_text id {[ "name" := VStr "Eve"; "skills" := VStr "go" ]}
  = Ok "g o".
Proof.
  refine (proj1 (proj2 (proj2
            (prepare_candidate_text_skills_only id
               {[ "name" := VStr "Eve"; "skills" := VStr "go" ]} _ _))) "go" _);
    reflexivity.
Defined.
End CandidateTextFacts.
